(** * Offline-first synchronisation of the grimoire application

A shallow embedding of [src/lib/cacheManager.ts], of the hook
[useFavoritePresetsWithCache] and of the hook [useNetworkStatus],
followed by the properties of the local cache, of the queue of pending
operations and of the reconciliation with the remote store.

Conventions of the embedding.
- An [async] function is a state transformer that also says whether its
  promise resolved or rejected ([Async]); the state keeps every change
  made before a rejection.
- The browser is part of the state: the outcome of [indexedDB.open], the
  successive readings of [Date.now()] and the successive renderings of
  [Math.random()].
- An IndexedDB object store is the list of its records in ascending order
  of primary key, which is the order in which [getAll] on the store, and
  [getAll] on an index for one index value, deliver them.
- Requests on an open database succeed; only opening it can fail. *)

From Stdlib Require Import String Ascii List ZArith Lia Bool.
From Stdlib Require Import DecimalString OrderedTypeEx Sorted Permutation.
Import ListNotations.

Local Open Scope string_scope.
Local Open Scope list_scope.

(* ================================================================== *)
(** * JavaScript values *)

(** [String.prototype.startsWith]. *)
Definition startsWith (s pre : string) : bool := String.prefix pre s.

(** The rendering of an integer inside a template literal. *)
Definition string_of_Z (z : Z) : string := NilZero.string_of_int (Z.to_int z).

(** Truthiness of an optional number: [undefined] and [0] are falsy. *)
Definition truthy_num (n : option Z) : bool :=
  match n with
  | None => false
  | Some z => negb (z =? 0)%Z
  end.

(** Truthiness of an optional string: [undefined], [null] and the empty
    string are falsy. *)
Definition truthy_str (s : option string) : bool :=
  match s with
  | None => false
  | Some x => negb (x =? "")
  end.

(** [a || b] on optional strings. *)
Definition or_else (a b : option string) : option string :=
  if truthy_str a then a else b.

Definition opt_eqb (a : option string) (b : string) : bool :=
  match a with
  | Some x => x =? b
  | None => false
  end.

(* ================================================================== *)
(** * Promises: state and rejection *)

Inductive Err : Type :=
| DOMException (msg : string)
| PostgrestError (msg : string).

Inductive Res (A : Type) : Type :=
| Resolved (a : A)
| Rejected (e : Err).
Arguments Resolved {A} a.
Arguments Rejected {A} e.

Definition Async (S A : Type) : Type := S -> S * Res A.

Definition ret {S A : Type} (a : A) : Async S A := fun s => (s, Resolved a).

Definition throw {S A : Type} (e : Err) : Async S A := fun s => (s, Rejected e).

Definition bind {S A B : Type} (m : Async S A) (k : A -> Async S B) : Async S B :=
  fun s =>
    match m s with
    | (s', Resolved a) => k a s'
    | (s', Rejected e) => (s', Rejected e)
    end.

(** [try { m } catch (e) { h e }]. *)
Definition try_catch {S A : Type} (m : Async S A) (h : Err -> Async S A) : Async S A :=
  fun s =>
    match m s with
    | (s', Resolved a) => (s', Resolved a)
    | (s', Rejected e) => h e s'
    end.

(** [try { m } finally { f }], for an [f] that does not itself throw. *)
Definition finally {S A : Type} (m : Async S A) (f : S -> S) : Async S A :=
  fun s => let (s', r) := m s in (f s', r).

Definition get {S : Type} : Async S S := fun s => (s, Resolved s).

Definition modify {S : Type} (f : S -> S) : Async S unit :=
  fun s => (f s, Resolved tt).

(** A promise that is started and not awaited, with [.catch(console.warn)],
    followed by the rest of the function: [m(...).catch(console.warn); rest].
    The call only starts [m] where it is made: an async function is
    suspended at its first [await] and at every request it waits for, so
    what [m] does to the store, and its readings of the clock, come after
    those of the calls that [rest] awaits. The model lets [m] finish when
    [rest] has run, before the function returns; a rejection of [m] is
    dropped, and the result is that of [rest]. *)
Definition detached {S A B : Type} (m : Async S A) (rest : Async S B) : Async S B :=
  fun s => let (s', r) := rest s in (fst (m s'), r).

Declare Scope async_scope.
Delimit Scope async_scope with async.
Notation "x <- m ;; k" := (bind m (fun x => k))
  (at level 61, m at next level, right associativity) : async_scope.
Notation "m ;;; k" := (bind m (fun _ => k))
  (at level 61, right associativity) : async_scope.
Local Open Scope async_scope.

(* ================================================================== *)
(** * Object stores *)

Module ObjectStore.
Section Store.
Variable R : Type.
Variable key : R -> string.

(** [store.put(r)]: upsert at the position of the key. The store keeps its
    records in ascending order of key. Keys are compared here with
    [String.compare], character by character, a character standing for one
    unit of the key; IndexedDB compares string keys by their UTF-16 code
    units. The two orders agree on the keys that this code builds itself
    (the ids of operations, ["<type>_<time>_<random>"], are ASCII); for keys
    with characters outside the ASCII range the order of a read is not
    claimed, only what it contains. *)
Fixpoint put (r : R) (s : list R) : list R :=
  match s with
  | [] => [r]
  | x :: s' =>
      match String.compare (key r) (key x) with
      | Lt => r :: x :: s'
      | Eq => r :: s'
      | Gt => x :: put r s'
      end
  end.

(** [store.delete(k)]: no error when the key is absent. *)
Definition delete (k : string) (s : list R) : list R :=
  filter (fun x => negb (key x =? k)) s.

(** [store.getAll()]. *)
Definition getAll (s : list R) : list R := s.

(** [store.get(k)]. *)
Definition lookup (k : string) (s : list R) : option R :=
  find (fun x => key x =? k) s.

(** [store.index(ix).getAll(v)]: the records whose index key is [v], in
    ascending order of primary key. *)
Definition index_getAll (ix : R -> string) (v : string) (s : list R) : list R :=
  filter (fun x => ix x =? v) s.

(** Deleting through a cursor opened on [store.index(ix)] at [v]. *)
Definition index_deleteAll (ix : R -> string) (v : string) (s : list R) : list R :=
  filter (fun x => negb (ix x =? v)) s.

Definition key_lt (a b : R) : Prop := String.compare (key a) (key b) = Lt.

(** The records of a store are in strictly ascending order of key. *)
Definition wf (s : list R) : Prop := StronglySorted key_lt s.

End Store.
End ObjectStore.

Arguments ObjectStore.put {R} key r s.
Arguments ObjectStore.delete {R} key k s.
Arguments ObjectStore.getAll {R} s.
Arguments ObjectStore.lookup {R} key k s.
Arguments ObjectStore.index_getAll {R} ix v s.
Arguments ObjectStore.index_deleteAll {R} ix v s.
Arguments ObjectStore.key_lt {R} key a b.
Arguments ObjectStore.wf {R} key s.

(* ================================================================== *)
(** * Data model *)

(** [Spell], from the hook [useSpells]. *)
Record Spell : Type := {
  spell_id : string;
  spell_name : string;
  spell_level : Z;
  spell_school : string;
  spell_classes : list string;
  spell_source : string
}.

(** [FavoritePreset], from the hook [useFavoritePresets]. *)
Record FavoritePreset : Type := {
  id : string;
  name : string;
  description : option string;
  spell_ids : list string;
  user_id : string;
  created_at : string;
  updated_at : string
}.

(** A record of the [spells] store: [CachedData<Spell> & { id }]. *)
Record SpellRow : Type := {
  sr_data : Spell;
  sr_cached_at : Z;
  sr_ttl : option Z;
  sr_id : string
}.

(** A record of the [favorite_presets] store:
    [CachedData<FavoritePreset> & { id, user_id }]. *)
Record PresetRow : Type := {
  pr_data : FavoritePreset;
  pr_cached_at : Z;
  pr_ttl : option Z;
  pr_id : string;
  pr_user_id : string
}.

Inductive OpType : Type :=
| CREATE_PRESET
| UPDATE_PRESET
| DELETE_PRESET
| ADD_SPELL
| REMOVE_SPELL.

Definition OpType_name (t : OpType) : string :=
  match t with
  | CREATE_PRESET => "CREATE_PRESET"
  | UPDATE_PRESET => "UPDATE_PRESET"
  | DELETE_PRESET => "DELETE_PRESET"
  | ADD_SPELL => "ADD_SPELL"
  | REMOVE_SPELL => "REMOVE_SPELL"
  end.

(** The argument of [updatePreset]: every field is optional. *)
Record Updates : Type := {
  u_name : option string;
  u_description : option string;
  u_spell_ids : option (list string)
}.

(** The payload [newPresetData] of an insertion. *)
Record NewPresetData : Type := {
  n_name : string;
  n_description : option string;
  n_user_id : string;
  n_spell_ids : list string
}.

(** The field [data : any] of a pending operation, in the three shapes the
    application writes. *)
Inductive Payload : Type :=
| PresetFields (d : NewPresetData)
| UpdateTarget (target : string) (updates : Updates)
| DeleteTarget (target : string).

(** [data.id]: [undefined] on a payload without that property. *)
Definition payload_id (p : Payload) : option string :=
  match p with
  | PresetFields _ => None
  | UpdateTarget i _ => Some i
  | DeleteTarget i => Some i
  end.

(** [data.updates]. *)
Definition payload_updates (p : Payload) : option Updates :=
  match p with
  | UpdateTarget _ u => Some u
  | _ => None
  end.

Record PendingOperation : Type := {
  op_id : string;
  op_type : OpType;
  op_data : Payload;
  op_timestamp : Z;
  op_user_id : string
}.

Record MagiaLink : Type := {
  magia : string;
  classe : string;
  ml_cached_at : Z
}.

(** A record of the [metadata] store. *)
Record MetaRow : Type := {
  m_key : string;
  m_value : Z;
  m_updated_at : Z
}.

(** The database [GrimoireCache] with its five object stores. *)
Record DB : Type := {
  spells : list SpellRow;
  favorite_presets : list PresetRow;
  magia_links : list MagiaLink;
  pending_operations : list PendingOperation;
  metadata : list MetaRow
}.

Definition empty_DB : DB :=
  {| spells := []; favorite_presets := []; magia_links := [];
     pending_operations := []; metadata := [] |}.

Definition set_spells (f : list SpellRow -> list SpellRow) (d : DB) : DB :=
  {| spells := f (spells d); favorite_presets := favorite_presets d;
     magia_links := magia_links d; pending_operations := pending_operations d;
     metadata := metadata d |}.

Definition set_favorite_presets (f : list PresetRow -> list PresetRow) (d : DB) : DB :=
  {| spells := spells d; favorite_presets := f (favorite_presets d);
     magia_links := magia_links d; pending_operations := pending_operations d;
     metadata := metadata d |}.

Definition set_pending_operations
  (f : list PendingOperation -> list PendingOperation) (d : DB) : DB :=
  {| spells := spells d; favorite_presets := favorite_presets d;
     magia_links := magia_links d; pending_operations := f (pending_operations d);
     metadata := metadata d |}.

Definition set_metadata (f : list MetaRow -> list MetaRow) (d : DB) : DB :=
  {| spells := spells d; favorite_presets := favorite_presets d;
     magia_links := magia_links d; pending_operations := pending_operations d;
     metadata := f (metadata d) |}.

Definition set_magia_links (f : list MagiaLink -> list MagiaLink) (d : DB) : DB :=
  {| spells := spells d; favorite_presets := favorite_presets d;
     magia_links := f (magia_links d); pending_operations := pending_operations d;
     metadata := metadata d |}.

(** The order of the compound keys [[magia, classe]] of the [magia_links]
    store: arrays are compared element by element. *)
Definition link_compare (a b : MagiaLink) : comparison :=
  match String.compare (magia a) (magia b) with
  | Eq => String.compare (classe a) (classe b)
  | c => c
  end.

(** [store.put(link)] on the [magia_links] store. *)
Fixpoint put_link (r : MagiaLink) (s : list MagiaLink) : list MagiaLink :=
  match s with
  | [] => [r]
  | x :: s' =>
      match link_compare r x with
      | Lt => r :: x :: s'
      | Eq => r :: s'
      | Gt => x :: put_link r s'
      end
  end.

(* ================================================================== *)
(** * The browser and the cache manager *)

(** What [indexedDB.open(DB_NAME, DB_VERSION)] does: [onsuccess] with the
    database as stored (its object stores created by [onupgradeneeded] when
    missing), or [onerror]. *)
Inductive OpenResult : Type :=
| OpenSuccess (d : DB)
| OpenError (e : Err).

Record Browser : Type := {
  idb_open : OpenResult;
  now_at : nat -> Z;          (* the n-th reading of Date.now() *)
  now_ix : nat;
  random_at : nat -> string;  (* the n-th Math.random(), as rendered *)
  random_ix : nat;
  toISOString : Z -> string   (* new Date(ms).toISOString() *)
}.

(** The fields of the class [CacheManager]. *)
Record CacheManager : Type := {
  db : option DB;
  initialized : bool
}.

(** The state the methods of the cache manager run in. *)
Record Sys : Type := {
  this : CacheManager;
  browser : Browser
}.

Definition set_this (c : CacheManager) (s : Sys) : Sys :=
  {| this := c; browser := browser s |}.

(** The browser once [Date.now()] has been read. *)
Definition tick (b : Browser) : Browser :=
  {| idb_open := idb_open b; now_at := now_at b; now_ix := S (now_ix b);
     random_at := random_at b; random_ix := random_ix b;
     toISOString := toISOString b |}.

(** The browser once [Math.random()] has been drawn. *)
Definition draw (b : Browser) : Browser :=
  {| idb_open := idb_open b; now_at := now_at b; now_ix := now_ix b;
     random_at := random_at b; random_ix := S (random_ix b);
     toISOString := toISOString b |}.

(** The next reading of the clock. *)
Definition next_now (b : Browser) : Z := now_at b (now_ix b).

Definition next_random (b : Browser) : string := random_at b (random_ix b).

Definition Date_now : Async Sys Z :=
  fun s => ({| this := this s; browser := tick (browser s) |},
            Resolved (next_now (browser s))).

Definition Math_random : Async Sys string :=
  fun s => ({| this := this s; browser := draw (browser s) |},
            Resolved (next_random (browser s))).

(** A request on the open database. *)
Definition update_db (f : DB -> DB) : Async Sys unit :=
  modify (fun s =>
    match db (this s) with
    | Some d => set_this {| db := Some (f d); initialized := initialized (this s) |} s
    | None => s
    end).

Module CacheManager.

Definition initialize : Async Sys unit :=
  fun s =>
    if initialized (this s) then (s, Resolved tt)
    else
      match idb_open (browser s) with
      | OpenSuccess d =>
          (set_this {| db := Some d; initialized := true |} s, Resolved tt)
      | OpenError e => (s, Rejected e)
      end.

Definition ensureInitialized : Async Sys unit :=
  fun s => if initialized (this s) then (s, Resolved tt) else initialize s.

(** The common prologue [await this.ensureInitialized(); if (!this.db) return dflt;]. *)
Definition with_db {A : Type} (dflt : A) (body : DB -> Async Sys A) : Async Sys A :=
  ensureInitialized ;;;
  s <- get ;;
  match db (this s) with
  | None => ret dflt
  | Some d => body d
  end.

Definition setMetadata (key : string) (value : Z) : Async Sys unit :=
  with_db tt (fun _ =>
    now <- Date_now ;;
    update_db (set_metadata
      (ObjectStore.put m_key {| m_key := key; m_value := value; m_updated_at := now |}))).

Definition getMetadata (key : string) : Async Sys (option Z) :=
  with_db None (fun d =>
    ret (option_map m_value (ObjectStore.lookup m_key key (metadata d)))).

Definition ttl_24h : Z := 24 * 60 * 60 * 1000.

Definition cacheSpells (l : list Spell) : Async Sys unit :=
  with_db tt (fun _ =>
    cached_at <- Date_now ;;
    update_db (set_spells (fun st =>
      fold_left (fun acc spell =>
        ObjectStore.put sr_id
          {| sr_data := spell; sr_cached_at := cached_at;
             sr_ttl := Some ttl_24h; sr_id := spell_id spell |} acc) l st)) ;;;
    setMetadata "spells_last_sync" cached_at).

(** The filter of [getCachedSpells]:
    [!cached.ttl || (now - cached.cached_at) < cached.ttl]. *)
Definition spell_valid (now : Z) (c : SpellRow) : bool :=
  negb (truthy_num (sr_ttl c))
  || match sr_ttl c with
     | Some t => (now - sr_cached_at c <? t)%Z
     | None => false
     end.

Definition getCachedSpells : Async Sys (list Spell) :=
  with_db [] (fun d =>
    let cachedSpells := ObjectStore.getAll (spells d) in
    now <- Date_now ;;
    ret (map sr_data (filter (spell_valid now) cachedSpells))).

Definition clearUserPresets (userId : string) : Async Sys unit :=
  s <- get ;;
  match db (this s) with
  | None => ret tt
  | Some _ =>
      update_db (set_favorite_presets (ObjectStore.index_deleteAll pr_user_id userId))
  end.

Definition cacheFavoritePresets (presets : list FavoritePreset) (userId : string)
  : Async Sys unit :=
  with_db tt (fun _ =>
    try_catch
      (clearUserPresets userId ;;;
       cached_at <- Date_now ;;
       update_db (set_favorite_presets (fun st =>
         fold_left (fun acc preset =>
           ObjectStore.put pr_id
             {| pr_data := preset; pr_cached_at := cached_at; pr_ttl := None;
                pr_id := id preset; pr_user_id := userId |} acc) presets st)) ;;;
       setMetadata ("presets_last_sync_" ++ userId)%string cached_at)
      (fun _ => ret tt)).

Definition getCachedFavoritePresets (userId : string) : Async Sys (list FavoritePreset) :=
  with_db [] (fun d =>
    let cachedPresets := ObjectStore.index_getAll pr_user_id userId (favorite_presets d) in
    ret (map pr_data cachedPresets)).

(** [Omit<PendingOperation, 'id' | 'timestamp'>]. *)
Record NewOperation : Type := {
  new_type : OpType;
  new_data : Payload;
  new_user_id : string
}.

Definition addPendingOperation (operation : NewOperation) : Async Sys string :=
  with_db "" (fun _ =>
    t1 <- Date_now ;;
    r <- Math_random ;;
    let id := (OpType_name (new_type operation) ++ "_" ++ string_of_Z t1 ++ "_" ++ r)%string in
    t2 <- Date_now ;;
    let pendingOp :=
      {| op_id := id; op_type := new_type operation; op_data := new_data operation;
         op_timestamp := t2; op_user_id := new_user_id operation |} in
    update_db (set_pending_operations (ObjectStore.put op_id pendingOp)) ;;;
    ret id).

Definition getPendingOperations (userId : string) : Async Sys (list PendingOperation) :=
  with_db [] (fun d =>
    ret (ObjectStore.index_getAll op_user_id userId (pending_operations d))).

Definition removePendingOperation (id : string) : Async Sys unit :=
  with_db tt (fun _ =>
    update_db (set_pending_operations (ObjectStore.delete op_id id))).

Definition clearCache : Async Sys unit :=
  with_db tt (fun _ => update_db (fun _ => empty_DB)).

(** A link as the remote tables deliver it: [{ magia, classe }]. *)
Definition Link : Type := (string * string)%type.

Definition cacheMagiaLinks (links : list Link) : Async Sys unit :=
  with_db tt (fun _ =>
    cached_at <- Date_now ;;
    update_db (set_magia_links (fun st =>
      fold_left (fun acc link =>
        put_link {| magia := fst link; classe := snd link; ml_cached_at := cached_at |}
          acc) links st)) ;;;
    setMetadata "magia_links_last_sync" cached_at).

Definition getCachedMagiaLinks : Async Sys (list Link) :=
  with_db [] (fun d =>
    ret (map (fun l => (magia l, classe l)) (magia_links d))).

(** [getCacheSize]: the records of four stores are counted, [metadata] is
    not. *)
Definition getCacheSize : Async Sys nat :=
  with_db 0 (fun d =>
    ret (fold_left Nat.add
           [length (spells d); length (favorite_presets d);
            length (magia_links d); length (pending_operations d)] 0)).

End CacheManager.

(* ================================================================== *)
(** * The remote store and the state of the hooks *)

Record User : Type := { uid : string }.

(** [NetworkStatus], the state of the hook [useNetworkStatus]. *)
Record NetworkStatus : Type := {
  isOnline : bool;
  isConnected : bool;
  pendingOperations : nat;
  lastSyncTime : option Z;
  syncing : bool
}.

(** The notifications of [useNetworkStatus], by title: ["Sincronizado"] with
    the number of operations synchronised, ["Erro de sincronização"] with the
    number of operations that failed, or with the fixed text of a failed
    pass, ["Conectado"] and ["Desconectado"]. *)
Inductive Toast : Type :=
| Sincronizado (successCount : nat)
| OperacoesFalharam (failureCount : nat)
| FalhaAoSincronizar
| Conectado
| Desconectado.

(** A request sent to the remote tables. *)
Inductive RemoteCall : Type :=
| Insert (payload : Payload)
| Update (updates : option Updates) (target : option string) (owner : string)
| Delete (target : option string) (owner : string)
| Select (owner : string)
| Probe.

(** The remote store is a collaborator: any state, any answers. An answer
    is the row or the rows asked for, or the error of [{ data, error }]. *)
Class RemoteStore : Type := {
  Remote : Type;
  remote_insert : Payload -> Remote -> Remote * (FavoritePreset + Err);
  remote_update :
    option Updates -> option string -> string -> Remote -> Remote * option Err;
  remote_delete : option string -> string -> Remote -> Remote * option Err;
  remote_select : string -> Remote -> Remote * (list FavoritePreset + Err);
  remote_probe : Remote -> Remote * bool
}.

Section Hooks.

Context {RS : RemoteStore}.

Record World : Type := {
  sys : Sys;
  remote : Remote;
  calls : list RemoteCall;   (* the requests sent so far, oldest first *)
  toasts : list Toast;       (* the notifications shown so far, oldest first *)
  user : option User;
  presets : list FavoritePreset;
  activePresetId : option string;
  loading : bool;
  error : option string;
  status : NetworkStatus
}.

Definition set_sys (x : Sys) (w : World) : World :=
  {| sys := x; remote := remote w; calls := calls w; toasts := toasts w;
     user := user w; presets := presets w; activePresetId := activePresetId w;
     loading := loading w; error := error w; status := status w |}.

Definition set_remote (x : Remote) (c : RemoteCall) (w : World) : World :=
  {| sys := sys w; remote := x; calls := calls w ++ [c]; toasts := toasts w;
     user := user w; presets := presets w; activePresetId := activePresetId w;
     loading := loading w; error := error w; status := status w |}.

Definition toast (t : Toast) : Async World unit :=
  modify (fun w =>
    {| sys := sys w; remote := remote w; calls := calls w; toasts := toasts w ++ [t];
       user := user w; presets := presets w; activePresetId := activePresetId w;
       loading := loading w; error := error w; status := status w |}).

Definition setPresets (x : list FavoritePreset) : Async World unit :=
  modify (fun w =>
    {| sys := sys w; remote := remote w; calls := calls w; toasts := toasts w;
       user := user w; presets := x; activePresetId := activePresetId w;
       loading := loading w; error := error w; status := status w |}).

Definition setActivePresetId (x : option string) : Async World unit :=
  modify (fun w =>
    {| sys := sys w; remote := remote w; calls := calls w; toasts := toasts w;
       user := user w; presets := presets w; activePresetId := x;
       loading := loading w; error := error w; status := status w |}).

Definition setLoading (x : bool) : Async World unit :=
  modify (fun w =>
    {| sys := sys w; remote := remote w; calls := calls w; toasts := toasts w;
       user := user w; presets := presets w; activePresetId := activePresetId w;
       loading := x; error := error w; status := status w |}).

Definition setError (x : option string) : Async World unit :=
  modify (fun w =>
    {| sys := sys w; remote := remote w; calls := calls w; toasts := toasts w;
       user := user w; presets := presets w; activePresetId := activePresetId w;
       loading := loading w; error := x; status := status w |}).

(** [setStatus(prev => f prev)]. *)
Definition setStatus (f : NetworkStatus -> NetworkStatus) : Async World unit :=
  modify (fun w =>
    {| sys := sys w; remote := remote w; calls := calls w; toasts := toasts w;
       user := user w; presets := presets w; activePresetId := activePresetId w;
       loading := loading w; error := error w; status := f (status w) |}).

(** A method of the cache manager, called from a hook. *)
Definition cache {A : Type} (m : Async Sys A) : Async World A :=
  fun w => let (s', r) := m (sys w) in (set_sys s' w, r).

(** A request to the remote store, logged; the answer [{ data, error }]
    with [if (error) throw error]. *)
Definition supabase_insert (p : Payload) : Async World FavoritePreset :=
  fun w =>
    let (r', ans) := remote_insert p (remote w) in
    let w' := set_remote r' (Insert p) w in
    match ans with
    | inl data => (w', Resolved data)
    | inr e => (w', Rejected e)
    end.

Definition supabase_update (u : option Updates) (target : option string) (owner : string)
  : Async World unit :=
  fun w =>
    let (r', ans) := remote_update u target owner (remote w) in
    let w' := set_remote r' (Update u target owner) w in
    match ans with
    | None => (w', Resolved tt)
    | Some e => (w', Rejected e)
    end.

Definition supabase_delete (target : option string) (owner : string) : Async World unit :=
  fun w =>
    let (r', ans) := remote_delete target owner (remote w) in
    let w' := set_remote r' (Delete target owner) w in
    match ans with
    | None => (w', Resolved tt)
    | Some e => (w', Rejected e)
    end.

Definition supabase_select (owner : string) : Async World (list FavoritePreset) :=
  fun w =>
    let (r', ans) := remote_select owner (remote w) in
    let w' := set_remote r' (Select owner) w in
    match ans with
    | inl data => (w', Resolved data)
    | inr e => (w', Rejected e)
    end.

(* ---------------------------------------------------------------- *)
(** ** [useNetworkStatus] *)

Definition checkSupabaseConnection : Async World bool :=
  fun w =>
    let (r', connected) := remote_probe (remote w) in
    (set_remote r' Probe w, Resolved connected).

Definition updatePendingCount : Async World unit :=
  w <- get ;;
  match user w with
  | None => ret tt
  | Some u =>
      try_catch
        (pending <- cache (CacheManager.getPendingOperations (uid u)) ;;
         setStatus (fun prev =>
           {| isOnline := isOnline prev; isConnected := isConnected prev;
              pendingOperations := length pending;
              lastSyncTime := lastSyncTime prev; syncing := syncing prev |}))
        (fun _ => ret tt)
  end.

Definition processOperation (operation : PendingOperation) : Async World unit :=
  match op_type operation with
  | CREATE_PRESET =>
      supabase_insert (op_data operation) ;;; ret tt
  | UPDATE_PRESET =>
      supabase_update (payload_updates (op_data operation))
        (payload_id (op_data operation)) (op_user_id operation)
  | DELETE_PRESET =>
      supabase_delete (payload_id (op_data operation)) (op_user_id operation)
  | _ => ret tt
  end.

(** The loop of [syncPendingOperations], with its two counters, run from
    its first operation to its last with nothing in between; [pass_resume]
    below takes it from one [await] to the next. *)
Fixpoint sync_loop (pending : list PendingOperation) (successCount failureCount : nat)
  : Async World (nat * nat) :=
  match pending with
  | [] => ret (successCount, failureCount)
  | operation :: rest =>
      ok <- try_catch
              (processOperation operation ;;;
               cache (CacheManager.removePendingOperation (op_id operation)) ;;;
               ret true)
              (fun _ => ret false) ;;
      if ok : bool then sync_loop rest (S successCount) failureCount
      else sync_loop rest successCount (S failureCount)
  end.

Definition set_syncing (b : bool) (prev : NetworkStatus) : NetworkStatus :=
  {| isOnline := isOnline prev; isConnected := isConnected prev;
     pendingOperations := pendingOperations prev;
     lastSyncTime := lastSyncTime prev; syncing := b |}.

(** [syncPendingOperations], as created by the render whose status was
    [snap]: the test on entry reads the status of that render. *)
Definition syncPendingOperations (snap : NetworkStatus) : Async World bool :=
  w <- get ;;
  match user w with
  | None => ret false
  | Some u =>
      if negb (isConnected snap) then ret false
      else
        setStatus (set_syncing true) ;;;
        finally
          (try_catch
             (pending <- cache (CacheManager.getPendingOperations (uid u)) ;;
              counts <- sync_loop pending 0 0 ;;
              let successCount := fst counts in
              let failureCount := snd counts in
              (if (0 <? successCount)%nat then
                 lastSync <- cache Date_now ;;
                 cache (CacheManager.setMetadata "last_sync_time" lastSync) ;;;
                 setStatus (fun prev =>
                   {| isOnline := isOnline prev; isConnected := isConnected prev;
                      pendingOperations := failureCount;
                      lastSyncTime := Some lastSync; syncing := syncing prev |}) ;;;
                 toast (Sincronizado successCount)
               else ret tt) ;;;
              (if (0 <? failureCount)%nat then toast (OperacoesFalharam failureCount)
               else ret tt) ;;;
              ret (failureCount =? 0)%nat)
             (fun _ => toast FalhaAoSincronizar ;;; ret false))
          (fun w' => fst (setStatus (set_syncing false) w'))
  end.

(* ---------------------------------------------------------------- *)
(** ** A pass from one [await] to the next

[syncPendingOperations] is an async function: it gives up control at each
of its [await]s, and whatever else is due runs before it is resumed, a
second pass included, since neither [syncPendingOperations] nor
[checkConnection] reads the syncing flag. [Pass] names the points at which
a pass is suspended, with its local variables; [pass_begin] is the call up
to the first [await], [pass_resume] one resumption, up to the next [await]
or the end. What an awaited call does is placed at the resumption.
[syncPendingOperations] above is the pass that nothing interrupts. *)

Inductive Pass : Type :=
| AwaitPending (u : User)
| AwaitProcess (operation : PendingOperation) (rest : list PendingOperation)
    (successCount failureCount : nat)
| AwaitRemove (operation : PendingOperation) (rest : list PendingOperation)
    (successCount failureCount : nat)
| AwaitMetadata (lastSync : Z) (successCount failureCount : nat)
| Settled (result : bool).

(** The [catch] of the function, then its [finally]. *)
Definition pass_failed (w : World) : World * Pass :=
  (fst ((toast FalhaAoSincronizar ;;; setStatus (set_syncing false)) w), Settled false).

(** The notification of the failures, the result and the [finally]. *)
Definition pass_end (failureCount : nat) (w : World) : World * Pass :=
  (fst (((if (0 <? failureCount)%nat then toast (OperacoesFalharam failureCount)
          else ret tt) ;;;
         setStatus (set_syncing false)) w),
   Settled (failureCount =? 0)%nat).

(** The loop at the operation it takes next; past the last one, the clock
    is read when an operation has succeeded. *)
Definition pass_next (pending : list PendingOperation) (successCount failureCount : nat)
  (w : World) : World * Pass :=
  match pending with
  | operation :: rest => (w, AwaitProcess operation rest successCount failureCount)
  | [] =>
      if (0 <? successCount)%nat then
        match cache Date_now w with
        | (w1, Resolved lastSync) => (w1, AwaitMetadata lastSync successCount failureCount)
        | (w1, Rejected _) => pass_failed w1
        end
      else pass_end failureCount w
  end.

(** The call, up to [await cacheManager.getPendingOperations(user.id)]. *)
Definition pass_begin (snap : NetworkStatus) (w : World) : World * Pass :=
  match user w with
  | None => (w, Settled false)
  | Some u =>
      if negb (isConnected snap) then (w, Settled false)
      else (fst (setStatus (set_syncing true) w), AwaitPending u)
  end.

Definition pass_resume (p : Pass) (w : World) : World * Pass :=
  match p with
  | AwaitPending u =>
      match cache (CacheManager.getPendingOperations (uid u)) w with
      | (w1, Resolved pending) => pass_next pending 0 0 w1
      | (w1, Rejected _) => pass_failed w1
      end
  | AwaitProcess operation rest successCount failureCount =>
      match processOperation operation w with
      | (w1, Resolved _) => (w1, AwaitRemove operation rest successCount failureCount)
      | (w1, Rejected _) => pass_next rest successCount (S failureCount) w1
      end
  | AwaitRemove operation rest successCount failureCount =>
      match cache (CacheManager.removePendingOperation (op_id operation)) w with
      | (w1, Resolved _) => pass_next rest (S successCount) failureCount w1
      | (w1, Rejected _) => pass_next rest successCount (S failureCount) w1
      end
  | AwaitMetadata lastSync successCount failureCount =>
      match cache (CacheManager.setMetadata "last_sync_time" lastSync) w with
      | (w1, Resolved _) =>
          pass_end failureCount
            (fst ((setStatus (fun prev =>
                     {| isOnline := isOnline prev; isConnected := isConnected prev;
                        pendingOperations := failureCount;
                        lastSyncTime := Some lastSync; syncing := syncing prev |}) ;;;
                   toast (Sincronizado successCount)) w1))
      | (w1, Rejected _) => pass_failed w1
      end
  | Settled result => (w, Settled result)
  end.

(** A pass resumed [fuel] times in a row. *)
Fixpoint pass_run (fuel : nat) (st : World * Pass) : World * Pass :=
  match fuel with
  | 0 => st
  | S n => pass_run n (pass_resume (snd st) (fst st))
  end.

(** Two passes over the same world: each element of the schedule says
    which of them is resumed next, the first one for [true]. *)
Definition resume_one (st : World * (Pass * Pass)) (first : bool) : World * (Pass * Pass) :=
  let '(w, (a, b)) := st in
  if first then let (w', a') := pass_resume a w in (w', (a', b))
  else let (w', b') := pass_resume b w in (w', (a, b')).

Definition overlap (schedule : list bool) (st : World * (Pass * Pass))
  : World * (Pass * Pass) :=
  fold_left resume_one schedule st.

(** Two calls of [syncPendingOperations], the second made while the first
    awaits its read of the queue. *)
Definition begin_two (snapA snapB : NetworkStatus) (w : World) : World * (Pass * Pass) :=
  let (w1, a) := pass_begin snapA w in
  let (w2, b) := pass_begin snapB w1 in
  (w2, (a, b)).

(** [checkConnection], the body of the periodic effect of the render whose
    status was [snap]. *)
Definition checkConnection (snap : NetworkStatus) : Async World unit :=
  connected <- checkSupabaseConnection ;;
  setStatus (fun prev =>
    {| isOnline := isOnline prev; isConnected := connected;
       pendingOperations := pendingOperations prev;
       lastSyncTime := lastSyncTime prev; syncing := syncing prev |}) ;;;
  if connected : bool then
    updatePendingCount ;;;
    if (0 <? pendingOperations snap)%nat then
      syncPendingOperations snap ;;; ret tt
    else ret tt
  else ret tt.

(** [handleSync] of the component [NetworkStatusIndicator], in the render
    whose status was [snap]. *)
Definition handleSync (snap : NetworkStatus) : Async World unit :=
  if isConnected snap && (0 <? pendingOperations snap)%nat && negb (syncing snap) then
    syncPendingOperations snap ;;; ret tt
  else ret tt.

Definition handleOnline : Async World unit :=
  setStatus (fun prev =>
    {| isOnline := true; isConnected := isConnected prev;
       pendingOperations := pendingOperations prev;
       lastSyncTime := lastSyncTime prev; syncing := syncing prev |}) ;;;
  toast Conectado.

Definition handleOffline : Async World unit :=
  setStatus (fun prev =>
    {| isOnline := false; isConnected := false;
       pendingOperations := pendingOperations prev;
       lastSyncTime := lastSyncTime prev; syncing := syncing prev |}) ;;;
  toast Desconectado.

(* ---------------------------------------------------------------- *)
(** ** [useFavoritePresetsWithCache]

A function of the hook reads [user], [isConnected], [presets] and
[activePresetId] as the render that created it saw them: the state at
the time of the call. *)

(** [new Date().toISOString()]. *)
Definition Date_iso : Async Sys string :=
  now <- Date_now ;;
  s <- get ;;
  ret (toISOString (browser s) now).

Definition enqueue (t : OpType) (p : Payload) (owner : string) : Async World string :=
  cache (CacheManager.addPendingOperation
           {| CacheManager.new_type := t; CacheManager.new_data := p;
              CacheManager.new_user_id := owner |}).

Definition default_data (owner : string) : NewPresetData :=
  {| n_name := "MY GRIMOIRE";
     n_description := Some "Your personal collection of favorite spells";
     n_user_id := owner; n_spell_ids := [] |}.

Definition createDefaultPreset : Async World (option FavoritePreset) :=
  w <- get ;;
  match user w with
  | None => ret None
  | Some u =>
      try_catch
        (data <- supabase_insert (PresetFields (default_data (uid u))) ;;
         let newPresets := [data] in
         setPresets newPresets ;;;
         setActivePresetId (Some (id data)) ;;;
         cache (CacheManager.cacheFavoritePresets newPresets (uid u)) ;;;
         ret (Some data))
        (fun _ => ret None)
  end.

Definition createDefaultOfflinePreset : Async World unit :=
  w <- get ;;
  match user w with
  | None => ret tt
  | Some u =>
      t <- cache Date_now ;;
      created <- cache Date_iso ;;
      updated <- cache Date_iso ;;
      let defaultPreset :=
        {| id := ("offline_" ++ uid u ++ "_" ++ string_of_Z t)%string;
           name := "MY GRIMOIRE (Offline)";
           description := Some "Your personal collection of favorite spells";
           spell_ids := []; user_id := uid u;
           created_at := created; updated_at := updated |} in
      setPresets [defaultPreset] ;;;
      setActivePresetId (Some (id defaultPreset)) ;;;
      cache (CacheManager.cacheFavoritePresets [defaultPreset] (uid u)) ;;;
      enqueue CREATE_PRESET (PresetFields (default_data (uid u))) (uid u) ;;;
      updatePendingCount
  end.

(** [loadPresetsFromSupabase]; [active] is the [activePresetId] of the
    render that created the function. *)
Definition loadPresetsFromSupabase (active : option string) : Async World unit :=
  w <- get ;;
  match user w with
  | None => ret tt
  | Some u =>
      data <- supabase_select (uid u) ;;
      setPresets data ;;;
      match data with
      | [] => createDefaultPreset ;;; ret tt
      | first :: _ =>
          cache (CacheManager.cacheFavoritePresets data (uid u)) ;;;
          if negb (truthy_str active) then setActivePresetId (Some (id first))
          else if existsb (fun preset => opt_eqb active (id preset)) data then ret tt
          else setActivePresetId (Some (id first))
      end
  end.

Definition loadPresets : Async World unit :=
  w <- get ;;
  match user w with
  | None => ret tt
  | Some u =>
      setLoading true ;;;
      setError None ;;;
      finally
        (try_catch
           (cachedPresets <- cache (CacheManager.getCachedFavoritePresets (uid u)) ;;
            match cachedPresets with
            | [] => ret tt
            | first :: _ =>
                setPresets cachedPresets ;;;
                if negb (truthy_str (activePresetId w)) then
                  setActivePresetId (Some (id first))
                else ret tt
            end ;;;
            if isConnected (status w) then loadPresetsFromSupabase (activePresetId w)
            else
              match cachedPresets with
              | [] => createDefaultOfflinePreset
              | _ :: _ => ret tt
              end)
           (fun _ => setError (Some "Failed to load favorite presets")))
        (fun w' => fst (setLoading false w'))
  end.

Definition createPreset (name : string) (description : option string)
  : Async World (option FavoritePreset) :=
  w <- get ;;
  match user w with
  | None => ret None
  | Some u =>
      let newPresetData :=
        {| n_name := name; n_description := description;
           n_user_id := uid u; n_spell_ids := [] |} in
      if isConnected (status w) then
        try_catch
          (data <- supabase_insert (PresetFields newPresetData) ;;
           let updatedPresets := presets w ++ [data] in
           setPresets updatedPresets ;;;
           setActivePresetId (Some (id data)) ;;;
           detached (cache (CacheManager.cacheFavoritePresets updatedPresets (uid u)))
             (ret (Some data)))
          (fun _ => setError (Some "Failed to create preset") ;;; ret None)
      else
        t <- cache Date_now ;;
        created <- cache Date_iso ;;
        updated <- cache Date_iso ;;
        let offlinePreset :=
          {| id := ("offline_" ++ uid u ++ "_" ++ string_of_Z t)%string;
             name := name; description := description;
             spell_ids := []; user_id := uid u;
             created_at := created; updated_at := updated |} in
        let updatedPresets := presets w ++ [offlinePreset] in
        setPresets updatedPresets ;;;
        setActivePresetId (Some (id offlinePreset)) ;;;
        detached (cache (CacheManager.cacheFavoritePresets updatedPresets (uid u)))
          (enqueue CREATE_PRESET (PresetFields newPresetData) (uid u) ;;;
           updatePendingCount ;;;
           ret (Some offlinePreset))
  end.

(** [{ ...preset, ...updates }]. *)
Definition apply_updates (preset : FavoritePreset) (updates : Updates) : FavoritePreset :=
  {| id := id preset;
     name := match u_name updates with Some n => n | None => name preset end;
     description :=
       match u_description updates with
       | Some d => Some d
       | None => description preset
       end;
     spell_ids :=
       match u_spell_ids updates with Some l => l | None => spell_ids preset end;
     user_id := user_id preset;
     created_at := created_at preset;
     updated_at := updated_at preset |}.

(** [{ ...preset, ...updates, updated_at }]. *)
Definition apply_updates_at (preset : FavoritePreset) (updates : Updates) (now : string)
  : FavoritePreset :=
  let p := apply_updates preset updates in
  {| id := id p; name := name p; description := description p;
     spell_ids := spell_ids p; user_id := user_id p;
     created_at := created_at p; updated_at := now |}.

(** [presets.map(preset => preset.id === id ? { ...preset, ...updates,
    updated_at: new Date().toISOString() } : preset)]: the clock is read
    once for every preset that matches. *)
Fixpoint map_updates_at (target : string) (updates : Updates) (l : list FavoritePreset)
  : Async Sys (list FavoritePreset) :=
  match l with
  | [] => ret []
  | preset :: rest =>
      if id preset =? target then
        now <- Date_iso ;;
        rest' <- map_updates_at target updates rest ;;
        ret (apply_updates_at preset updates now :: rest')
      else
        rest' <- map_updates_at target updates rest ;;
        ret (preset :: rest')
  end.

Definition updatePreset (target : string) (updates : Updates) : Async World bool :=
  w <- get ;;
  match user w with
  | None => ret false
  | Some u =>
      if isConnected (status w) && negb (startsWith target "offline_") then
        try_catch
          (supabase_update (Some updates) (Some target) (uid u) ;;;
           let updatedPresets :=
             map (fun preset =>
                    if id preset =? target then apply_updates preset updates else preset)
                 (presets w) in
           setPresets updatedPresets ;;;
           detached (cache (CacheManager.cacheFavoritePresets updatedPresets (uid u)))
             (ret true))
          (fun _ => setError (Some "Failed to update preset") ;;; ret false)
      else
        updatedPresets <- cache (map_updates_at target updates (presets w)) ;;
        setPresets updatedPresets ;;;
        detached (cache (CacheManager.cacheFavoritePresets updatedPresets (uid u)))
          ((if negb (startsWith target "offline_") then
              enqueue UPDATE_PRESET (UpdateTarget target updates) (uid u) ;;;
              updatePendingCount
            else ret tt) ;;;
           ret true)
  end.

(** [if (activePresetId === id) setActivePresetId(...)], with the
    [activePresetId] of the render that created the function. *)
Definition reselect (active : option string) (target : string)
  (updatedPresets : list FavoritePreset) : Async World unit :=
  if opt_eqb active target then
    setActivePresetId (option_map id (hd_error updatedPresets))
  else ret tt.

Definition deletePreset (target : string) : Async World bool :=
  w <- get ;;
  match user w with
  | None => ret false
  | Some u =>
      let updatedPresets := filter (fun preset => negb (id preset =? target)) (presets w) in
      if isConnected (status w) && negb (startsWith target "offline_") then
        try_catch
          (supabase_delete (Some target) (uid u) ;;;
           setPresets updatedPresets ;;;
           detached (cache (CacheManager.cacheFavoritePresets updatedPresets (uid u)))
             (reselect (activePresetId w) target updatedPresets ;;;
              ret true))
          (fun _ => setError (Some "Failed to delete preset") ;;; ret false)
      else
        setPresets updatedPresets ;;;
        detached (cache (CacheManager.cacheFavoritePresets updatedPresets (uid u)))
          (reselect (activePresetId w) target updatedPresets ;;;
           (if negb (startsWith target "offline_") then
              enqueue DELETE_PRESET (DeleteTarget target) (uid u) ;;;
              updatePendingCount
            else ret tt) ;;;
           ret true)
  end.

Definition spell_ids_only (l : list string) : Updates :=
  {| u_name := None; u_description := None; u_spell_ids := Some l |}.

Definition addSpellToPreset (spellId : string) (presetId : option string)
  : Async World bool :=
  w <- get ;;
  match or_else presetId (activePresetId w) with
  | None => ret false
  | Some targetPresetId =>
      if targetPresetId =? "" then ret false
      else
        match find (fun p => id p =? targetPresetId) (presets w) with
        | None => ret false
        | Some preset =>
            if existsb (String.eqb spellId) (spell_ids preset) then ret true
            else updatePreset targetPresetId
                   (spell_ids_only (spell_ids preset ++ [spellId]))
        end
  end.

Definition removeSpellFromPreset (spellId : string) (presetId : option string)
  : Async World bool :=
  w <- get ;;
  match or_else presetId (activePresetId w) with
  | None => ret false
  | Some targetPresetId =>
      if targetPresetId =? "" then ret false
      else
        match find (fun p => id p =? targetPresetId) (presets w) with
        | None => ret false
        | Some preset =>
            updatePreset targetPresetId
              (spell_ids_only (filter (fun i => negb (i =? spellId)) (spell_ids preset)))
        end
  end.

(** The effect on [user?.id]. *)
Definition onUserChange : Async World unit :=
  w <- get ;;
  match user w with
  | Some _ => loadPresets
  | None => setPresets [] ;;; setActivePresetId None
  end.

(** [const activePreset = presets.find(p => p.id === activePresetId) || null]. *)
Definition activePreset (w : World) : option FavoritePreset :=
  find (fun p => opt_eqb (activePresetId w) (id p)) (presets w).

(** [const activeFavorites = activePreset?.spell_ids || []]. *)
Definition activeFavorites (w : World) : list string :=
  match activePreset w with
  | Some p => spell_ids p
  | None => []
  end.

End Hooks.

(* ---------------------------------------------------------------- *)
(** ** [useSpellsWithCache] *)

(** The updater that [toggleFavorite] hands to [setFavorites]:
    [prev.includes(spellId) ? prev.filter(id => id !== spellId)
                            : [...prev, spellId]]. *)
Definition toggleFavorite (spellId : string) (prev : list string) : list string :=
  if existsb (String.eqb spellId) prev
  then filter (fun i => negb (i =? spellId)) prev
  else prev ++ [spellId].

(** [self.findIndex(f)]: the first index at which [f] holds, or -1. *)
Fixpoint findIndex {A : Type} (f : A -> bool) (self : list A) : Z :=
  match self with
  | [] => (-1)%Z
  | x :: rest =>
      if f x then 0%Z
      else let i := findIndex f rest in
           if (i <? 0)%Z then (-1)%Z else (i + 1)%Z
  end.

(** [self.filter((x, index) => f x index)], from the index [index] on. *)
Fixpoint filter_from {A : Type} (f : A -> nat -> bool) (index : nat) (l : list A)
  : list A :=
  match l with
  | [] => []
  | x :: rest =>
      if f x index then x :: filter_from f (S index) rest
      else filter_from f (S index) rest
  end.

(** The removal of duplicates in [loadSpellsFromSupabase]:
    [spellsData.filter((spell, index, self) =>
       index === self.findIndex(s => s.id === spell.id))],
    for rows of any shape with their [id]. *)
Definition uniqueData {Row : Type} (row_id : Row -> string) (spellsData : list Row)
  : list Row :=
  filter_from
    (fun spell index =>
       Z.eqb (Z.of_nat index) (findIndex (fun s => row_id s =? row_id spell) spellsData))
    0 spellsData.

(* ================================================================== *)
(** * Vocabulary of the statements *)

(** The rows of [l] whose id is neither in [seen] nor carried by an earlier
    row of [l]. *)
Fixpoint first_of_each {Row : Type} (row_id : Row -> string) (seen : list string)
  (l : list Row) : list Row :=
  match l with
  | [] => []
  | x :: rest =>
      let later := first_of_each row_id (seen ++ [row_id x]) rest in
      if existsb (String.eqb (row_id x)) seen then later else x :: later
  end.

(** What the local branch of [updatePreset] does to one preset: a preset
    named [target] receives the updates and a new [updated_at], any other
    preset is left as it is. *)
Definition touched (target : string) (updates : Updates) (p p' : FavoritePreset) : Prop :=
  if id p =? target then exists now, p' = apply_updates_at p updates now else p' = p.

(** The database the cache manager works on once [ensureInitialized] has
    run: the one it holds, or the one [indexedDB.open] delivers. *)
Definition opened (s : Sys) : option DB :=
  if initialized (this s) then db (this s)
  else
    match idb_open (browser s) with
    | OpenSuccess d => Some d
    | OpenError _ => None
    end.

(** The state of an initialised cache manager. *)
Definition mk_sys (d : DB) (b : Browser) : Sys :=
  {| this := {| db := Some d; initialized := true |}; browser := b |}.

(** Every record of the [spells] store is keyed by the id of its spell, as
    [cacheSpells] writes them. *)
Definition spells_keyed (l : list SpellRow) : Prop :=
  forall c, In c l -> sr_id c = spell_id (sr_data c).

Definition timestamps_ascending (l : list PendingOperation) : Prop :=
  StronglySorted (fun a b => (op_timestamp a <= op_timestamp b)%Z) l.

(** An operation of type [t] with payload [p] names an offline preset as the
    target of an update or of a deletion. *)
Definition payload_targets_offline (t : OpType) (p : Payload) : bool :=
  match t with
  | UPDATE_PRESET | DELETE_PRESET =>
      match payload_id p with
      | Some i => startsWith i "offline_"
      | None => false
      end
  | _ => false
  end.

Definition targets_offline (op : PendingOperation) : bool :=
  payload_targets_offline (op_type op) (op_data op).

(** The record [cacheFavoritePresets] writes for a preset. *)
Definition preset_row (userId : string) (now : Z) (preset : FavoritePreset) : PresetRow :=
  {| pr_data := preset; pr_cached_at := now; pr_ttl := None;
     pr_id := id preset; pr_user_id := userId |}.

(** The upserts of [cacheFavoritePresets], on a store [acc]. *)
Definition put_all (userId : string) (now : Z) (presets : list FavoritePreset)
  (acc : list PresetRow) : list PresetRow :=
  fold_left (fun acc preset => ObjectStore.put pr_id (preset_row userId now preset) acc)
    presets acc.

(** The [favorite_presets] store after [cacheFavoritePresets(presets, userId)]
    at clock reading [now]. *)
Definition recached (presets : list FavoritePreset) (userId : string) (now : Z)
  (st : list PresetRow) : list PresetRow :=
  fold_left (fun acc preset => ObjectStore.put pr_id (preset_row userId now preset) acc)
    presets (ObjectStore.index_deleteAll pr_user_id userId st).

(** The operation [addPendingOperation] stores in browser state [b]. *)
Definition new_operation (o : CacheManager.NewOperation) (b : Browser) : PendingOperation :=
  {| op_id := (OpType_name (CacheManager.new_type o) ++ "_" ++ string_of_Z (next_now b)
               ++ "_" ++ next_random b)%string;
     op_type := CacheManager.new_type o; op_data := CacheManager.new_data o;
     op_timestamp := next_now (tick b); op_user_id := CacheManager.new_user_id o |}.

(** The [pending_operations] store the cache manager works on. *)
Definition pending_of (s : Sys) : list PendingOperation :=
  match opened s with
  | Some d => pending_operations d
  | None => []
  end.

(** A method of the cache manager that leaves the queue as it is. *)
Definition keeps_queue {A : Type} (m : Async Sys A) : Prop :=
  forall s, pending_of (fst (m s)) = pending_of s.

Section Vocabulary.

Context {RS : RemoteStore}.

(** The queue of pending operations, as stored. *)
Definition queue (w : World) : list PendingOperation := pending_of (sys w).

(** The request [processOperation] sends for an operation. *)
Definition request_of (op : PendingOperation) : list RemoteCall :=
  match op_type op with
  | CREATE_PRESET => [Insert (op_data op)]
  | UPDATE_PRESET =>
      [Update (payload_updates (op_data op)) (payload_id (op_data op)) (op_user_id op)]
  | DELETE_PRESET => [Delete (payload_id (op_data op)) (op_user_id op)]
  | _ => []
  end.

(** The answer of the remote store to the request of an operation: its
    next state and whether [processOperation] returns normally. *)
Definition answer_of (op : PendingOperation) (r : Remote) : Remote * bool :=
  match op_type op with
  | CREATE_PRESET =>
      let (r', a) := remote_insert (op_data op) r in
      (r', match a with inl _ => true | inr _ => false end)
  | UPDATE_PRESET =>
      let (r', a) := remote_update (payload_updates (op_data op))
                       (payload_id (op_data op)) (op_user_id op) r in
      (r', match a with None => true | Some _ => false end)
  | DELETE_PRESET =>
      let (r', a) := remote_delete (payload_id (op_data op)) (op_user_id op) r in
      (r', match a with None => true | Some _ => false end)
  | _ => (r, true)
  end.

(** The operations of a pass in order, each with the outcome of its
    replay; the remote store is threaded through the pass. *)
Fixpoint outcomes (r : Remote) (ops : list PendingOperation)
  : list (PendingOperation * bool) :=
  match ops with
  | [] => []
  | op :: rest =>
      let (r', ok) := answer_of op r in (op, ok) :: outcomes r' rest
  end.

Definition failed (out : list (PendingOperation * bool)) : list PendingOperation :=
  map fst (filter (fun x => negb (snd x)) out).

Definition succeeded (out : list (PendingOperation * bool)) : list PendingOperation :=
  map fst (filter (fun x => snd x) out).

(** The remote store once the requests of [ops] have been answered. *)
Fixpoint remote_after (r : Remote) (ops : list PendingOperation) : Remote :=
  match ops with
  | [] => r
  | op :: rest => remote_after (fst (answer_of op r)) rest
  end.

(** The queue once the operations [ops] have been removed from it. *)
Definition remove_all (ops : list PendingOperation) (q : list PendingOperation)
  : list PendingOperation :=
  fold_left (fun acc op => ObjectStore.delete op_id (op_id op) acc) ops q.

(** The state of [useFavoritePresetsWithCache] is the same in both worlds. *)
Definition same_hook (w w' : World) : Prop :=
  user w' = user w /\ presets w' = presets w /\
  activePresetId w' = activePresetId w /\
  loading w' = loading w /\ error w' = error w.

(** A property of the world that a computation keeps. *)
Definition preserves {A : Type} (I : World -> Prop) (m : Async World A) : Prop :=
  forall w, I w -> I (fst (m w)).

(** A property of the world that only the queue decides. *)
Definition queue_only (I : World -> Prop) : Prop :=
  forall w w', queue w' = queue w -> I w -> I w'.

(** A property of the world that the queue and the requests sent decide. *)
Definition local_only (I : World -> Prop) : Prop :=
  forall w w', queue w' = queue w -> calls w' = calls w -> I w -> I w'.

(** No operation of the queue targets an offline preset. *)
Definition queue_clean (w : World) : Prop :=
  forall op, In op (queue w) -> targets_offline op = false.

(** A computation that leaves the state of [useFavoritePresetsWithCache]
    as it is. *)
Definition keeps_hook {A : Type} (m : Async World A) : Prop :=
  forall w, same_hook w (fst (m w)).

(** What can happen to the hooks. *)
Inductive Action : Type :=
| SignIn (u : User)
| SignOut
| LoadPresets
| CreatePreset (name : string) (description : option string)
| UpdatePreset (target : string) (updates : Updates)
| DeletePreset (target : string)
| AddSpellToPreset (spellId : string) (presetId : option string)
| RemoveSpellFromPreset (spellId : string) (presetId : option string)
| SetActivePresetId (x : option string)
| CheckConnection (snap : NetworkStatus)
| HandleSync (snap : NetworkStatus)
| GoOnline
| GoOffline.

Definition set_user (x : option User) : Async World unit :=
  modify (fun w =>
    {| sys := sys w; remote := remote w; calls := calls w; toasts := toasts w;
       user := x; presets := presets w; activePresetId := activePresetId w;
       loading := loading w; error := error w; status := status w |}).

Definition perform (w : World) (a : Action) : World :=
  match a with
  | SignIn u => fst ((set_user (Some u) ;;; onUserChange ;;; updatePendingCount) w)
  | SignOut => fst ((set_user None ;;; onUserChange ;;; updatePendingCount) w)
  | LoadPresets => fst (loadPresets w)
  | CreatePreset n d => fst (createPreset n d w)
  | UpdatePreset t u => fst (updatePreset t u w)
  | DeletePreset t => fst (deletePreset t w)
  | AddSpellToPreset s p => fst (addSpellToPreset s p w)
  | RemoveSpellFromPreset s p => fst (removeSpellFromPreset s p w)
  | SetActivePresetId x => fst (setActivePresetId x w)
  | CheckConnection snap => fst (checkConnection snap w)
  | HandleSync snap => fst (handleSync snap w)
  | GoOnline => fst (handleOnline w)
  | GoOffline => fst (handleOffline w)
  end.

End Vocabulary.

(* ================================================================== *)
(** * Sample states *)

Module Sample.

(** A browser whose clock reads [t0], [t0 + step], [t0 + 2 step], ... and
    whose database opens as [r]. The rendering of dates is a stand-in. *)
Definition browser_at (r : OpenResult) (t0 step : Z) : Browser :=
  {| idb_open := r;
     now_at := fun n => (t0 + step * Z.of_nat n)%Z;
     now_ix := 0;
     random_at := fun n => ("0." ++ string_of_Z (Z.of_nat (7 + n)))%string;
     random_ix := 0;
     toISOString := string_of_Z |}.

(** A cache manager that has not been used yet. *)
Definition fresh (b : Browser) : Sys :=
  {| this := {| db := None; initialized := false |}; browser := b |}.

Definition fireball : Spell :=
  {| spell_id := "fireball"; spell_name := "Fireball"; spell_level := 3;
     spell_school := "Evocation"; spell_classes := ["Sorcerer"; "Wizard"];
     spell_source := "PHB" |}.



Definition preset (i n owner : string) : FavoritePreset :=
  {| id := i; name := n; description := None; spell_ids := [];
     user_id := owner; created_at := "2024-01-01T00:00:00.000Z";
     updated_at := "2024-01-01T00:00:00.000Z" |}.

(** A stored preset that carries a ttl of one second, written at time 0. *)
Definition expiring_row : PresetRow :=
  {| pr_data := preset "p1" "A" "u1"; pr_cached_at := 0; pr_ttl := Some 1000%Z;
     pr_id := "p1"; pr_user_id := "u1" |}.

Definition expiring_db : DB :=
  set_favorite_presets (fun _ => [expiring_row]) empty_DB.

Definition storage_error : Err := DOMException "The operation is insecure.".

(** A remote table of presets; it accepts every insertion of preset
    fields and every deletion, and updates when [accept_update] is set. *)
Definition table (accept_update : bool) : RemoteStore :=
  {| Remote := list FavoritePreset;
     remote_insert := fun p t =>
       match p with
       | PresetFields f =>
           let row :=
             {| id := ("srv_" ++ string_of_Z (Z.of_nat (length t)))%string;
                name := n_name f; description := n_description f;
                spell_ids := n_spell_ids f; user_id := n_user_id f;
                created_at := "2024-01-01T00:00:00.000Z";
                updated_at := "2024-01-01T00:00:00.000Z" |} in
           (t ++ [row], inl row)
       | _ => (t, inr (PostgrestError "malformed row"))
       end;
     remote_update := fun u target owner t =>
       if accept_update then (t, None)
       else (t, Some (PostgrestError "update refused"));
     remote_delete := fun target owner t =>
       (filter (fun p => negb (opt_eqb target (id p))) t, None);
     remote_select := fun owner t =>
       (t, inl (filter (fun p => user_id p =? owner) t));
     remote_probe := fun t => (t, true) |}.

(** A remote store that answers every request with an error. *)
Definition unreachable : RemoteStore :=
  {| Remote := unit;
     remote_insert := fun _ t => (t, inr (PostgrestError "fetch failed"));
     remote_update := fun _ _ _ t => (t, Some (PostgrestError "fetch failed"));
     remote_delete := fun _ _ t => (t, Some (PostgrestError "fetch failed"));
     remote_select := fun _ t => (t, inr (PostgrestError "fetch failed"));
     remote_probe := fun t => (t, false) |}.

Definition network (connected busy : bool) (pending : nat) : NetworkStatus :=
  {| isOnline := true; isConnected := connected; pendingOperations := pending;
     lastSyncTime := None; syncing := busy |}.

(** A world for user [u1] whose preset list is [ps], the first one active. *)
Definition world {RS : RemoteStore} (s : Sys) (r : Remote) (st : NetworkStatus)
  (ps : list FavoritePreset) : World :=
  {| sys := s; remote := r; calls := []; toasts := [];
     user := Some {| uid := "u1" |}; presets := ps;
     activePresetId := option_map id (hd_error ps);
     loading := false; error := None; status := st |}.

Definition rename (n : string) : Updates :=
  {| u_name := Some n; u_description := None; u_spell_ids := None |}.

(** Offline, with an empty database and one preset known to the server. *)
Definition offline_world : @World (table true) :=
  @world (table true) (fresh (browser_at (OpenSuccess empty_DB) 1000 5))
         [preset "p1" "A" "u1"] (network false false 0) [preset "p1" "A" "u1"].

(** The user renames the preset, then deletes it, both offline. *)
Definition after_rename_delete : @World (table true) :=
  fst (deletePreset "p1" (fst (updatePreset "p1" (rename "B") offline_world))).

Definition queued_db : DB :=
  match opened (sys after_rename_delete) with
  | Some d => d
  | None => empty_DB
  end.

(** The same two operations in the queue, facing a table that refuses
    updates. *)
Definition refused_world : @World (table false) :=
  @world (table false) (sys after_rename_delete)
         [preset "p1" "A" "u1"] (network true false 2) [].

(** The two operations are queued, the status says that a pass is in
    progress, and the table refuses updates. *)
Definition busy_world : @World (table false) :=
  @world (table false) (sys after_rename_delete)
         [preset "p1" "A" "u1"] (network true true 2) [].

(** Connected, but every request fails. *)
Definition cut_off_world : @World unreachable :=
  @world unreachable (fresh (browser_at (OpenSuccess empty_DB) 1000 5))
         tt (network true false 0) [preset "p1" "A" "u1"; preset "p2" "B" "u1"].

(** A cache with the presets [a] and [b] of user [u1] and the preset [x]
    of user [u2], and a refresh of [u1] that delivers [a] and [c]. *)
Definition cached_db : DB :=
  set_favorite_presets
    (fun _ => [preset_row "u1" 0 (preset "a" "A" "u1");
               preset_row "u1" 0 (preset "b" "B" "u1");
               preset_row "u2" 0 (preset "x" "X" "u2")])
    empty_DB.

Definition cached_sys : Sys := fresh (browser_at (OpenSuccess cached_db) 1000 1).



(** A cached preset with a ttl of one second, read at time 5000. *)
Definition expired_sys : Sys := fresh (browser_at (OpenSuccess expiring_db) 5000 1).

(** A queue shared by two users: an operation of a type that
    [processOperation] does not know and a deletion for [u1], a creation
    for [u2]. *)
Definition shared_queue : list PendingOperation :=
  [ {| op_id := "ADD_SPELL_900_0.3"; op_type := ADD_SPELL;
       op_data := UpdateTarget "p1" (rename "A"); op_timestamp := 900;
       op_user_id := "u1" |};
    {| op_id := "CREATE_PRESET_950_0.2"; op_type := CREATE_PRESET;
       op_data := PresetFields {| n_name := "X"; n_description := None;
                                  n_user_id := "u2"; n_spell_ids := [] |};
       op_timestamp := 950; op_user_id := "u2" |};
    {| op_id := "DELETE_PRESET_1000_0.1"; op_type := DELETE_PRESET;
       op_data := DeleteTarget "p1"; op_timestamp := 1000; op_user_id := "u1" |} ].

Definition shared_db : DB := set_pending_operations (fun _ => shared_queue) empty_DB.

Definition shared_world : @World (table true) :=
  @world (table true) (mk_sys shared_db (browser_at (OpenSuccess empty_DB) 2000 5))
         [preset "p1" "A" "u1"] (network true false 2) [preset "p1" "A" "u1"].

(** A queue that holds, for [u1], one operation of a type that
    [processOperation] does not know. *)
Definition unknown_db : DB :=
  set_pending_operations (fun _ => firstn 2 shared_queue) empty_DB.

Definition unknown_world : @World (table true) :=
  @world (table true) (mk_sys unknown_db (browser_at (OpenSuccess empty_DB) 2000 5))
         [preset "p1" "A" "u1"] (network true false 1) [preset "p1" "A" "u1"].

(** One deletion queued for [u1], and the server reachable. *)
Definition delete_db : DB :=
  set_pending_operations (fun _ => skipn 2 shared_queue) empty_DB.

Definition delete_world : @World (table true) :=
  @world (table true) (mk_sys delete_db (browser_at (OpenSuccess empty_DB) 2000 5))
         [preset "p1" "A" "u1"] (network true false 1) [preset "p1" "A" "u1"].

(** The same user with nothing queued. *)
Definition idle_world : @World (table true) :=
  @world (table true) (mk_sys empty_DB (browser_at (OpenSuccess empty_DB) 2000 5))
         [preset "p1" "A" "u1"] (network true false 0) [preset "p1" "A" "u1"].

(** Signed in and connected, but the storage cannot be opened. *)
Definition no_storage_world : @World (table true) :=
  @world (table true) (fresh (browser_at (OpenError storage_error) 2000 5))
         [preset "p1" "A" "u1"] (network true false 0) [preset "p1" "A" "u1"].

(** Signed in, not connected, and the storage cannot be opened. *)
Definition no_storage_offline_world : @World (table true) :=
  @world (table true) (fresh (browser_at (OpenError storage_error) 2000 5))
         [preset "p1" "A" "u1"] (network false false 0) [preset "p1" "A" "u1"].

(** A server that holds no preset and refuses every insertion. *)
Definition read_only : RemoteStore :=
  {| Remote := unit;
     remote_insert := fun _ t => (t, inr (PostgrestError "permission denied"));
     remote_update := fun _ _ _ t => (t, None);
     remote_delete := fun _ _ t => (t, None);
     remote_select := fun _ t => (t, inl []);
     remote_probe := fun t => (t, true) |}.

(** The first visit of user [u1]: nothing cached, nothing shown. *)
Definition first_visit {RS : RemoteStore} (r : Remote) (connected : bool) : World :=
  world (fresh (browser_at (OpenSuccess empty_DB) 1000 5)) r
        (network connected false 0) [].

(** Not connected, with the presets [a] and [b] of [u1] in the cache. *)
Definition cached_world : @World (table true) :=
  @world (table true) cached_sys [] (network false false 0) [].

End Sample.

(* ================================================================== *)
(** * Facts about object stores *)

Module StoreFacts.
Section Facts.
Context {R : Type} (key : R -> string).

Lemma compare_trans (a b c : string) :
  String.compare a b = Lt -> String.compare b c = Lt -> String.compare a c = Lt.
Proof.
  intros H1 H2. apply String_as_OT.cmp_lt.
  apply String_as_OT.cmp_lt in H1. apply String_as_OT.cmp_lt in H2.
  eapply String_as_OT.lt_trans; eauto.
Qed.

Lemma compare_refl (a : string) : String.compare a a = Eq.
Proof.
  destruct (String.compare a a) eqn:E; trivial.
  - apply String_as_OT.cmp_lt in E.
    exfalso. eapply String_as_OT.lt_not_eq; eauto. reflexivity.
  - pose proof (String.compare_antisym a a) as H. rewrite E in H. discriminate.
Qed.

Lemma lt_irrefl (a b : R) : ObjectStore.key_lt key a b -> key a <> key b.
Proof.
  unfold ObjectStore.key_lt. intros H E. rewrite E, compare_refl in H. discriminate.
Qed.

Lemma wf_inv (x : R) (s : list R) :
  ObjectStore.wf key (x :: s) -> ObjectStore.wf key s /\ Forall (ObjectStore.key_lt key x) s.
Proof. intros H. inversion H; subst. split; assumption. Qed.

Lemma wf_filter (f : R -> bool) (s : list R) : ObjectStore.wf key s -> ObjectStore.wf key (filter f s).
Proof.
  induction 1 as [|x s Hs IH Hx]; simpl.
  - constructor.
  - destruct (f x).
    + constructor; trivial.
      rewrite Forall_forall in *. intros y Hy.
      apply filter_In in Hy. apply Hx. tauto.
    + assumption.
Qed.

(** In a store, a key names at most one record. *)
Lemma wf_key_inj (s : list R) (a b : R) :
  ObjectStore.wf key s -> In a s -> In b s -> key a = key b -> a = b.
Proof.
  induction 1 as [|x s Hs IH Hx]; simpl; [tauto|].
  rewrite Forall_forall in Hx.
  intros [<-|Ha] [<-|Hb] E; auto.
  - exfalso. exact (lt_irrefl _ _ (Hx _ Hb) E).
  - exfalso. exact (lt_irrefl _ _ (Hx _ Ha) (eq_sym E)).
Qed.

Lemma wf_NoDup (s : list R) : ObjectStore.wf key s -> NoDup s.
Proof.
  induction 1 as [|x s Hs IH Hx]; constructor; trivial.
  intros Hin. rewrite Forall_forall in Hx.
  exact (lt_irrefl _ _ (Hx _ Hin) eq_refl).
Qed.

Lemma In_put (r x : R) (s : list R) :
  ObjectStore.wf key s -> (In x (ObjectStore.put key r s) <-> x = r \/ (In x s /\ key x <> key r)).
Proof.
  induction 1 as [|y s Hs IH Hy]; simpl.
  - intuition.
  - rewrite Forall_forall in Hy.
    destruct (String.compare (key r) (key y)) eqn:E; simpl.
    + apply String.compare_eq_iff in E.
      split.
      * intros [<-|Hx]; auto.
        right. split; auto. rewrite E. apply not_eq_sym, lt_irrefl. auto.
      * intros [->|[[<-|Hx] Hn]]; auto. congruence.
    + split.
      * intros [<-|[<-|Hx]]; auto; right; split; auto.
        -- intros E'. rewrite E', compare_refl in E. discriminate.
        -- intros E'. specialize (Hy _ Hx). unfold ObjectStore.key_lt in Hy.
           rewrite <- E' in E. pose proof (compare_trans _ _ _ E Hy) as C.
           rewrite compare_refl in C. discriminate.
      * intros [->|[[<-|Hx] Hn]]; auto.
    + rewrite IH. split.
      * intros [<-|[->|[Hx Hn]]]; auto.
        right. split; auto. intros E'. rewrite E', compare_refl in E. discriminate.
      * intros [->|[[<-|Hx] Hn]]; auto.
Qed.

Lemma wf_put (r : R) (s : list R) : ObjectStore.wf key s -> ObjectStore.wf key (ObjectStore.put key r s).
Proof.
  intros W. induction W as [|y s Hs IH Hy]; simpl.
  - repeat constructor.
  - destruct (String.compare (key r) (key y)) eqn:E.
    + apply String.compare_eq_iff in E.
      constructor; trivial. unfold ObjectStore.key_lt in *.
      rewrite E. assumption.
    + constructor; [constructor; trivial|].
      constructor; [exact E|].
      rewrite Forall_forall in *. intros z Hz.
      unfold ObjectStore.key_lt in *. eapply compare_trans; eauto.
    + constructor; trivial.
      rewrite Forall_forall in *. intros z Hz.
      apply In_put in Hz; trivial. destruct Hz as [->|[Hz _]]; auto.
      unfold ObjectStore.key_lt. rewrite String.compare_antisym, E. reflexivity.
Qed.

Lemma In_delete (k : string) (x : R) (s : list R) :
  In x (ObjectStore.delete key k s) <-> In x s /\ key x <> k.
Proof.
  unfold ObjectStore.delete. rewrite filter_In.
  destruct (String.eqb_spec (key x) k); simpl; intuition congruence.
Qed.

Lemma wf_delete (k : string) (s : list R) : ObjectStore.wf key s -> ObjectStore.wf key (ObjectStore.delete key k s).
Proof. apply wf_filter. Qed.

Lemma wf_fold_put {A : Type} (f : A -> R) (l : list A) (s : list R) :
  ObjectStore.wf key s -> ObjectStore.wf key (fold_left (fun acc a => ObjectStore.put key (f a) acc) l s).
Proof.
  revert s. induction l as [|a l IH]; simpl; intros s W; auto using wf_put.
Qed.

End Facts.
End StoreFacts.

(* ================================================================== *)
(** * Facts about the cache manager *)

Module CacheFacts.
Import CacheManager.

Lemma ensureInitialized_opened (s : Sys) (d : DB) :
  opened s = Some d ->
  ensureInitialized s = (mk_sys d (browser s), Resolved tt).
Proof.
  unfold opened, ensureInitialized, initialize, mk_sys, set_this.
  destruct s as [[o i] b]; simpl.
  destruct i; simpl.
  - intros ->. reflexivity.
  - destruct (idb_open b); intros E; inversion E; subst. reflexivity.
Qed.

Lemma ensureInitialized_failed (s : Sys) (e : Err) :
  initialized (this s) = false -> idb_open (browser s) = OpenError e ->
  ensureInitialized s = (s, Rejected e).
Proof.
  unfold ensureInitialized, initialize. intros -> ->. reflexivity.
Qed.

Lemma with_db_opened {A : Type} (dflt : A) (body : DB -> Async Sys A) (s : Sys) (d : DB) :
  opened s = Some d ->
  with_db dflt body s = body d (mk_sys d (browser s)).
Proof.
  intros H. unfold with_db, bind. rewrite (ensureInitialized_opened s d H).
  reflexivity.
Qed.

Lemma with_db_failed {A : Type} (dflt : A) (body : DB -> Async Sys A) (s : Sys) (e : Err) :
  initialized (this s) = false -> idb_open (browser s) = OpenError e ->
  with_db dflt body s = (s, Rejected e).
Proof.
  intros Hi Ho. unfold with_db, bind. rewrite (ensureInitialized_failed s e Hi Ho).
  reflexivity.
Qed.

Lemma opened_mk_sys (d : DB) (b : Browser) : opened (mk_sys d b) = Some d.
Proof. reflexivity. Qed.

Lemma setMetadata_opened (k : string) (v : Z) (s : Sys) (d : DB) :
  opened s = Some d ->
  setMetadata k v s =
    (mk_sys (set_metadata
               (ObjectStore.put m_key
                  {| m_key := k; m_value := v; m_updated_at := next_now (browser s) |}) d)
            (tick (browser s)),
     Resolved tt).
Proof.
  intros H. unfold setMetadata. rewrite (with_db_opened _ _ s d H). reflexivity.
Qed.

Lemma getCachedSpells_opened (s : Sys) (d : DB) :
  opened s = Some d ->
  getCachedSpells s =
    (mk_sys d (tick (browser s)),
     Resolved (map sr_data (filter (spell_valid (next_now (browser s))) (spells d)))).
Proof.
  intros H. unfold getCachedSpells. rewrite (with_db_opened _ _ s d H). reflexivity.
Qed.

Lemma cacheFavoritePresets_opened (P : list FavoritePreset) (U : string) (s : Sys) (d : DB) :
  opened s = Some d ->
  exists d' b',
    cacheFavoritePresets P U s = (mk_sys d' b', Resolved tt) /\
    favorite_presets d' = recached P U (next_now (browser s)) (favorite_presets d) /\
    pending_operations d' = pending_operations d /\
    spells d' = spells d /\
    idb_open b' = idb_open (browser s).
Proof.
  intros H. unfold cacheFavoritePresets. rewrite (with_db_opened _ _ s d H).
  eexists. eexists. split; [reflexivity|]. simpl. auto.
Qed.

Lemma getCachedFavoritePresets_opened (U : string) (s : Sys) (d : DB) :
  opened s = Some d ->
  getCachedFavoritePresets U s =
    (mk_sys d (browser s),
     Resolved (map pr_data (ObjectStore.index_getAll pr_user_id U (favorite_presets d)))).
Proof.
  intros H. unfold getCachedFavoritePresets. rewrite (with_db_opened _ _ s d H). reflexivity.
Qed.

Lemma addPendingOperation_opened (o : NewOperation) (s : Sys) (d : DB) :
  opened s = Some d ->
  addPendingOperation o s =
    (mk_sys (set_pending_operations
               (ObjectStore.put op_id (new_operation o (browser s))) d)
            (tick (draw (tick (browser s)))),
     Resolved (op_id (new_operation o (browser s)))).
Proof.
  intros H. unfold addPendingOperation. rewrite (with_db_opened _ _ s d H). reflexivity.
Qed.

Lemma getPendingOperations_opened (U : string) (s : Sys) (d : DB) :
  opened s = Some d ->
  getPendingOperations U s =
    (mk_sys d (browser s),
     Resolved (ObjectStore.index_getAll op_user_id U (pending_operations d))).
Proof.
  intros H. unfold getPendingOperations. rewrite (with_db_opened _ _ s d H). reflexivity.
Qed.

Lemma removePendingOperation_opened (k : string) (s : Sys) (d : DB) :
  opened s = Some d ->
  removePendingOperation k s =
    (mk_sys (set_pending_operations (ObjectStore.delete op_id k) d) (browser s),
     Resolved tt).
Proof.
  intros H. unfold removePendingOperation. rewrite (with_db_opened _ _ s d H). reflexivity.
Qed.

End CacheFacts.

(* ================================================================== *)
(** * Expiry of cached entries *)

Lemma spell_valid_spec (now : Z) (c : SpellRow) :
  CacheManager.spell_valid now c = true <->
  sr_ttl c = None \/ sr_ttl c = Some 0%Z
  \/ exists t, sr_ttl c = Some t /\ (now - sr_cached_at c < t)%Z.
Proof.
  unfold CacheManager.spell_valid, truthy_num.
  destruct (sr_ttl c) as [t|]; simpl.
  - destruct (Z.eqb_spec t 0) as [->|Hn]; simpl.
    + intuition.
    + rewrite Z.ltb_lt. split.
      * intros H. right. right. exists t. auto.
      * intros [H|[H|[t' [H Hlt]]]]; try discriminate.
        -- inversion H. contradiction.
        -- inversion H; subst. assumption.
  - intuition.
Qed.




(** C6, as amended. [getCachedFavoritePresets] applies no expiry filter: it
    returns every stored preset of the user, whatever ttl the record
    carries and whatever the clock reads, and does not read the clock. The
    records [cacheFavoritePresets] writes carry no ttl. *)
Theorem getCachedFavoritePresets_no_expiry (s : Sys) (d : DB) (U : string) :
  opened s = Some d ->
  exists l,
    CacheManager.getCachedFavoritePresets U s = (mk_sys d (browser s), Resolved l) /\
    (forall row, In row (favorite_presets d) -> pr_user_id row = U ->
       In (pr_data row) l) /\
    (forall q, In q l ->
       exists row, In row (favorite_presets d) /\ pr_user_id row = U /\ pr_data row = q) /\
    (forall P V now row, In row (recached P V now (favorite_presets d)) ->
       In row (favorite_presets d) \/ pr_ttl row = None).
Proof.
  intros Ho. rewrite (CacheFacts.getCachedFavoritePresets_opened U s d Ho).
  eexists. split; [reflexivity|]. split; [|split].
  - intros row Hin Hu. apply in_map. apply filter_In. split; trivial.
    apply String.eqb_eq. assumption.
  - intros q Hq. apply in_map_iff in Hq. destruct Hq as [row [Hd Hin]].
    apply filter_In in Hin. destruct Hin as [Hin Hu].
    apply String.eqb_eq in Hu. eauto.
  - intros P V now. unfold recached.
    assert (forall acc row,
      In row (fold_left (fun acc p => ObjectStore.put pr_id (preset_row V now p) acc) P acc) ->
      In row acc \/ pr_ttl row = None) as Hfold.
    { induction P as [|p P IH]; simpl; intros acc row Hin; auto.
      destruct (IH _ _ Hin) as [Hacc|Hn]; auto.
      clear -Hacc. induction acc as [|x acc IHacc]; simpl in Hacc.
      - destruct Hacc as [<-|[]]. right. reflexivity.
      - destruct (String.compare _ _); simpl in *.
        + destruct Hacc as [<-|H]; auto.
        + destruct Hacc as [<-|H]; auto.
        + destruct Hacc as [<-|H]; auto. destruct (IHacc H); auto. }
    intros row Hin. destruct (Hfold _ _ Hin) as [H|H]; auto.
    left. apply filter_In in H. tauto.
Qed.

Lemma getCachedFavoritePresets_no_expiry_witness :
  exists l,
    CacheManager.getCachedFavoritePresets "u1"
      (Sample.fresh (Sample.browser_at (OpenSuccess Sample.expiring_db) 5000 1))
    = (mk_sys Sample.expiring_db
         (Sample.browser_at (OpenSuccess Sample.expiring_db) 5000 1), Resolved l) /\
    In (pr_data Sample.expiring_row) l.
Proof.
  destruct (getCachedFavoritePresets_no_expiry
              (Sample.fresh (Sample.browser_at (OpenSuccess Sample.expiring_db) 5000 1))
              Sample.expiring_db "u1" eq_refl)
    as [l [Hl [Hall _]]].
  exists l. split; [exact Hl|].
  apply Hall; [simpl; auto|reflexivity].
Defined.

(** C6, as stated, fails: a stored preset whose ttl of 1000 ms ran out at
    time 1000 is returned by the indexed read at time 5000. *)
Lemma getCachedFavoritePresets_returns_expired :
  In Sample.expiring_row (favorite_presets Sample.expiring_db) /\
  opened Sample.expired_sys = Some Sample.expiring_db /\
  pr_ttl Sample.expiring_row = Some 1000%Z /\
  (pr_cached_at Sample.expiring_row + 1000 <= next_now (browser Sample.expired_sys))%Z /\
  snd (CacheManager.getCachedFavoritePresets "u1" Sample.expired_sys)
  = Resolved [pr_data Sample.expiring_row].
Proof. repeat split; simpl; auto. lia. Qed.

(* ================================================================== *)
(** * Storage that cannot be opened *)

(** C9, on the code. When [indexedDB.open] fails, no method of the cache
    manager reaches its test [if (!this.db)]: the promise of every method
    rejects with the error of the open request, and the state is left as it
    was. *)
Theorem storage_unavailable_rejects (s : Sys) (e : Err) :
  initialized (this s) = false ->
  idb_open (browser s) = OpenError e ->
  CacheManager.getCachedSpells s = (s, Rejected e) /\
  (forall U, CacheManager.getCachedFavoritePresets U s = (s, Rejected e)) /\
  (forall U, CacheManager.getPendingOperations U s = (s, Rejected e)) /\
  (forall k, CacheManager.getMetadata k s = (s, Rejected e)) /\
  (forall l, CacheManager.cacheSpells l s = (s, Rejected e)) /\
  (forall P U, CacheManager.cacheFavoritePresets P U s = (s, Rejected e)) /\
  (forall o, CacheManager.addPendingOperation o s = (s, Rejected e)) /\
  (forall k, CacheManager.removePendingOperation k s = (s, Rejected e)) /\
  (forall k v, CacheManager.setMetadata k v s = (s, Rejected e)) /\
  CacheManager.clearCache s = (s, Rejected e).
Proof.
  intros Hi Ho.
  repeat split; intros; apply CacheFacts.with_db_failed; assumption.
Qed.

Lemma storage_unavailable_rejects_witness :
  CacheManager.getCachedSpells
    (Sample.fresh (Sample.browser_at (OpenError Sample.storage_error) 0 1))
  = (Sample.fresh (Sample.browser_at (OpenError Sample.storage_error) 0 1),
     Rejected Sample.storage_error).
Proof.
  exact (proj1 (storage_unavailable_rejects
                  (Sample.fresh (Sample.browser_at (OpenError Sample.storage_error) 0 1))
                  Sample.storage_error eq_refl eq_refl)).
Defined.

(* ================================================================== *)
(** * Replacing the cached presets of a user *)

Module RecacheFacts.
Section Recache.
Variables (U : string) (now : Z).

Lemma In_put_weak {R : Type} (key : R -> string) (r x : R) (s : list R) :
  In x (ObjectStore.put key r s) -> x = r \/ In x s.
Proof.
  induction s as [|y s IH]; simpl.
  - intuition.
  - destruct (String.compare (key r) (key y)); simpl; intuition.
Qed.


Lemma wf_put_all (P : list FavoritePreset) (acc : list PresetRow) :
  ObjectStore.wf pr_id acc -> ObjectStore.wf pr_id (put_all U now P acc).
Proof. apply StoreFacts.wf_fold_put. Qed.





End Recache.

End RecacheFacts.





(* ================================================================== *)
(** * Draining the queue *)

Module DrainFacts.
Section Drain.
Context {RS : RemoteStore}.

Lemma cache_run {A : Type} (m : Async Sys A) (w : World) (s' : Sys) (r : Res A) :
  m (sys w) = (s', r) -> cache m w = (set_sys s' w, r).
Proof. unfold cache. intros ->. reflexivity. Qed.

Lemma processOperation_spec (op : PendingOperation) (w : World) :
  let w' := fst (processOperation op w) in
  sys w' = sys w /\
  remote w' = fst (answer_of op (remote w)) /\
  calls w' = calls w ++ request_of op /\
  toasts w' = toasts w /\ status w' = status w /\ same_hook w w' /\
  (snd (answer_of op (remote w)) = true -> snd (processOperation op w) = Resolved tt) /\
  (snd (answer_of op (remote w)) = false ->
   exists e, snd (processOperation op w) = Rejected e).
Proof.
  unfold processOperation, answer_of, request_of, same_hook.
  destruct (op_type op); simpl;
    unfold bind, ret, supabase_insert, supabase_update, supabase_delete.
  - destruct (remote_insert (op_data op) (remote w)) as [r' [data|e]]; simpl;
      repeat split; auto; try discriminate; eauto.
  - destruct (remote_update _ _ _ (remote w)) as [r' [e|]]; simpl;
      repeat split; auto; try discriminate; eauto.
  - destruct (remote_delete _ _ (remote w)) as [r' [e|]]; simpl;
      repeat split; auto; try discriminate; eauto.
  - rewrite app_nil_r. repeat split; auto; discriminate.
  - rewrite app_nil_r. repeat split; auto; discriminate.
Qed.

Lemma In_remove_all (ops q : list PendingOperation) (x : PendingOperation) :
  In x (remove_all ops q) <-> In x q /\ ~ In (op_id x) (map op_id ops).
Proof.
  unfold remove_all. revert q. induction ops as [|op ops IH]; simpl; intros q.
  - tauto.
  - rewrite IH, StoreFacts.In_delete. intuition.
Qed.

Lemma wf_remove_all (ops q : list PendingOperation) :
  ObjectStore.wf op_id q -> ObjectStore.wf op_id (remove_all ops q).
Proof.
  unfold remove_all. revert q. induction ops as [|o ops IH]; simpl; intros q W; trivial.
  apply IH. apply StoreFacts.wf_delete. exact W.
Qed.

Lemma outcomes_fst (ops : list PendingOperation) :
  forall r, map fst (outcomes r ops) = ops.
Proof.
  induction ops as [|op ops IH]; simpl; intros r; trivial.
  destruct (answer_of op r) as [r' ok]. simpl. f_equal. apply IH.
Qed.

Lemma sync_loop_cons_ok (op : PendingOperation) (rest : list PendingOperation)
  (sc fc : nat) (w w1 w2 : World) :
  processOperation op w = (w1, Resolved tt) ->
  cache (CacheManager.removePendingOperation (op_id op)) w1 = (w2, Resolved tt) ->
  sync_loop (op :: rest) sc fc w = sync_loop rest (S sc) fc w2.
Proof.
  intros H1 H2. cbn [sync_loop]. unfold bind, try_catch, ret.
  rewrite H1, H2. reflexivity.
Qed.

Lemma sync_loop_cons_ko (op : PendingOperation) (rest : list PendingOperation)
  (sc fc : nat) (w w1 : World) (e : Err) :
  processOperation op w = (w1, Rejected e) ->
  sync_loop (op :: rest) sc fc w = sync_loop rest sc (S fc) w1.
Proof.
  intros H1. cbn [sync_loop]. unfold bind, try_catch, ret.
  rewrite H1. reflexivity.
Qed.

(** The loop of a pass, from an initialised cache manager. *)
Lemma sync_loop_spec (pending : list PendingOperation) :
  forall (w : World) (d : DB) (b : Browser) (sc fc : nat),
    sys w = mk_sys d b ->
    let out := outcomes (remote w) pending in
    let w' := fst (sync_loop pending sc fc w) in
    snd (sync_loop pending sc fc w)
      = Resolved (sc + length (succeeded out), fc + length (failed out)) /\
    sys w' = mk_sys (set_pending_operations (remove_all (succeeded out)) d) b /\
    remote w' = remote_after (remote w) pending /\
    calls w' = calls w ++ flat_map request_of pending /\
    toasts w' = toasts w /\ status w' = status w /\ same_hook w w'.
Proof.
  induction pending as [|op rest IH]; intros w d b sc fc Hs.
  - simpl. rewrite Hs, app_nil_r, !Nat.add_0_r. unfold same_hook.
    destruct d; repeat split; reflexivity.
  - cbn zeta.
    destruct (processOperation_spec op w)
      as (Psys & Prem & Pcalls & Ptoasts & Pstatus & Phook & Pok & Pko).
    destruct (processOperation op w) as [w1 res] eqn:Eproc. cbn [fst snd] in *.
    cbn [outcomes remote_after flat_map].
    destruct (answer_of op (remote w)) as [r1 ok] eqn:Eans. cbn [fst snd] in *.
    destruct Phook as (Pu & Pp & Pa & Pl & Pe).
    destruct ok.
    + rewrite (Pok eq_refl) in Eproc.
      assert (opened (sys w1) = Some d) as Ho by (rewrite Psys, Hs; reflexivity).
      pose proof (cache_run _ w1 _ _
                    (CacheFacts.removePendingOperation_opened (op_id op) (sys w1) d Ho))
        as Hrm.
      rewrite (sync_loop_cons_ok op rest sc fc w w1 _ Eproc Hrm).
      set (w2 := set_sys _ w1) in *.
      assert (sys w2 = mk_sys (set_pending_operations
                                 (ObjectStore.delete op_id (op_id op)) d) b) as Hs2.
      { unfold w2. simpl. rewrite Psys, Hs. reflexivity. }
      destruct (IH w2 _ b (S sc) fc Hs2)
        as (Ires & Isys & Irem & Icalls & It & Ist & Iu & Ip & Ia & Il & Ie).
      assert (remote w2 = r1) as Hr2 by (unfold w2; simpl; exact Prem).
      rewrite Hr2 in *.
      unfold succeeded, failed in *. cbn [filter snd negb map fst length].
      rewrite Ires, Isys, Irem, Icalls, It, Ist.
      unfold same_hook. rewrite Iu, Ip, Ia, Il, Ie.
      unfold w2. simpl.
      rewrite Pcalls, app_assoc, <- !plus_n_Sm.
      repeat split; try assumption; destruct d; reflexivity.
    + destruct (Pko eq_refl) as [e He]. rewrite He in Eproc.
      rewrite (sync_loop_cons_ko op rest sc fc w w1 e Eproc).
      assert (sys w1 = mk_sys d b) as Hs1 by congruence.
      destruct (IH w1 d b sc (S fc) Hs1)
        as (Ires & Isys & Irem & Icalls & It & Ist & Iu & Ip & Ia & Il & Ie).
      rewrite Prem in *.
      unfold succeeded, failed in *. cbn [filter snd negb map fst length].
      rewrite Ires, Isys, Irem, Icalls, It, Ist.
      unfold same_hook. rewrite Iu, Ip, Ia, Il, Ie.
      rewrite Pcalls, app_assoc, <- !plus_n_Sm.
      repeat split; try assumption; congruence.
Qed.

(** A pass over the queue of a signed-in, connected user. *)
Lemma syncPendingOperations_spec (snap : NetworkStatus) (w : World) (d : DB) (u : User) :
  opened (sys w) = Some d ->
  user w = Some u ->
  isConnected snap = true ->
  let pending := ObjectStore.index_getAll op_user_id (uid u) (pending_operations d) in
  let out := outcomes (remote w) pending in
  let sc := length (succeeded out) in
  let fc := length (failed out) in
  exists w' d',
    syncPendingOperations snap w = (w', Resolved (fc =? 0)%nat) /\
    opened (sys w') = Some d' /\
    pending_operations d' = remove_all (succeeded out) (pending_operations d) /\
    remote w' = remote_after (remote w) pending /\
    calls w' = calls w ++ flat_map request_of pending /\
    toasts w' = toasts w
                ++ (if (0 <? sc)%nat then [Sincronizado sc] else [])
                ++ (if (0 <? fc)%nat then [OperacoesFalharam fc] else []) /\
    syncing (status w') = false /\
    pendingOperations (status w')
      = (if (0 <? sc)%nat then fc else pendingOperations (status w)) /\
    same_hook w w'.
Proof.
  intros Ho Hu Hc pending out sc fc.
  unfold syncPendingOperations.
  unfold bind at 1. unfold get at 1. rewrite Hu, Hc. cbn [negb].
  unfold bind at 1. unfold setStatus at 1, modify at 1.
  set (w1 := {| sys := sys w; status := set_syncing true (status w) |}).
  unfold finally, try_catch. unfold bind at 1.
  assert (opened (sys w1) = Some d) as Ho1 by exact Ho.
  rewrite (cache_run _ w1 _ _
             (CacheFacts.getPendingOperations_opened (uid u) (sys w1) d Ho1)).
  fold pending.
  set (w2 := set_sys _ w1).
  assert (sys w2 = mk_sys d (browser (sys w))) as Hs2 by reflexivity.
  destruct (sync_loop_spec pending w2 d _ 0 0 Hs2)
    as (Lres & Lsys & Lrem & Lcalls & Lt & Lst & Lu & Lp & La & Ll & Le).
  change (remote w2) with (remote w) in *.
  fold out in Lres, Lsys. fold sc fc in Lres. cbn [Nat.add] in Lres.
  unfold bind at 1.
  destruct (sync_loop pending 0 0 w2) as [w3 res] eqn:Eloop. cbn [fst snd] in *.
  subst res. cbn [fst snd].
  destruct (0 <? sc)%nat eqn:Esc; destruct (0 <? fc)%nat eqn:Efc;
    unfold bind, cache, Date_now, toast, setStatus, modify, ret;
    cbn [fst snd sys set_sys]; rewrite ?Lsys;
    try rewrite (CacheFacts.setMetadata_opened _ _ _ _ (CacheFacts.opened_mk_sys _ _));
    cbn [fst snd sys set_sys remote calls toasts status syncing pendingOperations
         set_syncing user presets activePresetId loading error browser mk_sys];
    (eexists; eexists; split; [reflexivity|]);
    cbn [fst snd sys set_sys remote calls toasts status syncing pendingOperations
         set_syncing user presets activePresetId loading error browser mk_sys
         opened this initialized db pending_operations set_pending_operations
         set_metadata];
    unfold same_hook;
    cbn [fst snd sys set_sys remote calls toasts status syncing pendingOperations
         set_syncing user presets activePresetId loading error];
    rewrite ?Lrem, ?Lcalls, ?Lt, ?Lst, ?Lu, ?Lp, ?La, ?Ll, ?Le, ?app_nil_r, <- ?app_assoc;
    repeat split; reflexivity.
Qed.

End Drain.
End DrainFacts.

Module OutcomeFacts.
Section Outcomes.
Context {RS : RemoteStore}.

Lemma In_outcomes (ops : list PendingOperation) :
  forall r op ok, In (op, ok) (outcomes r ops) -> In op ops.
Proof.
  induction ops as [|o ops IH]; simpl; intros r op ok H; [assumption|].
  destruct (answer_of o r) as [r' k]. destruct H as [H|H].
  - inversion H. auto.
  - eauto.
Qed.

Lemma outcomes_functional (ops : list PendingOperation) :
  NoDup ops ->
  forall r op b1 b2,
    In (op, b1) (outcomes r ops) -> In (op, b2) (outcomes r ops) -> b1 = b2.
Proof.
  induction 1 as [|o ops Hn N IH]; simpl; intros r op b1 b2 H1 H2; [contradiction|].
  destruct (answer_of o r) as [r' k].
  destruct H1 as [H1|H1], H2 as [H2|H2].
  - congruence.
  - inversion H1; subst. apply In_outcomes in H2. contradiction.
  - inversion H2; subst. apply In_outcomes in H1. contradiction.
  - eauto.
Qed.

Lemma In_succeeded (out : list (PendingOperation * bool)) (op : PendingOperation) :
  In op (succeeded out) <-> In (op, true) out.
Proof.
  unfold succeeded. rewrite in_map_iff. split.
  - intros [[o b] [E H]]. apply filter_In in H. simpl in *. destruct H as [H Hb].
    subst. assumption.
  - intros H. exists (op, true). split; trivial. apply filter_In. auto.
Qed.

Lemma In_failed (out : list (PendingOperation * bool)) (op : PendingOperation) :
  In op (failed out) <-> In (op, false) out.
Proof.
  unfold failed. rewrite in_map_iff. split.
  - intros [[o b] [E H]]. apply filter_In in H. simpl in *. destruct H as [H Hb].
    destruct b; [discriminate|]. subst. assumption.
  - intros H. exists (op, false). split; trivial. apply filter_In. auto.
Qed.

Lemma NoDup_failed (ops : list PendingOperation) :
  NoDup ops -> forall r, NoDup (failed (outcomes r ops)).
Proof.
  unfold failed.
  induction 1 as [|o ops Hn N IH]; simpl; intros r; [constructor|].
  destruct (answer_of o r) as [r' k]. simpl. destruct k; simpl; auto.
  constructor; auto.
  intros H. apply (In_failed (outcomes r' ops) o) in H.
  apply In_outcomes in H. contradiction.
Qed.

(** The queue of a user is delivered in strictly ascending order of id. *)
Lemma pending_sorted (U : string) (q : list PendingOperation) :
  ObjectStore.wf op_id q ->
  StronglySorted (fun a b => String.compare (op_id a) (op_id b) = Lt)
    (ObjectStore.index_getAll op_user_id U q).
Proof. intros W. apply (StoreFacts.wf_filter op_id). exact W. Qed.

End Outcomes.
End OutcomeFacts.

(** The order of the queue. For every user, [getPendingOperations] returns
    all the queued operations of that user in ascending order of operation
    id, the primary key of the store, and a pass of [syncPendingOperations]
    sends the requests of these operations in exactly that order. The
    timestamps play no part. *)
Theorem pending_operations_in_key_order {RS : RemoteStore}
  (snap : NetworkStatus) (w : World) (d : DB) (u : User) :
  opened (sys w) = Some d ->
  ObjectStore.wf op_id (pending_operations d) ->
  user w = Some u ->
  isConnected snap = true ->
  exists l,
    snd (CacheManager.getPendingOperations (uid u) (sys w)) = Resolved l /\
    (forall op, In op l <-> In op (pending_operations d) /\ op_user_id op = uid u) /\
    StronglySorted (fun a b => String.compare (op_id a) (op_id b) = Lt) l /\
    calls (fst (syncPendingOperations snap w)) = calls w ++ flat_map request_of l.
Proof.
  intros Ho W Hu Hc.
  rewrite (CacheFacts.getPendingOperations_opened (uid u) (sys w) d Ho).
  eexists. split; [reflexivity|]. split; [|split].
  - intros op. unfold ObjectStore.index_getAll. rewrite filter_In, String.eqb_eq.
    tauto.
  - apply OutcomeFacts.pending_sorted. exact W.
  - destruct (DrainFacts.syncPendingOperations_spec snap w d u Ho Hu Hc)
      as (w' & d' & Hrun & _ & _ & _ & Hcalls & _).
    rewrite Hrun. exact Hcalls.
Qed.

Lemma pending_operations_in_key_order_witness :
  exists l,
    snd (CacheManager.getPendingOperations "u1" (sys Sample.after_rename_delete))
    = Resolved l /\
    calls (fst (syncPendingOperations (Sample.network true false 2)
                  Sample.after_rename_delete))
    = flat_map request_of l.
Proof.
  destruct (pending_operations_in_key_order (Sample.network true false 2)
              Sample.after_rename_delete
              Sample.queued_db
              {| uid := "u1" |})
    as [l [Hl [_ [_ Hcalls]]]].
  - reflexivity.
  - repeat first [reflexivity | constructor].
  - reflexivity.
  - reflexivity.
  - exists l. split; [exact Hl|exact Hcalls].
Defined.

(** C1, on the code. Offline, the user renames the preset [p1] and then
    deletes it: the rename is queued with timestamp 1010, the deletion with
    timestamp 1030. [getPendingOperations] returns the deletion first,
    because its id ["DELETE_PRESET_..."] sorts before ["UPDATE_PRESET_..."],
    so the list is not in ascending order of timestamp, and the pass sends
    the deletion before the rename. *)
Theorem pending_operations_not_in_timestamp_order :
  exists a b,
    snd (CacheManager.getPendingOperations "u1" (sys Sample.after_rename_delete))
    = Resolved [a; b] /\
    op_type a = DELETE_PRESET /\ op_type b = UPDATE_PRESET /\
    (op_timestamp b < op_timestamp a)%Z /\
    ~ timestamps_ascending [a; b] /\
    calls (fst (syncPendingOperations (Sample.network true false 2)
                  Sample.after_rename_delete))
    = request_of a ++ request_of b.
Proof.
  eexists. eexists. split; [vm_compute; reflexivity|].
  repeat split.
  intros H. inversion H as [|? ? _ Hall]; subst.
  inversion Hall as [|? ? Hle _]; subst.
  vm_compute in Hle. apply Hle. reflexivity.
Qed.

(** A pass that nothing interrupts. In such a pass of
    [syncPendingOperations] over the queue of a user, the request of every
    operation is sent once, in order, whether or not an earlier one failed;
    an operation whose replay succeeded is no longer in the queue and is not
    read by a pass that starts afterwards; an operation whose replay failed
    is still in the queue; and the number of failures reported (the
    notification, and the result [failureCount === 0]) is the number of
    operations of the pass that remain queued. Passes that overlap are
    the subject of the last part of the file. *)
Theorem drain_pass {RS : RemoteStore}
  (snap : NetworkStatus) (w : World) (d : DB) (u : User) :
  opened (sys w) = Some d ->
  ObjectStore.wf op_id (pending_operations d) ->
  user w = Some u ->
  isConnected snap = true ->
  let pending := ObjectStore.index_getAll op_user_id (uid u) (pending_operations d) in
  let out := outcomes (remote w) pending in
  let w' := fst (syncPendingOperations snap w) in
  map fst out = pending /\
  calls w' = calls w ++ flat_map request_of pending /\
  (forall op, In (op, true) out -> ~ In op (queue w')) /\
  (forall op, In (op, false) out -> In op (queue w')) /\
  (exists l',
     snd (CacheManager.getPendingOperations (uid u) (sys w')) = Resolved l' /\
     (forall op, In op l' <-> In (op, false) out) /\
     (forall snap', isConnected snap' = true ->
        calls (fst (syncPendingOperations snap' w')) = calls w' ++ flat_map request_of l') /\
     length l' = length (failed out)) /\
  snd (syncPendingOperations snap w) = Resolved (length (failed out) =? 0)%nat /\
  ((0 < length (failed out))%nat ->
   In (OperacoesFalharam (length (failed out))) (toasts w')) /\
  length (failed out)
  = length (filter (fun op => existsb (fun p => op_id p =? op_id op) pending) (queue w')).
Proof.
  intros Ho W Hu Hc pending out w'.
  destruct (DrainFacts.syncPendingOperations_spec snap w d u Ho Hu Hc)
    as (w1 & d' & Hrun & Ho' & Hq & _ & Hcalls & Htoasts & _ & _ & Hhook).
  fold pending in Hq, Hcalls, Htoasts. fold out in Hq, Htoasts.
  unfold w'. rewrite Hrun. cbn [fst snd].
  assert (NoDup pending) as Nd.
  { apply (StoreFacts.wf_NoDup op_id). apply StoreFacts.wf_filter. exact W. }
  assert (forall op, In op pending <->
                     In op (pending_operations d) /\ op_user_id op = uid u) as Hpend.
  { intros op. unfold pending, ObjectStore.index_getAll.
    rewrite filter_In, String.eqb_eq. tauto. }
  assert (Hqueue : queue w1 = remove_all (succeeded out) (pending_operations d)).
  { unfold queue, pending_of. rewrite Ho'. exact Hq. }
  assert (Hgone : forall op, In (op, true) out -> ~ In op (queue w1)).
  { intros op Hin. rewrite Hqueue, DrainFacts.In_remove_all. intros [_ Hn].
    apply Hn. apply in_map. apply OutcomeFacts.In_succeeded. exact Hin. }
  assert (Hstay : forall op, In (op, false) out -> In op (queue w1)).
  { intros op Hin. rewrite Hqueue, DrainFacts.In_remove_all.
    assert (In op pending) as Hp by (eapply OutcomeFacts.In_outcomes; exact Hin).
    split; [apply Hpend; exact Hp|].
    intros Hid. apply in_map_iff in Hid. destruct Hid as [op2 [Eid H2]].
    apply OutcomeFacts.In_succeeded in H2.
    assert (In op2 pending) as Hp2 by (eapply OutcomeFacts.In_outcomes; exact H2).
    assert (op2 = op) as ->.
    { apply (StoreFacts.wf_key_inj op_id (pending_operations d)); trivial.
      - apply Hpend; exact Hp2.
      - apply Hpend; exact Hp. }
    pose proof (OutcomeFacts.outcomes_functional pending Nd _ _ _ _ Hin H2).
    discriminate. }
  assert (Hnext : forall op,
            In op (ObjectStore.index_getAll op_user_id (uid u) (pending_operations d'))
            <-> In (op, false) out).
  { intros op. rewrite Hq. unfold ObjectStore.index_getAll at 1.
    rewrite filter_In, String.eqb_eq. split.
    - intros [Hin Huser].
      assert (In op pending) as Hp.
      { apply Hpend. apply DrainFacts.In_remove_all in Hin. tauto. }
      rewrite <- (DrainFacts.outcomes_fst pending (remote w)) in Hp.
      fold out in Hp. apply in_map_iff in Hp. destruct Hp as [[o b] [E Hp]].
      simpl in E. subst o. destruct b; trivial.
      exfalso. apply (Hgone op Hp). rewrite Hqueue. exact Hin.
    - intros Hin. split.
      + rewrite <- Hqueue. apply Hstay. exact Hin.
      + apply Hpend. eapply OutcomeFacts.In_outcomes. exact Hin. }
  assert (W' : ObjectStore.wf op_id (pending_operations d')).
  { rewrite Hq. apply DrainFacts.wf_remove_all. exact W. }
  assert (Hlen : length (ObjectStore.index_getAll op_user_id (uid u)
                           (pending_operations d'))
                 = length (failed out)).
  { apply Permutation_length. apply NoDup_Permutation.
    - apply (StoreFacts.wf_NoDup op_id). apply StoreFacts.wf_filter. exact W'.
    - apply OutcomeFacts.NoDup_failed. exact Nd.
    - intros op. rewrite Hnext. symmetry. apply OutcomeFacts.In_failed. }
  split; [apply DrainFacts.outcomes_fst|].
  split; [exact Hcalls|].
  split; [exact Hgone|].
  split; [exact Hstay|].
  split.
  { rewrite (CacheFacts.getPendingOperations_opened (uid u) (sys w1) d' Ho').
    eexists. split; [reflexivity|]. split; [exact Hnext|]. split; [|exact Hlen].
    intros snap' Hc'.
    assert (user w1 = Some u) as Hu1 by (destruct Hhook as [-> _]; exact Hu).
    destruct (DrainFacts.syncPendingOperations_spec snap' w1 d' u Ho' Hu1 Hc')
      as (w2 & d2 & Hrun2 & _ & _ & _ & Hcalls2 & _).
    rewrite Hrun2. exact Hcalls2. }
  split; [reflexivity|].
  split.
  { intros Hpos. rewrite Htoasts. apply in_or_app. right. apply in_or_app. right.
    apply Nat.ltb_lt in Hpos. rewrite Hpos. left. reflexivity. }
  rewrite <- Hlen. unfold queue, pending_of. rewrite Ho'.
  f_equal. unfold ObjectStore.index_getAll.
  apply filter_ext_in. intros op Hin.
  destruct (String.eqb_spec (op_user_id op) (uid u)) as [E|E].
  - symmetry. apply existsb_exists. exists op. split; [|apply String.eqb_refl].
    apply Hpend. split; trivial.
    rewrite Hq in Hin. apply DrainFacts.In_remove_all in Hin. tauto.
  - symmetry. apply not_true_is_false. intros Hex.
    apply existsb_exists in Hex. destruct Hex as [p [Hp Eid]].
    apply String.eqb_eq in Eid.
    assert (p = op) as ->.
    { apply (StoreFacts.wf_key_inj op_id (pending_operations d)); trivial.
      - apply Hpend; exact Hp.
      - rewrite Hq in Hin. apply DrainFacts.In_remove_all in Hin. tauto. }
    apply Hpend in Hp. tauto.
Qed.

Lemma drain_pass_witness :
  snd (syncPendingOperations (Sample.network true false 2) Sample.refused_world)
  = Resolved false /\
  In (OperacoesFalharam 1)
     (toasts (fst (syncPendingOperations (Sample.network true false 2)
                     Sample.refused_world))).
Proof.
  destruct (drain_pass (Sample.network true false 2) Sample.refused_world
              Sample.queued_db {| uid := "u1" |})
    as (_ & _ & _ & _ & _ & Hres & Htoast & _).
  - reflexivity.
  - repeat first [reflexivity | constructor].
  - reflexivity.
  - reflexivity.
  - split.
    + rewrite Hres. reflexivity.
    + apply Htoast. vm_compute. apply le_n.
Defined.

(* ================================================================== *)
(** * What the hooks keep *)

Module KeepFacts.
Import CacheManager.

Lemma with_db_cases {A : Type} (dflt : A) (body : DB -> Async Sys A) (s : Sys) :
  (exists d, opened s = Some d /\ with_db dflt body s = body d (mk_sys d (browser s)))
  \/ (opened s = None /\ fst (with_db dflt body s) = s).
Proof.
  destruct (opened s) as [d|] eqn:Ho.
  - left. exists d. split; trivial. apply CacheFacts.with_db_opened. exact Ho.
  - right. split; trivial.
    unfold opened in Ho. unfold with_db, bind, ensureInitialized, initialize, get, ret.
    destruct s as [[o i] b]. simpl in *.
    destruct i; simpl.
    + subst o. reflexivity.
    + destruct (idb_open b); [discriminate|reflexivity].
Qed.

Lemma pending_of_mk_sys (d : DB) (b : Browser) :
  pending_of (mk_sys d b) = pending_operations d.
Proof. reflexivity. Qed.

Lemma keeps_with_db {A : Type} (dflt : A) (body : DB -> Async Sys A) :
  (forall d b, pending_of (fst (body d (mk_sys d b))) = pending_operations d) ->
  keeps_queue (with_db dflt body).
Proof.
  intros H s. destruct (with_db_cases dflt body s) as [[d [Ho ->]]|[Ho ->]]; trivial.
  rewrite H. unfold pending_of. rewrite Ho. reflexivity.
Qed.

Lemma keeps_getCachedFavoritePresets (U : string) :
  keeps_queue (getCachedFavoritePresets U).
Proof. apply keeps_with_db. reflexivity. Qed.

Lemma keeps_getPendingOperations (U : string) : keeps_queue (getPendingOperations U).
Proof. apply keeps_with_db. reflexivity. Qed.

Lemma keeps_setMetadata (k : string) (v : Z) : keeps_queue (setMetadata k v).
Proof. apply keeps_with_db. reflexivity. Qed.

Lemma keeps_cacheFavoritePresets (P : list FavoritePreset) (U : string) :
  keeps_queue (cacheFavoritePresets P U).
Proof. apply keeps_with_db. reflexivity. Qed.

Lemma keeps_Date_now : keeps_queue Date_now.
Proof. intros [c b]. reflexivity. Qed.

Lemma keeps_bind {A B : Type} (m : Async Sys A) (k : A -> Async Sys B) :
  keeps_queue m -> (forall a, keeps_queue (k a)) -> keeps_queue (bind m k).
Proof.
  intros Hm Hk s. unfold bind. specialize (Hm s).
  destruct (m s) as [s' [a|e]]; simpl in *; trivial.
  rewrite Hk. exact Hm.
Qed.

Lemma keeps_ret {A : Type} (a : A) : keeps_queue (@ret Sys A a).
Proof. intros s. reflexivity. Qed.

Lemma keeps_get : keeps_queue (@get Sys).
Proof. intros s. reflexivity. Qed.

Lemma keeps_Date_iso : keeps_queue Date_iso.
Proof.
  unfold Date_iso. apply keeps_bind; [exact keeps_Date_now|]. intros now.
  apply keeps_bind; [exact keeps_get|]. intros s. apply keeps_ret.
Qed.

Lemma keeps_map_updates_at (target : string) (updates : Updates)
  (l : list FavoritePreset) : keeps_queue (map_updates_at target updates l).
Proof.
  induction l as [|p l IH]; simpl.
  - apply keeps_ret.
  - destruct (id p =? target).
    + apply keeps_bind; [exact keeps_Date_iso|]. intros now.
      apply keeps_bind; [exact IH|]. intros rest. apply keeps_ret.
    + apply keeps_bind; [exact IH|]. intros rest. apply keeps_ret.
Qed.

(** Without a preset named [target] the list is mapped to itself and the
    clock is not read. *)
Lemma map_updates_at_absent (target : string) (updates : Updates)
  (l : list FavoritePreset) (s : Sys) :
  (forall p, In p l -> id p <> target) ->
  map_updates_at target updates l s = (s, Resolved l).
Proof.
  induction l as [|p l IH]; simpl; intros H; [reflexivity|].
  destruct (String.eqb_spec (id p) target) as [E|E].
  - exfalso. apply (H p); auto.
  - unfold bind. rewrite IH by auto. reflexivity.
Qed.

Section Keep.
Context {RS : RemoteStore}.
Variable I : World -> Prop.

Lemma preserves_ret {A : Type} (a : A) : preserves I (ret a).
Proof. intros w H. exact H. Qed.

Lemma preserves_get : preserves I get.
Proof. intros w H. exact H. Qed.

Lemma preserves_bind {A B : Type} (m : Async World A) (k : A -> Async World B) :
  preserves I m -> (forall a, preserves I (k a)) -> preserves I (bind m k).
Proof.
  intros Hm Hk w H. unfold bind. specialize (Hm w H).
  destruct (m w) as [w' [a|e]]; simpl in *; trivial.
  apply Hk. exact Hm.
Qed.

Lemma preserves_try_catch {A : Type} (m : Async World A) (h : Err -> Async World A) :
  preserves I m -> (forall e, preserves I (h e)) -> preserves I (try_catch m h).
Proof.
  intros Hm Hh w H. unfold try_catch. specialize (Hm w H).
  destruct (m w) as [w' [a|e]]; simpl in *; trivial.
  apply Hh. exact Hm.
Qed.

Lemma preserves_finally {A : Type} (m : Async World A) (f : World -> World) :
  preserves I m -> (forall w, I w -> I (f w)) -> preserves I (finally m f).
Proof.
  intros Hm Hf w H. unfold finally. specialize (Hm w H).
  destruct (m w) as [w' r]; simpl in *. auto.
Qed.

Lemma preserves_detached {A B : Type} (m : Async World A) (rest : Async World B) :
  preserves I m -> preserves I rest -> preserves I (detached m rest).
Proof.
  intros Hm Hr w H. unfold detached. specialize (Hr w H).
  destruct (rest w) as [w' r]. cbn [fst] in *. apply Hm. exact Hr.
Qed.

Section Local.
Hypothesis Hlocal : local_only I.

Lemma preserves_cache {A : Type} (m : Async Sys A) :
  keeps_queue m -> preserves I (cache m).
Proof.
  intros Hm w H. unfold cache. specialize (Hm (sys w)).
  destruct (m (sys w)) as [s' r]; simpl in *.
  apply (Hlocal w); trivial.
Qed.

Lemma preserves_setPresets (x : list FavoritePreset) : preserves I (setPresets x).
Proof. intros w H. apply (Hlocal w); trivial. Qed.

Lemma preserves_setActivePresetId (x : option string) :
  preserves I (setActivePresetId x).
Proof. intros w H. apply (Hlocal w); trivial. Qed.

Lemma preserves_setLoading (x : bool) : preserves I (setLoading x).
Proof. intros w H. apply (Hlocal w); trivial. Qed.

Lemma preserves_setError (x : option string) : preserves I (setError x).
Proof. intros w H. apply (Hlocal w); trivial. Qed.

Lemma preserves_setStatus (f : NetworkStatus -> NetworkStatus) :
  preserves I (setStatus f).
Proof. intros w H. apply (Hlocal w); trivial. Qed.

Lemma preserves_toast (t : Toast) : preserves I (toast t).
Proof. intros w H. apply (Hlocal w); trivial. Qed.

Lemma preserves_set_user (x : option User) : preserves I (set_user x).
Proof. intros w H. apply (Hlocal w); trivial. Qed.

Lemma preserves_reselect (active : option string) (target : string)
  (l : list FavoritePreset) : preserves I (reselect active target l).
Proof.
  unfold reselect. destruct (opt_eqb active target).
  - apply preserves_setActivePresetId.
  - apply preserves_ret.
Qed.

Lemma preserves_updatePendingCount : preserves I updatePendingCount.
Proof.
  unfold updatePendingCount. apply preserves_bind; [apply preserves_get|].
  intros w. destruct (user w); [|apply preserves_ret].
  apply preserves_try_catch; [|intros; apply preserves_ret].
  apply preserves_bind.
  - apply preserves_cache. apply keeps_getPendingOperations.
  - intros l. apply preserves_setStatus.
Qed.

End Local.

Section Remote.
Hypothesis Hqueue : queue_only I.

Lemma queue_only_local : local_only I.
Proof. intros w w' Hq _. apply Hqueue. exact Hq. Qed.

Lemma preserves_supabase_insert (p : Payload) : preserves I (supabase_insert p).
Proof.
  intros w H. unfold supabase_insert.
  destruct (remote_insert p (remote w)) as [r' [a|e]]; simpl;
    apply (Hqueue w); trivial.
Qed.

Lemma preserves_supabase_update (u : option Updates) (t : option string) (o : string) :
  preserves I (supabase_update u t o).
Proof.
  intros w H. unfold supabase_update.
  destruct (remote_update u t o (remote w)) as [r' [e|]]; simpl;
    apply (Hqueue w); trivial.
Qed.

Lemma preserves_supabase_delete (t : option string) (o : string) :
  preserves I (supabase_delete t o).
Proof.
  intros w H. unfold supabase_delete.
  destruct (remote_delete t o (remote w)) as [r' [e|]]; simpl;
    apply (Hqueue w); trivial.
Qed.

Lemma preserves_supabase_select (o : string) : preserves I (supabase_select o).
Proof.
  intros w H. unfold supabase_select.
  destruct (remote_select o (remote w)) as [r' [a|e]]; simpl;
    apply (Hqueue w); trivial.
Qed.

Lemma preserves_checkSupabaseConnection : preserves I checkSupabaseConnection.
Proof.
  intros w H. unfold checkSupabaseConnection.
  destruct (remote_probe (remote w)) as [r' c]; simpl.
  apply (Hqueue w); trivial.
Qed.

Lemma preserves_processOperation (op : PendingOperation) :
  preserves I (processOperation op).
Proof.
  unfold processOperation. destruct (op_type op); try apply preserves_ret.
  - apply preserves_bind; [apply preserves_supabase_insert|].
    intros. apply preserves_ret.
  - apply preserves_supabase_update.
  - apply preserves_supabase_delete.
Qed.

End Remote.

End Keep.
End KeepFacts.

(* ================================================================== *)
(** * Offline presets and the queue *)

Module CleanFacts.
Section Clean.
Context {RS : RemoteStore}.

Lemma queue_only_clean : queue_only queue_clean.
Proof. intros w w' Hq H op Hin. apply H. rewrite <- Hq. exact Hin. Qed.

Lemma local_only_clean : local_only queue_clean.
Proof. apply KeepFacts.queue_only_local. exact queue_only_clean. Qed.

Lemma opened_None_unchanged {A : Type} (dflt : A) (body : DB -> Async Sys A) (s : Sys) :
  opened s = None -> fst (CacheManager.with_db dflt body s) = s.
Proof.
  intros Ho. destruct (KeepFacts.with_db_cases dflt body s) as [[d [Ho' _]]|[_ E]]; trivial.
  congruence.
Qed.

Lemma queue_after_enqueue (t : OpType) (p : Payload) (owner : string) (w : World) :
  (exists op,
     queue (fst (enqueue t p owner w)) = ObjectStore.put op_id op (queue w) /\
     op_type op = t /\ op_data op = p /\ op_user_id op = owner /\
     opened (sys w) <> None)
  \/ (fst (enqueue t p owner w) = w /\ opened (sys w) = None).
Proof.
  unfold enqueue, cache.
  destruct (opened (sys w)) as [d|] eqn:Ho.
  - left. rewrite (CacheFacts.addPendingOperation_opened _ (sys w) d Ho).
    eexists. split.
    + unfold queue, pending_of. cbn. rewrite Ho. reflexivity.
    + cbn. repeat split. discriminate.
  - right. split; trivial.
    unfold CacheManager.addPendingOperation.
    match goal with
    | |- context [CacheManager.with_db ?a ?b ?c] =>
        pose proof (opened_None_unchanged a b c Ho) as E';
        destruct (CacheManager.with_db a b c) as [s' r]
    end.
    cbn in *. subst s'. destruct w; reflexivity.
Qed.

Lemma preserves_enqueue (t : OpType) (p : Payload) (owner : string) :
  payload_targets_offline t p = false ->
  preserves queue_clean (enqueue t p owner).
Proof.
  intros Hp w H.
  destruct (queue_after_enqueue t p owner w) as [[op [Hq [Ht [Hd _]]]]|[-> _]]; trivial.
  intros x Hin. rewrite Hq in Hin.
  apply RecacheFacts.In_put_weak in Hin. destruct Hin as [->|Hin]; auto.
  unfold targets_offline. rewrite Ht, Hd. exact Hp.
Qed.

Lemma preserves_remove (k : string) :
  preserves queue_clean (cache (CacheManager.removePendingOperation k)).
Proof.
  intros w H. unfold cache.
  destruct (opened (sys w)) as [d|] eqn:Ho.
  - rewrite (CacheFacts.removePendingOperation_opened k (sys w) d Ho).
    intros x Hin. apply H.
    unfold queue, pending_of in *. cbn in *. rewrite Ho.
    apply StoreFacts.In_delete in Hin. tauto.
  - unfold CacheManager.removePendingOperation.
    match goal with
    | |- context [CacheManager.with_db ?a ?b ?c] =>
        pose proof (opened_None_unchanged a b c Ho) as E';
        destruct (CacheManager.with_db a b c) as [s' r]
    end.
    cbn in *. subst s'. intros x Hin. apply H. exact Hin.
Qed.

Ltac keeps :=
  repeat lazymatch goal with
    | |- keeps_queue (ret _) => apply KeepFacts.keeps_ret
    | |- keeps_queue get => apply KeepFacts.keeps_get
    | |- keeps_queue Date_now => apply KeepFacts.keeps_Date_now
    | |- keeps_queue Date_iso => apply KeepFacts.keeps_Date_iso
    | |- keeps_queue (CacheManager.getCachedFavoritePresets _) =>
        apply KeepFacts.keeps_getCachedFavoritePresets
    | |- keeps_queue (CacheManager.getPendingOperations _) =>
        apply KeepFacts.keeps_getPendingOperations
    | |- keeps_queue (CacheManager.setMetadata _ _) => apply KeepFacts.keeps_setMetadata
    | |- keeps_queue (CacheManager.cacheFavoritePresets _ _) =>
        apply KeepFacts.keeps_cacheFavoritePresets
    | |- keeps_queue (map_updates_at _ _ _) => apply KeepFacts.keeps_map_updates_at
    | |- keeps_queue (bind _ _) => apply KeepFacts.keeps_bind; [|intros ?]
    end.

(** The proof that a computation keeps a property [I], by the shape of
    the computation: [Hl] says that the queue and the requests sent decide
    [I], [Hq] that the queue alone does. *)
Ltac keep_with Hl Hq :=
  repeat lazymatch goal with
    | |- preserves _ (ret _) => apply KeepFacts.preserves_ret
    | |- preserves _ get => apply KeepFacts.preserves_get
    | |- preserves _ (detached _ _) => apply KeepFacts.preserves_detached
    | |- preserves _ (bind _ _) => apply KeepFacts.preserves_bind; [|intros ?]
    | |- preserves _ (try_catch _ _) => apply KeepFacts.preserves_try_catch; [|intros ?]
    | |- preserves _ (finally _ _) =>
        apply KeepFacts.preserves_finally;
        [|intros ? ?; apply (Hl _ _ eq_refl eq_refl); assumption]
    | |- preserves _ (setPresets _) =>
        apply (KeepFacts.preserves_setPresets _ Hl)
    | |- preserves _ (setActivePresetId _) =>
        apply (KeepFacts.preserves_setActivePresetId _ Hl)
    | |- preserves _ (setLoading _) =>
        apply (KeepFacts.preserves_setLoading _ Hl)
    | |- preserves _ (setError _) =>
        apply (KeepFacts.preserves_setError _ Hl)
    | |- preserves _ (setStatus _) =>
        apply (KeepFacts.preserves_setStatus _ Hl)
    | |- preserves _ (toast _) =>
        apply (KeepFacts.preserves_toast _ Hl)
    | |- preserves _ (set_user _) =>
        apply (KeepFacts.preserves_set_user _ Hl)
    | |- preserves _ (reselect _ _ _) =>
        apply (KeepFacts.preserves_reselect _ Hl)
    | |- preserves _ updatePendingCount =>
        apply (KeepFacts.preserves_updatePendingCount _ Hl)
    | |- preserves _ (supabase_insert _) => apply (KeepFacts.preserves_supabase_insert _ Hq)
    | |- preserves _ (supabase_update _ _ _) =>
        apply (KeepFacts.preserves_supabase_update _ Hq)
    | |- preserves _ (supabase_delete _ _) =>
        apply (KeepFacts.preserves_supabase_delete _ Hq)
    | |- preserves _ (supabase_select _) => apply (KeepFacts.preserves_supabase_select _ Hq)
    | |- preserves _ checkSupabaseConnection =>
        apply (KeepFacts.preserves_checkSupabaseConnection _ Hq)
    | |- preserves _ (processOperation _) =>
        apply (KeepFacts.preserves_processOperation _ Hq)
    | |- preserves _ (cache _) =>
        apply (KeepFacts.preserves_cache _ Hl); solve [keeps]
    | |- preserves _ (if ?c then _ else _) => destruct c eqn:?
    | |- preserves _ (match ?x with _ => _ end) => destruct x eqn:?
    end.

Ltac keep Hq := keep_with (KeepFacts.queue_only_local _ Hq) Hq.

Ltac keep_local Hl := keep_with Hl Hl.

Lemma clean_sync_loop (pending : list PendingOperation) :
  forall sc fc, preserves queue_clean (sync_loop pending sc fc).
Proof.
  induction pending as [|op rest IH]; intros sc fc; cbn [sync_loop].
  - apply KeepFacts.preserves_ret.
  - apply KeepFacts.preserves_bind.
    + apply KeepFacts.preserves_try_catch; [|intros; apply KeepFacts.preserves_ret].
      apply KeepFacts.preserves_bind;
        [apply (KeepFacts.preserves_processOperation _ queue_only_clean)|intros _].
      apply KeepFacts.preserves_bind; [apply preserves_remove|intros _].
      apply KeepFacts.preserves_ret.
    + intros [|]; apply IH.
Qed.

Lemma clean_syncPendingOperations (snap : NetworkStatus) :
  preserves queue_clean (syncPendingOperations snap).
Proof.
  unfold syncPendingOperations. keep queue_only_clean.
  apply clean_sync_loop.
Qed.

Lemma clean_checkConnection (snap : NetworkStatus) :
  preserves queue_clean (checkConnection snap).
Proof.
  unfold checkConnection. keep queue_only_clean.
  apply clean_syncPendingOperations.
Qed.

Lemma clean_handleSync (snap : NetworkStatus) :
  preserves queue_clean (handleSync snap).
Proof.
  unfold handleSync. keep queue_only_clean.
  apply clean_syncPendingOperations.
Qed.

Lemma clean_createDefaultPreset : preserves queue_clean createDefaultPreset.
Proof. unfold createDefaultPreset. keep queue_only_clean. Qed.

Lemma clean_createDefaultOfflinePreset :
  preserves queue_clean createDefaultOfflinePreset.
Proof.
  unfold createDefaultOfflinePreset. keep queue_only_clean.
  apply preserves_enqueue. reflexivity.
Qed.

Lemma clean_loadPresetsFromSupabase (active : option string) :
  preserves queue_clean (loadPresetsFromSupabase active).
Proof.
  unfold loadPresetsFromSupabase. keep queue_only_clean.
  apply clean_createDefaultPreset.
Qed.

Lemma clean_loadPresets : preserves queue_clean loadPresets.
Proof.
  unfold loadPresets. keep queue_only_clean;
    first [apply clean_loadPresetsFromSupabase | apply clean_createDefaultOfflinePreset].
Qed.

Lemma clean_createPreset (n : string) (d : option string) :
  preserves queue_clean (createPreset n d).
Proof.
  unfold createPreset. keep queue_only_clean.
  apply preserves_enqueue. reflexivity.
Qed.

Lemma clean_updatePreset (target : string) (updates : Updates) :
  preserves queue_clean (updatePreset target updates).
Proof.
  unfold updatePreset. keep queue_only_clean.
  apply preserves_enqueue. simpl.
  destruct (startsWith target "offline_"); [discriminate|reflexivity].
Qed.

Lemma clean_deletePreset (target : string) :
  preserves queue_clean (deletePreset target).
Proof.
  unfold deletePreset. keep queue_only_clean.
  apply preserves_enqueue. simpl.
  destruct (startsWith target "offline_"); [discriminate|reflexivity].
Qed.

Lemma clean_addSpellToPreset (spellId : string) (presetId : option string) :
  preserves queue_clean (addSpellToPreset spellId presetId).
Proof.
  unfold addSpellToPreset. keep queue_only_clean. apply clean_updatePreset.
Qed.

Lemma clean_removeSpellFromPreset (spellId : string) (presetId : option string) :
  preserves queue_clean (removeSpellFromPreset spellId presetId).
Proof.
  unfold removeSpellFromPreset. keep queue_only_clean. apply clean_updatePreset.
Qed.

Lemma clean_onUserChange : preserves queue_clean onUserChange.
Proof.
  unfold onUserChange. keep queue_only_clean. apply clean_loadPresets.
Qed.

Lemma clean_perform (a : Action) (w : World) :
  queue_clean w -> queue_clean (perform w a).
Proof.
  revert w. destruct a; cbn [perform];
    match goal with
    | |- forall w, queue_clean w -> queue_clean (fst (?m w)) =>
        change (preserves queue_clean m)
    end.
  - keep queue_only_clean. apply clean_onUserChange.
  - keep queue_only_clean. apply clean_onUserChange.
  - apply clean_loadPresets.
  - apply clean_createPreset.
  - apply clean_updatePreset.
  - apply clean_deletePreset.
  - apply clean_addSpellToPreset.
  - apply clean_removeSpellFromPreset.
  - keep queue_only_clean.
  - apply clean_checkConnection.
  - apply clean_handleSync.
  - unfold handleOnline. keep queue_only_clean.
  - unfold handleOffline. keep queue_only_clean.
Qed.

(** The queue is [q] and the requests sent are [c]. *)
Lemma local_only_frozen (q : list PendingOperation) (c : list RemoteCall) :
  local_only (fun w => queue w = q /\ calls w = c).
Proof. intros w w' Hq Hc [H1 H2]. split; congruence. Qed.

Lemma frozen_updatePreset (target : string) (updates : Updates)
  (q : list PendingOperation) (c : list RemoteCall) :
  startsWith target "offline_" = true ->
  preserves (fun w => queue w = q /\ calls w = c) (updatePreset target updates).
Proof.
  intros Hoff. unfold updatePreset. rewrite Hoff. cbn [negb].
  keep_local (local_only_frozen q c);
    match goal with
    | H : (_ && false)%bool = true |- _ => rewrite andb_false_r in H; discriminate
    end.
Qed.

Lemma frozen_deletePreset (target : string)
  (q : list PendingOperation) (c : list RemoteCall) :
  startsWith target "offline_" = true ->
  preserves (fun w => queue w = q /\ calls w = c) (deletePreset target).
Proof.
  intros Hoff. unfold deletePreset. rewrite Hoff. cbn [negb].
  keep_local (local_only_frozen q c);
    match goal with
    | H : (_ && false)%bool = true |- _ => rewrite andb_false_r in H; discriminate
    end.
Qed.

Lemma clean_trace (actions : list Action) :
  forall w, queue_clean w -> queue_clean (fold_left perform actions w).
Proof.
  induction actions as [|a actions IH]; simpl; intros w H; trivial.
  apply IH. apply clean_perform. exact H.
Qed.

End Clean.
End CleanFacts.

(** C7. For a preset id that begins with ["offline_"], [updatePreset] and
    [deletePreset] send no request to the remote store and leave the queue
    as it is; and whatever the hooks do, starting from a queue without such
    an operation, the queue never contains an [UPDATE_PRESET] or
    [DELETE_PRESET] operation whose target id begins with ["offline_"]. *)
Theorem offline_presets_stay_local {RS : RemoteStore} :
  (forall (w : World) (target : string) (updates : Updates),
     startsWith target "offline_" = true ->
     calls (fst (updatePreset target updates w)) = calls w /\
     queue (fst (updatePreset target updates w)) = queue w) /\
  (forall (w : World) (target : string),
     startsWith target "offline_" = true ->
     calls (fst (deletePreset target w)) = calls w /\
     queue (fst (deletePreset target w)) = queue w) /\
  (forall (w : World) (actions : list Action),
     queue_clean w ->
     forall op, In op (queue (fold_left perform actions w)) ->
       (op_type op = UPDATE_PRESET \/ op_type op = DELETE_PRESET) ->
       forall i, payload_id (op_data op) = Some i -> startsWith i "offline_" = false).
Proof.
  split; [|split].
  - intros w target updates Hoff.
    destruct (CleanFacts.frozen_updatePreset target updates (queue w) (calls w) Hoff w)
      as [Hq Hc]; auto.
  - intros w target Hoff.
    destruct (CleanFacts.frozen_deletePreset target (queue w) (calls w) Hoff w)
      as [Hq Hc]; auto.
  - intros w actions Hclean op Hin Hty i Hid.
    pose proof (CleanFacts.clean_trace actions w Hclean op Hin) as H.
    unfold targets_offline, payload_targets_offline in H.
    rewrite Hid in H. destruct Hty as [E|E]; rewrite E in H; exact H.
Qed.

(** C8. On the connected path, when the remote store answers the request of
    [createPreset], [updatePreset] or [deletePreset] with an error, the
    function returns [null], respectively [false], and the list of presets
    and the active preset are as before. *)
Theorem online_failure_leaves_presets {RS : RemoteStore} (w : World) (u : User) :
  user w = Some u ->
  isConnected (status w) = true ->
  (forall name description r' e,
     remote_insert
       (PresetFields {| n_name := name; n_description := description;
                        n_user_id := uid u; n_spell_ids := [] |})
       (remote w) = (r', inr e) ->
     snd (createPreset name description w) = Resolved None /\
     presets (fst (createPreset name description w)) = presets w /\
     activePresetId (fst (createPreset name description w)) = activePresetId w) /\
  (forall target updates r' e,
     startsWith target "offline_" = false ->
     remote_update (Some updates) (Some target) (uid u) (remote w) = (r', Some e) ->
     snd (updatePreset target updates w) = Resolved false /\
     presets (fst (updatePreset target updates w)) = presets w /\
     activePresetId (fst (updatePreset target updates w)) = activePresetId w) /\
  (forall target r' e,
     startsWith target "offline_" = false ->
     remote_delete (Some target) (uid u) (remote w) = (r', Some e) ->
     snd (deletePreset target w) = Resolved false /\
     presets (fst (deletePreset target w)) = presets w /\
     activePresetId (fst (deletePreset target w)) = activePresetId w).
Proof.
  intros Hu Hc. split; [|split].
  - intros name description r' e Hr.
    unfold createPreset, bind, get, try_catch, supabase_insert.
    rewrite Hu, Hc, Hr. cbn. auto.
  - intros target updates r' e Hoff Hr.
    unfold updatePreset, bind, get, try_catch, supabase_update.
    rewrite Hu, Hc, Hoff. cbn. rewrite Hr. cbn. auto.
  - intros target r' e Hoff Hr.
    unfold deletePreset, bind, get, try_catch, supabase_delete.
    rewrite Hu, Hc, Hoff. cbn. rewrite Hr. cbn. auto.
Qed.

Module UpdateFacts.
Section Update.
Context {RS : RemoteStore}.

Lemma In_put_self {R : Type} (key : R -> string) (r : R) (s : list R) :
  In r (ObjectStore.put key r s).
Proof.
  induction s as [|y s IH]; simpl; auto.
  destruct (String.compare (key r) (key y)); simpl; auto.
Qed.

Lemma updatePendingCount_resolves (w : World) :
  snd (updatePendingCount w) = Resolved tt /\
  queue (fst (updatePendingCount w)) = queue w /\
  presets (fst (updatePendingCount w)) = presets w.
Proof.
  unfold updatePendingCount, bind, get, try_catch, cache, setStatus, modify, ret.
  destruct (user w) as [u|]; [|auto].
  pose proof (KeepFacts.keeps_getPendingOperations (uid u) (sys w)) as Hk.
  destruct (CacheManager.getPendingOperations (uid u) (sys w)) as [s' [l|e]];
    cbn in *; auto.
Qed.

(** What the write of the presets to the cache leaves as it was. *)
Lemma cached_presets_kept (P : list FavoritePreset) (U : string) (w : World) :
  let w1 := fst (cache (CacheManager.cacheFavoritePresets P U) w) in
  queue w1 = queue w /\
  (opened (sys w) <> None -> opened (sys w1) <> None) /\
  presets w1 = presets w /\ user w1 = user w /\ calls w1 = calls w.
Proof.
  unfold cache. cbn zeta.
  pose proof (KeepFacts.keeps_cacheFavoritePresets P U (sys w)) as Hk.
  destruct (opened (sys w)) as [d|] eqn:Ho.
  - destruct (CacheFacts.cacheFavoritePresets_opened P U (sys w) d Ho)
      as (d' & b' & Hrun & _).
    rewrite Hrun in *. cbn. repeat split; trivial. discriminate.
  - destruct (CacheManager.cacheFavoritePresets P U (sys w)) as [s' r]. cbn in *.
    repeat split; trivial. congruence.
Qed.

(** The offline branch when no preset is named [target]: the list of
    presets is set to itself. *)
Lemma updatePreset_offline_absent (w : World) (u : User) (target : string)
  (updates : Updates) :
  user w = Some u ->
  isConnected (status w) && negb (startsWith target "offline_") = false ->
  (forall p, In p (presets w) -> id p <> target) ->
  updatePreset target updates w
  = detached (cache (CacheManager.cacheFavoritePresets (presets w) (uid u)))
      ((if negb (startsWith target "offline_") then
          enqueue UPDATE_PRESET (UpdateTarget target updates) (uid u) ;;;
          updatePendingCount
        else ret tt) ;;;
       ret true) w.
Proof.
  intros Hu Hcond Habs.
  unfold updatePreset. unfold bind at 1. unfold get at 1. rewrite Hu, Hcond.
  unfold bind at 1. unfold cache at 1.
  rewrite (KeepFacts.map_updates_at_absent target updates (presets w) (sys w) Habs).
  unfold bind at 1. unfold setPresets at 1, modify at 1.
  destruct w. reflexivity.
Qed.

End Update.
End UpdateFacts.

(** C10, as amended. On the offline branch (not connected, or an id that
    begins with ["offline_"]), when the id begins with ["offline_"] or the
    local store can be opened, [updatePreset(id, updates)] returns [true]
    even when no preset of the list has that id; the list of presets is
    then left as it was; and when the id does not begin with ["offline_"],
    an [UPDATE_PRESET] operation for that id is put in the queue all the
    same. *)
Theorem updatePreset_absent_target {RS : RemoteStore}
  (w : World) (u : User) (target : string) (updates : Updates) :
  user w = Some u ->
  isConnected (status w) = false \/ startsWith target "offline_" = true ->
  (forall p, In p (presets w) -> id p <> target) ->
  (startsWith target "offline_" = false -> opened (sys w) <> None) ->
  let w' := fst (updatePreset target updates w) in
  snd (updatePreset target updates w) = Resolved true /\
  presets w' = presets w /\
  (startsWith target "offline_" = false ->
   exists op,
     queue w' = ObjectStore.put op_id op (queue w) /\
     In op (queue w') /\
     op_type op = UPDATE_PRESET /\
     op_data op = UpdateTarget target updates /\
     op_user_id op = uid u) /\
  (startsWith target "offline_" = true -> queue w' = queue w).
Proof.
  intros Hu Hbranch Habs Hstore.
  assert (isConnected (status w) && negb (startsWith target "offline_") = false) as Hcond.
  { destruct Hbranch as [-> | ->]; [reflexivity|apply andb_false_r]. }
  rewrite (UpdateFacts.updatePreset_offline_absent w u target updates Hu Hcond Habs).
  cbn zeta. clear Hcond Hbranch.
  unfold detached.
  match goal with
  | |- context [let (_, _) := ?rest w in _] => destruct (rest w) as [w1 r1] eqn:E
  end.
  cbn [fst snd].
  destruct (UpdateFacts.cached_presets_kept (presets w) (uid u) w1)
    as (Hq1 & _ & Hp1 & _).
  cbn zeta in Hq1, Hp1. rewrite Hq1, Hp1. clear Hq1 Hp1.
  destruct (startsWith target "offline_") eqn:Hoff; cbn [negb] in E.
  - unfold bind, ret in E. inversion E; subst.
    repeat split; trivial. discriminate.
  - unfold bind at 1 in E. unfold bind at 1 in E.
    specialize (Hstore eq_refl).
    destruct (CleanFacts.queue_after_enqueue UPDATE_PRESET (UpdateTarget target updates)
                (uid u) w) as [(op & Hq2 & Ht & Hd & Ho & _)|[_ Hnone]];
      [|contradiction].
    assert (exists i, snd (enqueue UPDATE_PRESET (UpdateTarget target updates) (uid u) w)
                      = Resolved i) as [i Hi].
    { unfold enqueue, cache. destruct (opened (sys w)) as [d1|] eqn:Hd1; [|contradiction].
      rewrite (CacheFacts.addPendingOperation_opened _ (sys w) d1 Hd1). eexists. reflexivity. }
    assert (presets (fst (enqueue UPDATE_PRESET (UpdateTarget target updates) (uid u) w))
            = presets w) as Hp2.
    { unfold enqueue, cache.
      destruct (CacheManager.addPendingOperation _ (sys w)) as [s2 x]. reflexivity. }
    destruct (enqueue UPDATE_PRESET (UpdateTarget target updates) (uid u) w)
      as [w2 r2] eqn:E2.
    cbn [fst snd] in *. subst r2.
    destruct (UpdateFacts.updatePendingCount_resolves w2) as (Hr3 & Hq3 & Hp3).
    destruct (updatePendingCount w2) as [w3 r3]. cbn [fst snd] in *. subst r3.
    unfold ret in E. inversion E; subst.
    split; [reflexivity|]. split; [congruence|]. split; [|discriminate].
    intros _. exists op. rewrite Hq3, Hq2.
    repeat split; trivial. apply UpdateFacts.In_put_self.
Qed.

Lemma updatePreset_absent_target_witness :
  snd (updatePreset "ghost" (Sample.rename "B") Sample.offline_world) = Resolved true /\
  presets (fst (updatePreset "ghost" (Sample.rename "B") Sample.offline_world))
  = presets Sample.offline_world /\
  exists op,
    In op (queue (fst (updatePreset "ghost" (Sample.rename "B") Sample.offline_world))) /\
    op_type op = UPDATE_PRESET /\
    op_data op = UpdateTarget "ghost" (Sample.rename "B").
Proof.
  destruct (updatePreset_absent_target Sample.offline_world {| uid := "u1" |}
              "ghost" (Sample.rename "B"))
    as (Hres & Hp & Hq & _).
  - reflexivity.
  - left. reflexivity.
  - intros p [<-|[]]. discriminate.
  - intros _. discriminate.
  - split; [exact Hres|]. split; [exact Hp|].
    destruct (Hq eq_refl) as (op & _ & Hin & Ht & Hd & _).
    exists op. auto.
Defined.

(** C10, as stated, fails. Not connected and with a local storage that
    cannot be opened, [updatePreset] for the id ["ghost"], which no preset
    has and which does not begin with ["offline_"], rejects with the error
    of the storage instead of returning [true], and nothing is queued. *)
Lemma updatePreset_rejects_without_storage :
  user Sample.no_storage_offline_world = Some {| uid := "u1" |} /\
  isConnected (status Sample.no_storage_offline_world) = false /\
  startsWith "ghost" "offline_" = false /\
  (forall p, In p (presets Sample.no_storage_offline_world) -> id p <> "ghost") /\
  snd (updatePreset "ghost" (Sample.rename "B") Sample.no_storage_offline_world)
  = Rejected Sample.storage_error /\
  queue (fst (updatePreset "ghost" (Sample.rename "B") Sample.no_storage_offline_world))
  = [].
Proof.
  repeat split. intros p [<-|[]]. discriminate.
Qed.

Lemma offline_presets_stay_local_witness :
  (calls (fst (updatePreset "offline_u1_5" (Sample.rename "B") Sample.offline_world))
   = calls Sample.offline_world /\
   queue (fst (updatePreset "offline_u1_5" (Sample.rename "B") Sample.offline_world))
   = queue Sample.offline_world) /\
  (calls (fst (deletePreset "offline_u1_5" Sample.offline_world))
   = calls Sample.offline_world /\
   queue (fst (deletePreset "offline_u1_5" Sample.offline_world))
   = queue Sample.offline_world) /\
  startsWith "p1" "offline_" = false.
Proof.
  destruct (@offline_presets_stay_local (Sample.table true)) as (Hup & Hdel & Htrace).
  split; [exact (Hup Sample.offline_world "offline_u1_5" (Sample.rename "B") eq_refl)|].
  split; [exact (Hdel Sample.offline_world "offline_u1_5" eq_refl)|].
  apply (Htrace Sample.offline_world
           [UpdatePreset "p1" (Sample.rename "B"); DeletePreset "p1"]
           (fun op (H : In op (queue Sample.offline_world)) => match H with end)
           {| op_id := "UPDATE_PRESET_1005_0.7"; op_type := UPDATE_PRESET;
              op_data := UpdateTarget "p1" (Sample.rename "B");
              op_timestamp := 1010; op_user_id := "u1" |}).
  - vm_compute. auto.
  - left. reflexivity.
  - reflexivity.
Defined.

Lemma online_failure_leaves_presets_witness :
  (snd (createPreset "C" None Sample.cut_off_world) = Resolved None /\
   presets (fst (createPreset "C" None Sample.cut_off_world))
   = presets Sample.cut_off_world /\
   activePresetId (fst (createPreset "C" None Sample.cut_off_world))
   = activePresetId Sample.cut_off_world) /\
  (snd (updatePreset "p1" (Sample.rename "Z") Sample.cut_off_world) = Resolved false /\
   presets (fst (updatePreset "p1" (Sample.rename "Z") Sample.cut_off_world))
   = presets Sample.cut_off_world /\
   activePresetId (fst (updatePreset "p1" (Sample.rename "Z") Sample.cut_off_world))
   = activePresetId Sample.cut_off_world) /\
  (snd (deletePreset "p1" Sample.cut_off_world) = Resolved false /\
   presets (fst (deletePreset "p1" Sample.cut_off_world)) = presets Sample.cut_off_world /\
   activePresetId (fst (deletePreset "p1" Sample.cut_off_world))
   = activePresetId Sample.cut_off_world).
Proof.
  destruct (online_failure_leaves_presets Sample.cut_off_world {| uid := "u1" |}
              eq_refl eq_refl) as (Hc & Hu & Hd).
  split; [|split].
  - exact (Hc "C" None tt (PostgrestError "fetch failed") eq_refl).
  - exact (Hu "p1" (Sample.rename "Z") tt (PostgrestError "fetch failed") eq_refl eq_refl).
  - exact (Hd "p1" tt (PostgrestError "fetch failed") eq_refl eq_refl).
Defined.

(* ================================================================== *)
(** * Overlapping passes *)

(** C2, on the code. With the status saying that a pass is in progress, a
    poll of the connection that finds the server and a pending count above
    zero starts a pass all the same: the requests of the queued operations
    are sent. A second poll, from the render that follows and with no
    change of connectivity in between, starts another pass, which sends the
    request that failed again. The button of the status indicator, in the
    first state, does nothing. *)
Theorem drain_not_gated_by_syncing :
  syncing (status Sample.busy_world) = true /\
  calls (fst (checkConnection (status Sample.busy_world) Sample.busy_world))
  = [Probe; Delete (Some "p1") "u1"; Update (Some (Sample.rename "B")) (Some "p1") "u1"] /\
  calls (fst (checkConnection
                (status (fst (checkConnection (status Sample.busy_world)
                                Sample.busy_world)))
                (fst (checkConnection (status Sample.busy_world) Sample.busy_world))))
  = [Probe; Delete (Some "p1") "u1"; Update (Some (Sample.rename "B")) (Some "p1") "u1";
     Probe; Update (Some (Sample.rename "B")) (Some "p1") "u1"] /\
  fst (handleSync (status Sample.busy_world) Sample.busy_world) = Sample.busy_world.
Proof. vm_compute. repeat split. Qed.

(* ================================================================== *)
(** * More about the cache manager *)

Module RoundTripFacts.
Import CacheManager.

Lemma lookup_put_same {R : Type} (key : R -> string) (r : R) (s : list R) :
  ObjectStore.lookup key (key r) (ObjectStore.put key r s) = Some r.
Proof.
  unfold ObjectStore.lookup.
  induction s as [|x s IH]; simpl.
  - rewrite String.eqb_refl. reflexivity.
  - destruct (String.compare (key r) (key x)) eqn:E; simpl.
    + rewrite String.eqb_refl. reflexivity.
    + rewrite String.eqb_refl. reflexivity.
    + destruct (String.eqb_spec (key x) (key r)) as [Ek|Ek]; [|exact IH].
      rewrite Ek, StoreFacts.compare_refl in E. discriminate.
Qed.

Lemma lookup_put_other {R : Type} (key : R -> string) (k : string) (r : R) (s : list R) :
  k <> key r ->
  ObjectStore.lookup key k (ObjectStore.put key r s) = ObjectStore.lookup key k s.
Proof.
  intros Hk. unfold ObjectStore.lookup.
  assert ((key r =? k) = false) as Er by (apply String.eqb_neq; congruence).
  induction s as [|x s IH]; simpl.
  - rewrite Er. reflexivity.
  - destruct (String.compare (key r) (key x)) eqn:E; simpl.
    + apply String.compare_eq_iff in E. rewrite Er, <- E, Er. reflexivity.
    + rewrite Er. reflexivity.
    + rewrite IH. reflexivity.
Qed.

Lemma getMetadata_opened (k : string) (s : Sys) (d : DB) :
  opened s = Some d ->
  getMetadata k s
  = (mk_sys d (browser s),
     Resolved (option_map m_value (ObjectStore.lookup m_key k (metadata d)))).
Proof.
  intros H. unfold getMetadata. rewrite (CacheFacts.with_db_opened _ _ s d H). reflexivity.
Qed.

Lemma getCacheSize_opened (s : Sys) (d : DB) :
  opened s = Some d ->
  getCacheSize s
  = (mk_sys d (browser s),
     Resolved (length (spells d) + length (favorite_presets d)
               + length (magia_links d) + length (pending_operations d))).
Proof.
  intros H. unfold getCacheSize. rewrite (CacheFacts.with_db_opened _ _ s d H). reflexivity.
Qed.

Lemma getCachedMagiaLinks_opened (s : Sys) (d : DB) :
  opened s = Some d ->
  getCachedMagiaLinks s
  = (mk_sys d (browser s), Resolved (map (fun l => (magia l, classe l)) (magia_links d))).
Proof.
  intros H. unfold getCachedMagiaLinks.
  rewrite (CacheFacts.with_db_opened _ _ s d H). reflexivity.
Qed.

(** The [spells] store after [cacheSpells(l)] at clock reading [now]. *)
Lemma cacheSpells_opened (l : list Spell) (s : Sys) (d : DB) :
  opened s = Some d ->
  exists d',
    cacheSpells l s = (mk_sys d' (tick (tick (browser s))), Resolved tt) /\
    spells d'
    = fold_left (fun acc spell =>
        ObjectStore.put sr_id
          {| sr_data := spell; sr_cached_at := next_now (browser s);
             sr_ttl := Some ttl_24h; sr_id := spell_id spell |} acc) l (spells d) /\
    metadata d'
    = ObjectStore.put m_key
        {| m_key := "spells_last_sync"; m_value := next_now (browser s);
           m_updated_at := next_now (tick (browser s)) |} (metadata d) /\
    pending_operations d' = pending_operations d /\
    favorite_presets d' = favorite_presets d.
Proof.
  intros H. unfold cacheSpells. rewrite (CacheFacts.with_db_opened _ _ s d H).
  eexists. split; [reflexivity|]. cbn. auto.
Qed.

(** Membership after a run of upserts of rows [f a] keyed by [ka a]. *)
Lemma In_fold_put {R A : Type} (key : R -> string) (f : A -> R) (ka : A -> string)
  (l : list A) :
  (forall a, key (f a) = ka a) ->
  NoDup (map ka l) ->
  forall (acc : list R) (x : R),
    ObjectStore.wf key acc ->
    (In x (fold_left (fun acc a => ObjectStore.put key (f a) acc) l acc) <->
     (exists a, In a l /\ x = f a) \/ (In x acc /\ ~ In (key x) (map ka l))).
Proof.
  intros Hk. induction l as [|a l IH]; simpl; intros N acc x W.
  - split; [intros H; right; tauto|].
    intros [[a [[] _]]|[H _]]; assumption.
  - inversion N as [|? ? Ha N']; subst.
    rewrite IH by (auto using StoreFacts.wf_put).
    rewrite StoreFacts.In_put by assumption.
    split.
    + intros [[b [Hb ->]]|[[->|[Hx Hne]] Hn]].
      * left. exists b. auto.
      * left. exists a. auto.
      * right. split; trivial. rewrite Hk in Hne. intros [E|E]; auto.
    + intros [[b [[<-|Hb] ->]]|[Hx Hn]].
      * right. split; auto. rewrite Hk. exact Ha.
      * left. exists b. auto.
      * right. split.
        -- right. split; trivial. rewrite Hk. intros E. apply Hn. left. auto.
        -- intros E. apply Hn. right. assumption.
Qed.

Lemma In_put_link_weak (r x : MagiaLink) (s : list MagiaLink) :
  In x (put_link r s) -> x = r \/ In x s.
Proof.
  induction s as [|y s IH]; simpl.
  - intuition.
  - destruct (link_compare r y); simpl; intuition.
Qed.

Lemma link_compare_Eq (a b : MagiaLink) :
  link_compare a b = Eq -> magia a = magia b /\ classe a = classe b.
Proof.
  unfold link_compare. destruct (String.compare (magia a) (magia b)) eqn:E; try discriminate.
  intros E'. split; apply String.compare_eq_iff; assumption.
Qed.

(** An upsert keeps every compound key of the store and adds its own. *)
Lemma keys_put_link (r : MagiaLink) (s : list MagiaLink) (p : string * string) :
  In p (map (fun l => (magia l, classe l)) (put_link r s)) <->
  p = (magia r, classe r) \/ In p (map (fun l => (magia l, classe l)) s).
Proof.
  induction s as [|y s IH]; simpl.
  - intuition.
  - destruct (link_compare r y) eqn:E; simpl.
    + apply link_compare_Eq in E. destruct E as [-> ->]. intuition.
    + intuition.
    + rewrite IH. intuition.
Qed.

Lemma keys_fold_put_link (now : Z) (links : list Link) :
  forall (st : list MagiaLink) (p : string * string),
    In p (map (fun l => (magia l, classe l))
            (fold_left (fun acc link =>
               put_link {| magia := fst link; classe := snd link; ml_cached_at := now |} acc)
               links st)) <->
    In p links \/ In p (map (fun l => (magia l, classe l)) st).
Proof.
  induction links as [|[m c] links IH]; simpl; intros st p.
  - tauto.
  - rewrite IH, keys_put_link. simpl. intuition.
Qed.

Lemma cacheMagiaLinks_opened (links : list Link) (s : Sys) (d : DB) :
  opened s = Some d ->
  exists d',
    cacheMagiaLinks links s = (mk_sys d' (tick (tick (browser s))), Resolved tt) /\
    magia_links d'
    = fold_left (fun acc link =>
        put_link {| magia := fst link; classe := snd link;
                    ml_cached_at := next_now (browser s) |} acc) links (magia_links d) /\
    metadata d'
    = ObjectStore.put m_key
        {| m_key := "magia_links_last_sync"; m_value := next_now (browser s);
           m_updated_at := next_now (tick (browser s)) |} (metadata d).
Proof.
  intros H. unfold cacheMagiaLinks. rewrite (CacheFacts.with_db_opened _ _ s d H).
  eexists. split; [reflexivity|]. cbn. auto.
Qed.

Lemma absent_by_check (k : string) (q : list PendingOperation) :
  forallb (fun op => negb (op_id op =? k)) q = true ->
  forall op, In op q -> op_id op <> k.
Proof.
  intros H op Hin E. rewrite forallb_forall in H. specialize (H op Hin).
  rewrite E, String.eqb_refl in H. discriminate.
Qed.

End RoundTripFacts.

(** X1. Metadata round trip. On an available store, [getMetadata(k)] after
    [setMetadata(k, v)] returns [v], and the value of every other key is as
    before. *)
Theorem metadata_round_trip (s : Sys) (d : DB) (k : string) (v : Z) :
  opened s = Some d ->
  snd (CacheManager.getMetadata k (fst (CacheManager.setMetadata k v s)))
  = Resolved (Some v) /\
  forall k', k' <> k ->
    snd (CacheManager.getMetadata k' (fst (CacheManager.setMetadata k v s)))
    = snd (CacheManager.getMetadata k' s).
Proof.
  intros Ho. rewrite (CacheFacts.setMetadata_opened k v s d Ho). cbn [fst].
  split.
  - rewrite (RoundTripFacts.getMetadata_opened k _ _ (CacheFacts.opened_mk_sys _ _)).
    cbn [snd metadata set_metadata].
    rewrite (RoundTripFacts.lookup_put_same m_key
               {| m_key := k; m_value := v; m_updated_at := next_now (browser s) |}).
    reflexivity.
  - intros k' Hk.
    rewrite (RoundTripFacts.getMetadata_opened k' _ _ (CacheFacts.opened_mk_sys _ _)).
    rewrite (RoundTripFacts.getMetadata_opened k' s d Ho).
    cbn [snd metadata set_metadata].
    rewrite RoundTripFacts.lookup_put_other by exact Hk. reflexivity.
Qed.

Lemma metadata_round_trip_witness :
  snd (CacheManager.getMetadata "last_sync_time"
         (fst (CacheManager.setMetadata "last_sync_time" 42 Sample.cached_sys)))
  = Resolved (Some 42%Z).
Proof.
  exact (proj1 (metadata_round_trip Sample.cached_sys Sample.cached_db
                  "last_sync_time" 42 eq_refl)).
Defined.

(** X2. Queue round trip. On an available store, [addPendingOperation] returns
    the id of the operation it stores; [getPendingOperations] for the user
    of the operation then returns it, with the type, payload and user given,
    beside operations that were queued before; and after
    [removePendingOperation] of that id it is no longer returned, while the
    other operations of the user are. *)
Theorem pending_operation_round_trip (s : Sys) (d : DB) (o : CacheManager.NewOperation) :
  opened s = Some d ->
  ObjectStore.wf op_id (pending_operations d) ->
  exists op l l',
    snd (CacheManager.addPendingOperation o s) = Resolved (op_id op) /\
    op_type op = CacheManager.new_type o /\
    op_data op = CacheManager.new_data o /\
    op_user_id op = CacheManager.new_user_id o /\
    snd (CacheManager.getPendingOperations (CacheManager.new_user_id o)
           (fst (CacheManager.addPendingOperation o s))) = Resolved l /\
    In op l /\
    (forall x, In x l -> x = op \/ In x (pending_operations d)) /\
    snd (CacheManager.getPendingOperations (CacheManager.new_user_id o)
           (fst (CacheManager.removePendingOperation (op_id op)
                   (fst (CacheManager.addPendingOperation o s))))) = Resolved l' /\
    ~ In op l' /\
    (forall x, op_id x <> op_id op ->
       (In x l' <->
        In x (pending_operations d) /\ op_user_id x = CacheManager.new_user_id o)).
Proof.
  intros Ho W.
  rewrite (CacheFacts.addPendingOperation_opened o s d Ho). cbn [fst snd].
  set (op := new_operation o (browser s)).
  set (b1 := tick (draw (tick (browser s)))).
  set (d1 := set_pending_operations (ObjectStore.put op_id op) d).
  exists op. eexists. eexists.
  rewrite (CacheFacts.getPendingOperations_opened _ (mk_sys d1 b1) d1 eq_refl).
  rewrite (CacheFacts.removePendingOperation_opened _ (mk_sys d1 b1) d1 eq_refl).
  cbn [fst snd].
  rewrite (CacheFacts.getPendingOperations_opened _ (mk_sys _ _) _ eq_refl).
  cbn [fst snd pending_operations set_pending_operations d1].
  split; [reflexivity|]. split; [reflexivity|]. split; [reflexivity|].
  split; [reflexivity|]. split; [reflexivity|].
  unfold ObjectStore.index_getAll.
  split.
  { apply filter_In. split; [apply UpdateFacts.In_put_self|apply String.eqb_refl]. }
  split.
  { intros x Hx. apply filter_In in Hx. destruct Hx as [Hx _].
    apply StoreFacts.In_put in Hx; trivial. tauto. }
  split; [reflexivity|].
  split.
  { intros Hin. apply filter_In in Hin. destruct Hin as [Hin _].
    apply StoreFacts.In_delete in Hin. destruct Hin as [_ Hn]. apply Hn. reflexivity. }
  intros x Hx. rewrite filter_In, StoreFacts.In_delete, StoreFacts.In_put, String.eqb_eq
    by assumption.
  split.
  - intros [[[->|[Hin _]] _] Hu]; [contradiction|auto].
  - intros [Hin Hu]. auto.
Qed.

Lemma pending_operation_round_trip_witness :
  exists op,
    snd (CacheManager.addPendingOperation
           {| CacheManager.new_type := DELETE_PRESET;
              CacheManager.new_data := DeleteTarget "p9";
              CacheManager.new_user_id := "u1" |}
           (sys Sample.after_rename_delete)) = Resolved (op_id op) /\
    op_data op = DeleteTarget "p9".
Proof.
  destruct (pending_operation_round_trip (sys Sample.after_rename_delete)
              Sample.queued_db
              {| CacheManager.new_type := DELETE_PRESET;
                 CacheManager.new_data := DeleteTarget "p9";
                 CacheManager.new_user_id := "u1" |})
    as (op & l & l' & Hadd & _ & Hd & _).
  - vm_compute. reflexivity.
  - vm_compute. repeat first [reflexivity | constructor].
  - exists op. auto.
Defined.

(** X3. Removal of an absent id. On an available store whose queue holds no
    operation with id [k], [removePendingOperation(k)] resolves and leaves
    the queue of every user as it was. *)
Theorem removePendingOperation_absent (s : Sys) (d : DB) (k : string) :
  opened s = Some d ->
  (forall op, In op (pending_operations d) -> op_id op <> k) ->
  snd (CacheManager.removePendingOperation k s) = Resolved tt /\
  pending_of (fst (CacheManager.removePendingOperation k s)) = pending_operations d /\
  forall U,
    snd (CacheManager.getPendingOperations U (fst (CacheManager.removePendingOperation k s)))
    = snd (CacheManager.getPendingOperations U s).
Proof.
  intros Ho Habs.
  rewrite (CacheFacts.removePendingOperation_opened k s d Ho). cbn [fst snd].
  assert (ObjectStore.delete op_id k (pending_operations d) = pending_operations d) as E.
  { unfold ObjectStore.delete.
    induction (pending_operations d) as [|x q IH]; simpl; trivial.
    destruct (String.eqb_spec (op_id x) k) as [Ek|Ek].
    - exfalso. apply (Habs x); simpl; auto.
    - simpl. f_equal. apply IH. intros op Hin. apply Habs. right. exact Hin. }
  split; [reflexivity|]. split.
  - unfold pending_of. cbn. exact E.
  - intros U.
    rewrite (CacheFacts.getPendingOperations_opened U (mk_sys _ _) _ eq_refl).
    rewrite (CacheFacts.getPendingOperations_opened U s d Ho).
    cbn [snd pending_operations set_pending_operations]. rewrite E. reflexivity.
Qed.

Lemma removePendingOperation_absent_witness :
  pending_of (fst (CacheManager.removePendingOperation "nothing"
                     (sys Sample.after_rename_delete)))
  = pending_operations Sample.queued_db.
Proof.
  destruct (removePendingOperation_absent (sys Sample.after_rename_delete)
              Sample.queued_db "nothing") as (_ & H & _).
  - vm_compute. reflexivity.
  - apply RoundTripFacts.absent_by_check. vm_compute. reflexivity.
  - exact H.
Defined.

(** X4. Spells live for a day. On an available store, after [cacheSpells(l)]
    (spells with distinct ids) written at clock reading [t], the metadata
    key ["spells_last_sync"] holds [t], and a later [getCachedSpells]
    returns every spell of [l] while the clock reads less than [t] plus 24
    hours, and none of them from then on. *)
Theorem cached_spells_live_for_a_day (s : Sys) (d : DB) (l : list Spell) :
  opened s = Some d ->
  ObjectStore.wf sr_id (spells d) ->
  spells_keyed (spells d) ->
  NoDup (map spell_id l) ->
  snd (CacheManager.cacheSpells l s) = Resolved tt /\
  snd (CacheManager.getMetadata "spells_last_sync" (fst (CacheManager.cacheSpells l s)))
  = Resolved (Some (next_now (browser s))) /\
  forall (b2 : Browser) (sp : Spell),
    In sp l ->
    exists r,
      snd (CacheManager.getCachedSpells
             {| this := this (fst (CacheManager.cacheSpells l s)); browser := b2 |})
      = Resolved r /\
      ((next_now b2 - next_now (browser s) < 24 * 60 * 60 * 1000)%Z -> In sp r) /\
      ((24 * 60 * 60 * 1000 <= next_now b2 - next_now (browser s))%Z -> ~ In sp r).
Proof.
  intros Ho W K N.
  destruct (RoundTripFacts.cacheSpells_opened l s d Ho)
    as (d' & Hrun & Hsp & Hmeta & _).
  rewrite Hrun. cbn [fst snd]. split; [reflexivity|]. split.
  - rewrite (RoundTripFacts.getMetadata_opened _ (mk_sys d' _) d' eq_refl).
    cbn [snd]. rewrite Hmeta.
    rewrite (RoundTripFacts.lookup_put_same m_key
               {| m_key := "spells_last_sync"; m_value := next_now (browser s);
                  m_updated_at := next_now (tick (browser s)) |}).
    reflexivity.
  - intros b2 sp Hsp_in.
    set (t := next_now (browser s)) in *.
    set (row := fun spell : Spell =>
                  {| sr_data := spell; sr_cached_at := t;
                     sr_ttl := Some CacheManager.ttl_24h; sr_id := spell_id spell |}) in *.
    assert (forall x, In x (spells d') <->
              (exists a, In a l /\ x = row a)
              \/ (In x (spells d) /\ ~ In (sr_id x) (map spell_id l))) as Hrows.
    { intros x. rewrite Hsp.
      apply (RoundTripFacts.In_fold_put sr_id row spell_id l); trivial. }
    rewrite (CacheFacts.getCachedSpells_opened
               {| this := this (mk_sys d' (tick (tick (browser s)))); browser := b2 |}
               d' eq_refl).
    cbn [snd browser]. eexists. split; [reflexivity|]. split.
    + intros Hlt. apply in_map_iff. exists (row sp). split; [reflexivity|].
      apply filter_In. split; [apply Hrows; eauto|].
      apply spell_valid_spec. right. right. exists CacheManager.ttl_24h.
      split; [reflexivity|]. unfold CacheManager.ttl_24h. simpl. lia.
    + intros Hge Hin. apply in_map_iff in Hin. destruct Hin as [x [Hd Hx]].
      apply filter_In in Hx. destruct Hx as [Hx Hv].
      apply Hrows in Hx. destruct Hx as [[a [Ha ->]]|[Hx Hn]].
      * apply spell_valid_spec in Hv. simpl in Hv.
        destruct Hv as [Hv|[Hv|[t' [Hv Hlt]]]]; try discriminate.
        inversion Hv; subst t'. unfold CacheManager.ttl_24h in Hlt. lia.
      * apply Hn. rewrite (K x Hx), Hd. apply in_map. exact Hsp_in.
Qed.

Lemma cached_spells_live_for_a_day_witness :
  exists r,
    snd (CacheManager.getCachedSpells
           {| this := this (fst (CacheManager.cacheSpells [Sample.fireball]
                                   Sample.cached_sys));
              browser := Sample.browser_at (OpenSuccess empty_DB) 5000 1 |})
    = Resolved r /\ In Sample.fireball r.
Proof.
  destruct (cached_spells_live_for_a_day Sample.cached_sys Sample.cached_db
              [Sample.fireball]) as (_ & _ & H).
  - reflexivity.
  - constructor.
  - intros c [].
  - repeat constructor. simpl. tauto.
  - destruct (H (Sample.browser_at (OpenSuccess empty_DB) 5000 1) Sample.fireball)
      as (r & Hr & Hlive & _); [simpl; auto|].
    exists r. split; [exact Hr|]. apply Hlive. vm_compute. reflexivity.
Defined.

(** X5. Cache reset. On an available store, after [clearCache] every read is
    empty: no spell, no preset and no pending operation for any user, no
    link, no metadata value, and a cache size of 0. *)
Theorem clearCache_empties (s : Sys) (d : DB) :
  opened s = Some d ->
  snd (CacheManager.clearCache s) = Resolved tt /\
  snd (CacheManager.getCachedSpells (fst (CacheManager.clearCache s))) = Resolved [] /\
  (forall U, snd (CacheManager.getCachedFavoritePresets U (fst (CacheManager.clearCache s)))
             = Resolved []) /\
  (forall U, snd (CacheManager.getPendingOperations U (fst (CacheManager.clearCache s)))
             = Resolved []) /\
  snd (CacheManager.getCachedMagiaLinks (fst (CacheManager.clearCache s))) = Resolved [] /\
  (forall k, snd (CacheManager.getMetadata k (fst (CacheManager.clearCache s)))
             = Resolved None) /\
  snd (CacheManager.getCacheSize (fst (CacheManager.clearCache s))) = Resolved 0.
Proof.
  intros Ho. unfold CacheManager.clearCache.
  rewrite (CacheFacts.with_db_opened _ _ s d Ho). cbn.
  repeat split.
Qed.

Lemma clearCache_empties_witness :
  snd (CacheManager.getCacheSize (fst (CacheManager.clearCache Sample.cached_sys)))
  = Resolved 0.
Proof.
  destruct (clearCache_empties Sample.cached_sys Sample.cached_db eq_refl)
    as (_ & _ & _ & _ & _ & _ & H).
  exact H.
Defined.

(** X6. Links round trip. On an available store, after [cacheMagiaLinks(links)]
    written at clock reading [t], [getCachedMagiaLinks] returns exactly the
    pairs of [links] and the pairs that were cached before, and the
    metadata key ["magia_links_last_sync"] holds [t]. *)
Theorem magia_links_round_trip (s : Sys) (d : DB) (links : list CacheManager.Link) :
  opened s = Some d ->
  exists before after,
    snd (CacheManager.getCachedMagiaLinks s) = Resolved before /\
    snd (CacheManager.cacheMagiaLinks links s) = Resolved tt /\
    snd (CacheManager.getCachedMagiaLinks (fst (CacheManager.cacheMagiaLinks links s)))
    = Resolved after /\
    (forall p, In p after <-> In p links \/ In p before) /\
    snd (CacheManager.getMetadata "magia_links_last_sync"
           (fst (CacheManager.cacheMagiaLinks links s)))
    = Resolved (Some (next_now (browser s))).
Proof.
  intros Ho.
  rewrite (RoundTripFacts.getCachedMagiaLinks_opened s d Ho).
  destruct (RoundTripFacts.cacheMagiaLinks_opened links s d Ho)
    as (d' & Hrun & Hlinks & Hmeta).
  rewrite Hrun. cbn [fst snd].
  rewrite (RoundTripFacts.getCachedMagiaLinks_opened (mk_sys d' _) d' eq_refl).
  rewrite (RoundTripFacts.getMetadata_opened _ (mk_sys d' _) d' eq_refl).
  cbn [fst snd].
  eexists. eexists. split; [reflexivity|]. split; [reflexivity|].
  split; [reflexivity|]. split.
  - intros p. rewrite Hlinks. apply RoundTripFacts.keys_fold_put_link.
  - rewrite Hmeta.
    rewrite (RoundTripFacts.lookup_put_same m_key
               {| m_key := "magia_links_last_sync"; m_value := next_now (browser s);
                  m_updated_at := next_now (tick (browser s)) |}).
    reflexivity.
Qed.

Lemma magia_links_round_trip_witness :
  exists after,
    snd (CacheManager.getCachedMagiaLinks
           (fst (CacheManager.cacheMagiaLinks [("Fireball", "Wizard")] Sample.cached_sys)))
    = Resolved after /\ In ("Fireball", "Wizard") after.
Proof.
  destruct (magia_links_round_trip Sample.cached_sys Sample.cached_db
              [("Fireball", "Wizard")] eq_refl)
    as (before & after & _ & _ & Hafter & Hmem & _).
  exists after. split; [exact Hafter|]. apply Hmem. left. simpl. auto.
Defined.

(* ================================================================== *)
(** * More about the passes over the queue *)

Module PassFacts.
Section Pass.
Context {RS : RemoteStore}.

(** The books of a pass: the time of the last synchronisation is recorded,
    in the status and in the metadata, exactly when an operation succeeded. *)
Lemma syncPendingOperations_books (snap : NetworkStatus) (w : World) (d : DB) (u : User) :
  opened (sys w) = Some d ->
  user w = Some u ->
  isConnected snap = true ->
  let pending := ObjectStore.index_getAll op_user_id (uid u) (pending_operations d) in
  let out := outcomes (remote w) pending in
  let sc := length (succeeded out) in
  let t := next_now (browser (sys w)) in
  exists w' d',
    syncPendingOperations snap w = (w', Resolved (length (failed out) =? 0)%nat) /\
    opened (sys w') = Some d' /\
    lastSyncTime (status w')
    = (if (0 <? sc)%nat then Some t else lastSyncTime (status w)) /\
    metadata d'
    = (if (0 <? sc)%nat then
         ObjectStore.put m_key
           {| m_key := "last_sync_time"; m_value := t;
              m_updated_at := next_now (tick (browser (sys w))) |} (metadata d)
       else metadata d) /\
    isOnline (status w') = isOnline (status w) /\
    isConnected (status w') = isConnected (status w).
Proof.
  intros Ho Hu Hc pending out sc t.
  set (fc := length (failed out)).
  unfold syncPendingOperations.
  unfold bind at 1. unfold get at 1. rewrite Hu, Hc. cbn [negb].
  unfold bind at 1. unfold setStatus at 1, modify at 1.
  set (w1 := {| sys := sys w; status := set_syncing true (status w) |}).
  unfold finally, try_catch. unfold bind at 1.
  assert (opened (sys w1) = Some d) as Ho1 by exact Ho.
  rewrite (DrainFacts.cache_run _ w1 _ _
             (CacheFacts.getPendingOperations_opened (uid u) (sys w1) d Ho1)).
  fold pending.
  set (w2 := set_sys _ w1).
  assert (sys w2 = mk_sys d (browser (sys w))) as Hs2 by reflexivity.
  destruct (DrainFacts.sync_loop_spec pending w2 d _ 0 0 Hs2)
    as (Lres & Lsys & Lrem & Lcalls & Lt & Lst & Lu & Lp & La & Ll & Le).
  change (remote w2) with (remote w) in *.
  fold out in Lres, Lsys. fold sc fc in Lres. cbn [Nat.add] in Lres.
  unfold bind at 1.
  destruct (sync_loop pending 0 0 w2) as [w3 res] eqn:Eloop. cbn [fst snd] in *.
  subst res. cbn [fst snd].
  destruct (0 <? sc)%nat eqn:Esc; destruct (0 <? fc)%nat eqn:Efc;
    unfold bind, cache, Date_now, toast, setStatus, modify, ret;
    cbn [fst snd sys set_sys]; rewrite ?Lsys;
    try rewrite (CacheFacts.setMetadata_opened _ _ _ _ (CacheFacts.opened_mk_sys _ _));
    cbn [fst snd sys set_sys remote calls toasts status syncing pendingOperations
         set_syncing user presets activePresetId loading error browser mk_sys
         lastSyncTime isOnline isConnected];
    (eexists; eexists; split; [reflexivity|]);
    cbn [fst snd sys set_sys remote calls toasts status syncing pendingOperations
         set_syncing user presets activePresetId loading error browser mk_sys
         opened this initialized db pending_operations set_pending_operations
         set_metadata metadata lastSyncTime isOnline isConnected];
    rewrite ?Lst;
    cbn [status syncing pendingOperations set_syncing lastSyncTime isOnline isConnected];
    repeat split; reflexivity.
Qed.

Lemma In_outcomes_true (ops : list PendingOperation) (op : PendingOperation) :
  (forall r, snd (answer_of op r) = true) ->
  In op ops -> forall r, In (op, true) (outcomes r ops).
Proof.
  intros Hok. induction ops as [|o ops IH]; simpl; intros Hin r; [contradiction|].
  destruct (answer_of o r) as [r' k] eqn:E. destruct Hin as [->|Hin].
  - left. specialize (Hok r). rewrite E in Hok. simpl in Hok. subst k. reflexivity.
  - right. apply IH. exact Hin.
Qed.

Lemma filter_delete_other (V k : string) (q : list PendingOperation) :
  (forall x, In x q -> op_id x = k -> op_user_id x <> V) ->
  ObjectStore.index_getAll op_user_id V (ObjectStore.delete op_id k q)
  = ObjectStore.index_getAll op_user_id V q.
Proof.
  unfold ObjectStore.index_getAll, ObjectStore.delete.
  induction q as [|x q IH]; simpl; intros H; trivial.
  destruct (String.eqb_spec (op_id x) k) as [E|E]; simpl.
  - destruct (String.eqb_spec (op_user_id x) V) as [Eu|Eu].
    + exfalso. apply (H x); auto.
    + apply IH. intros y Hy. apply H. auto.
  - rewrite IH; [reflexivity|]. intros y Hy. apply H. auto.
Qed.

Lemma filter_remove_all_other (V : string) (ops : list PendingOperation) :
  forall q,
    (forall x, In x q -> op_user_id x = V -> ~ In (op_id x) (map op_id ops)) ->
    ObjectStore.index_getAll op_user_id V (remove_all ops q)
    = ObjectStore.index_getAll op_user_id V q.
Proof.
  unfold remove_all.
  induction ops as [|o ops IH]; simpl; intros q H; trivial.
  rewrite IH.
  - apply filter_delete_other. intros x Hx Ek Hu. apply (H x Hx Hu). left. auto.
  - intros x Hx Hu Hin. apply StoreFacts.In_delete in Hx. destruct Hx as [Hx _].
    apply (H x Hx Hu). right. exact Hin.
Qed.

End Pass.
End PassFacts.

(** X7. Other users. On an available store, a pass of [syncPendingOperations]
    for one user leaves the queued operations of every other user as they
    were. *)
Theorem drain_spares_other_users {RS : RemoteStore}
  (snap : NetworkStatus) (w : World) (d : DB) (u : User) (V : string) :
  opened (sys w) = Some d ->
  ObjectStore.wf op_id (pending_operations d) ->
  user w = Some u ->
  isConnected snap = true ->
  V <> uid u ->
  snd (CacheManager.getPendingOperations V (sys (fst (syncPendingOperations snap w))))
  = snd (CacheManager.getPendingOperations V (sys w)).
Proof.
  intros Ho W Hu Hc HV.
  destruct (DrainFacts.syncPendingOperations_spec snap w d u Ho Hu Hc)
    as (w' & d' & Hrun & Ho' & Hq & _).
  rewrite Hrun. cbn [fst].
  rewrite (CacheFacts.getPendingOperations_opened V (sys w') d' Ho').
  rewrite (CacheFacts.getPendingOperations_opened V (sys w) d Ho).
  cbn [snd]. f_equal. rewrite Hq.
  apply PassFacts.filter_remove_all_other.
  intros x Hx Hux Hin.
  apply in_map_iff in Hin. destruct Hin as [op [Eid Hop]].
  apply OutcomeFacts.In_succeeded in Hop. apply OutcomeFacts.In_outcomes in Hop.
  unfold ObjectStore.index_getAll in Hop. apply filter_In in Hop.
  destruct Hop as [Hop Huop]. apply String.eqb_eq in Huop.
  assert (op = x) as -> by (apply (StoreFacts.wf_key_inj op_id (pending_operations d)); trivial).
  congruence.
Qed.

Lemma drain_spares_other_users_witness :
  snd (CacheManager.getPendingOperations "u2"
         (sys (fst (syncPendingOperations (Sample.network true false 2)
                      Sample.shared_world))))
  = snd (CacheManager.getPendingOperations "u2" (sys Sample.shared_world)).
Proof.
  apply (drain_spares_other_users (Sample.network true false 2) Sample.shared_world
           Sample.shared_db {| uid := "u1" |} "u2").
  - reflexivity.
  - repeat first [reflexivity | constructor].
  - reflexivity.
  - reflexivity.
  - discriminate.
Defined.

(** X8. An empty queue. On an available store, a pass for a user with nothing
    queued returns [true], sends no request, shows no notification, leaves
    the time of the last synchronisation and the metadata as they were, and
    ends with the syncing flag cleared. *)
Theorem drain_of_empty_queue {RS : RemoteStore}
  (snap : NetworkStatus) (w : World) (d : DB) (u : User) :
  opened (sys w) = Some d ->
  user w = Some u ->
  isConnected snap = true ->
  ObjectStore.index_getAll op_user_id (uid u) (pending_operations d) = [] ->
  snd (syncPendingOperations snap w) = Resolved true /\
  calls (fst (syncPendingOperations snap w)) = calls w /\
  toasts (fst (syncPendingOperations snap w)) = toasts w /\
  queue (fst (syncPendingOperations snap w)) = queue w /\
  lastSyncTime (status (fst (syncPendingOperations snap w))) = lastSyncTime (status w) /\
  pendingOperations (status (fst (syncPendingOperations snap w)))
  = pendingOperations (status w) /\
  syncing (status (fst (syncPendingOperations snap w))) = false /\
  (forall k, snd (CacheManager.getMetadata k (sys (fst (syncPendingOperations snap w))))
             = snd (CacheManager.getMetadata k (sys w))).
Proof.
  intros Ho Hu Hc Hempty.
  destruct (DrainFacts.syncPendingOperations_spec snap w d u Ho Hu Hc)
    as (w' & d' & Hrun & Ho' & Hq & _ & Hcalls & Htoasts & Hsync & Hpend & _).
  destruct (PassFacts.syncPendingOperations_books snap w d u Ho Hu Hc)
    as (w2 & d2 & Hrun2 & Ho2 & Hlast & Hmeta & _).
  rewrite Hrun in Hrun2. inversion Hrun2; subst w2. clear Hrun2.
  rewrite Ho' in Ho2. inversion Ho2; subst d2. clear Ho2.
  rewrite Hempty in *. cbn in Hq, Hcalls, Htoasts, Hpend, Hlast, Hmeta.
  rewrite Hrun. cbn [fst snd].
  rewrite app_nil_r in Hcalls, Htoasts.
  repeat split; trivial.
  - unfold queue, pending_of. rewrite Ho', Ho. exact Hq.
  - intros k.
    rewrite (RoundTripFacts.getMetadata_opened k (sys w') d' Ho').
    rewrite (RoundTripFacts.getMetadata_opened k (sys w) d Ho).
    cbn [snd]. rewrite Hmeta. reflexivity.
Qed.

Lemma drain_of_empty_queue_witness :
  snd (syncPendingOperations (Sample.network true false 0) Sample.idle_world)
  = Resolved true /\
  toasts (fst (syncPendingOperations (Sample.network true false 0) Sample.idle_world))
  = toasts Sample.idle_world.
Proof.
  destruct (drain_of_empty_queue (Sample.network true false 0) Sample.idle_world
              empty_DB {| uid := "u1" |} eq_refl eq_refl eq_refl eq_refl)
    as (H1 & _ & H3 & _).
  split; assumption.
Defined.

(** X9. The time of the last synchronisation. On an available store, when at
    least one operation of a pass succeeds, the clock is read once after the
    loop and that reading becomes the [lastSyncTime] of the status and the
    value of the metadata key ["last_sync_time"]; the pending count of the
    status becomes the number of failures and the number of successes is
    notified. When none succeeds, [lastSyncTime] and that metadata value
    stay as they were. *)
Theorem drain_records_last_sync {RS : RemoteStore}
  (snap : NetworkStatus) (w : World) (d : DB) (u : User) :
  opened (sys w) = Some d ->
  user w = Some u ->
  isConnected snap = true ->
  let out := outcomes (remote w)
               (ObjectStore.index_getAll op_user_id (uid u) (pending_operations d)) in
  let w' := fst (syncPendingOperations snap w) in
  ((exists op, In (op, true) out) ->
   lastSyncTime (status w') = Some (next_now (browser (sys w))) /\
   snd (CacheManager.getMetadata "last_sync_time" (sys w'))
   = Resolved (Some (next_now (browser (sys w)))) /\
   pendingOperations (status w') = length (failed out) /\
   In (Sincronizado (length (succeeded out))) (toasts w')) /\
  ((forall op, ~ In (op, true) out) ->
   lastSyncTime (status w') = lastSyncTime (status w) /\
   snd (CacheManager.getMetadata "last_sync_time" (sys w'))
   = snd (CacheManager.getMetadata "last_sync_time" (sys w))).
Proof.
  intros Ho Hu Hc out w'.
  destruct (DrainFacts.syncPendingOperations_spec snap w d u Ho Hu Hc)
    as (w1 & d' & Hrun & Ho' & _ & _ & _ & Htoasts & _ & Hpend & _).
  destruct (PassFacts.syncPendingOperations_books snap w d u Ho Hu Hc)
    as (w2 & d2 & Hrun2 & Ho2 & Hlast & Hmeta & _).
  rewrite Hrun in Hrun2. inversion Hrun2; subst w2. clear Hrun2.
  rewrite Ho' in Ho2. inversion Ho2; subst d2. clear Ho2.
  fold out in Htoasts, Hpend, Hlast, Hmeta.
  unfold w'. rewrite Hrun. cbn [fst].
  rewrite (RoundTripFacts.getMetadata_opened _ (sys w1) d' Ho').
  rewrite (RoundTripFacts.getMetadata_opened _ (sys w) d Ho). cbn [snd].
  split.
  - intros [op Hop].
    assert ((0 <? length (succeeded out))%nat = true) as Hpos.
    { apply Nat.ltb_lt. apply OutcomeFacts.In_succeeded in Hop.
      destruct (succeeded out); [contradiction|simpl; lia]. }
    rewrite Hpos in *. split; [exact Hlast|]. split.
    + rewrite Hmeta.
      rewrite (RoundTripFacts.lookup_put_same m_key
                 {| m_key := "last_sync_time"; m_value := next_now (browser (sys w));
                    m_updated_at := next_now (tick (browser (sys w))) |}).
      reflexivity.
    + split; [exact Hpend|]. rewrite Htoasts.
      apply in_or_app. right. left. reflexivity.
  - intros Hnone.
    assert (succeeded out = []) as Hs.
    { destruct (succeeded out) as [|op l] eqn:E; trivial.
      exfalso. apply (Hnone op). apply OutcomeFacts.In_succeeded. rewrite E. left. reflexivity. }
    rewrite Hs in *. cbn in Hlast, Hmeta. rewrite Hmeta. auto.
Qed.

Lemma drain_records_last_sync_witness :
  lastSyncTime (status (fst (syncPendingOperations (Sample.network true false 2)
                               Sample.shared_world)))
  = Some 2000%Z.
Proof.
  destruct (drain_records_last_sync (Sample.network true false 2) Sample.shared_world
              Sample.shared_db {| uid := "u1" |} eq_refl eq_refl eq_refl)
    as (H & _).
  destruct H as (Hlast & _).
  - eexists. left. reflexivity.
  - exact Hlast.
Defined.

(** No pass without user or connection. When nobody is signed in, or when
    the status of the render says not connected, [syncPendingOperations]
    returns [false] and changes nothing: no request, no notification, the
    syncing flag untouched. *)
Theorem drain_needs_user_and_connection {RS : RemoteStore}
  (snap : NetworkStatus) (w : World) :
  user w = None \/ isConnected snap = false ->
  syncPendingOperations snap w = (w, Resolved false).
Proof.
  intros H. unfold syncPendingOperations, bind, get.
  destruct (user w) as [u|].
  - destruct H as [H|H]; [discriminate|]. rewrite H. reflexivity.
  - reflexivity.
Qed.

Lemma drain_needs_user_and_connection_witness :
  syncPendingOperations (Sample.network false false 2) Sample.shared_world
  = (Sample.shared_world, Resolved false).
Proof.
  apply (drain_needs_user_and_connection (Sample.network false false 2)
           Sample.shared_world).
  right. reflexivity.
Defined.

(** X10. A probe that fails. When the probe of [checkConnection] does not reach
    the server, the status becomes not connected and nothing else happens:
    only the probe is sent, the cache manager is not touched, no pass is
    started and no notification is shown, whatever the pending count. *)
Theorem checkConnection_probe_fails {RS : RemoteStore}
  (snap : NetworkStatus) (w : World) (r' : Remote) :
  remote_probe (remote w) = (r', false) ->
  snd (checkConnection snap w) = Resolved tt /\
  isConnected (status (fst (checkConnection snap w))) = false /\
  calls (fst (checkConnection snap w)) = calls w ++ [Probe] /\
  sys (fst (checkConnection snap w)) = sys w /\
  toasts (fst (checkConnection snap w)) = toasts w /\
  pendingOperations (status (fst (checkConnection snap w)))
  = pendingOperations (status w) /\
  syncing (status (fst (checkConnection snap w))) = syncing (status w) /\
  same_hook w (fst (checkConnection snap w)).
Proof.
  intros Hp. unfold checkConnection, bind, checkSupabaseConnection, setStatus, modify, ret.
  rewrite Hp. cbn. unfold same_hook. repeat split.
Qed.

Lemma checkConnection_probe_fails_witness :
  isConnected (status (fst (checkConnection (status Sample.cut_off_world)
                              Sample.cut_off_world))) = false.
Proof.
  destruct (checkConnection_probe_fails (status Sample.cut_off_world)
              Sample.cut_off_world tt eq_refl) as (_ & H & _).
  exact H.
Defined.

(** X11. The pending count. For a signed-in user on an available store,
    [updatePendingCount] sets the pending count of the status to the number
    of operations queued for that user, and changes nothing else in the
    status or in the queue. *)
Theorem updatePendingCount_counts {RS : RemoteStore} (w : World) (d : DB) (u : User) :
  opened (sys w) = Some d ->
  user w = Some u ->
  snd (updatePendingCount w) = Resolved tt /\
  pendingOperations (status (fst (updatePendingCount w)))
  = length (ObjectStore.index_getAll op_user_id (uid u) (pending_operations d)) /\
  isOnline (status (fst (updatePendingCount w))) = isOnline (status w) /\
  isConnected (status (fst (updatePendingCount w))) = isConnected (status w) /\
  lastSyncTime (status (fst (updatePendingCount w))) = lastSyncTime (status w) /\
  syncing (status (fst (updatePendingCount w))) = syncing (status w) /\
  queue (fst (updatePendingCount w)) = queue w /\
  calls (fst (updatePendingCount w)) = calls w.
Proof.
  intros Ho Hu.
  unfold updatePendingCount, bind, get, try_catch. rewrite Hu.
  rewrite (DrainFacts.cache_run _ w _ _
             (CacheFacts.getPendingOperations_opened (uid u) (sys w) d Ho)).
  unfold setStatus, modify. cbn [fst snd status pendingOperations isOnline isConnected
                                  lastSyncTime syncing calls].
  repeat split. unfold queue, pending_of. cbn. rewrite Ho. reflexivity.
Qed.

Lemma updatePendingCount_counts_witness :
  pendingOperations (status (fst (updatePendingCount Sample.shared_world))) = 2.
Proof.
  destruct (updatePendingCount_counts Sample.shared_world Sample.shared_db
              {| uid := "u1" |} eq_refl eq_refl) as (_ & H & _).
  exact H.
Defined.

(** X12. A pass without storage. When the database cannot be opened, a pass for
    a signed-in, connected user sends no request, shows the notification of
    a failed synchronisation, returns [false] and ends with the syncing
    flag cleared: the rejection of the cache manager does not escape. *)
Theorem drain_without_storage {RS : RemoteStore}
  (snap : NetworkStatus) (w : World) (u : User) (e : Err) :
  initialized (this (sys w)) = false ->
  idb_open (browser (sys w)) = OpenError e ->
  user w = Some u ->
  isConnected snap = true ->
  snd (syncPendingOperations snap w) = Resolved false /\
  calls (fst (syncPendingOperations snap w)) = calls w /\
  toasts (fst (syncPendingOperations snap w)) = toasts w ++ [FalhaAoSincronizar] /\
  syncing (status (fst (syncPendingOperations snap w))) = false /\
  sys (fst (syncPendingOperations snap w)) = sys w.
Proof.
  intros Hi Hopen Hu Hc.
  assert (exists w',
            syncPendingOperations snap w = (w', Resolved false) /\
            calls w' = calls w /\ toasts w' = toasts w ++ [FalhaAoSincronizar] /\
            syncing (status w') = false /\ sys w' = sys w) as (w' & E & H).
  { unfold syncPendingOperations.
    unfold bind at 1. unfold get at 1. rewrite Hu, Hc. cbn [negb].
    unfold bind at 1. unfold setStatus at 1, modify at 1.
    unfold finally, try_catch. unfold bind at 1. unfold cache at 1.
    cbn [sys].
    unfold CacheManager.getPendingOperations at 1.
    rewrite (CacheFacts.with_db_failed _ _ (sys w) e Hi Hopen).
    eexists. split; [reflexivity|]. cbn. destruct (sys w). repeat split. }
  rewrite E. cbn [fst snd]. split; [reflexivity|exact H].
Qed.

Lemma drain_without_storage_witness :
  snd (syncPendingOperations (Sample.network true false 0) Sample.no_storage_world)
  = Resolved false.
Proof.
  destruct (drain_without_storage (Sample.network true false 0) Sample.no_storage_world
              {| uid := "u1" |} Sample.storage_error eq_refl eq_refl eq_refl eq_refl)
    as (H & _).
  exact H.
Defined.

(** X13. Operations of an unknown type. [processOperation] has no case for
    the types [ADD_SPELL] and [REMOVE_SPELL]: for such an operation it
    resolves and leaves the world as it is, so no request is sent. On an
    available store, a pass over a queue that holds only such operations
    for the user therefore sends nothing to the server and leaves it as it
    was, yet removes every one of them from the queue, notifies them as
    synchronised and returns [true]. *)
Theorem drain_drops_unknown_types {RS : RemoteStore}
  (snap : NetworkStatus) (w : World) (d : DB) (u : User) :
  opened (sys w) = Some d ->
  user w = Some u ->
  isConnected snap = true ->
  let pending := ObjectStore.index_getAll op_user_id (uid u) (pending_operations d) in
  pending <> [] ->
  (forall op, In op pending -> op_type op = ADD_SPELL \/ op_type op = REMOVE_SPELL) ->
  let w' := fst (syncPendingOperations snap w) in
  (forall op w0, In op pending -> processOperation op w0 = (w0, Resolved tt)) /\
  snd (syncPendingOperations snap w) = Resolved true /\
  calls w' = calls w /\ remote w' = remote w /\
  toasts w' = toasts w ++ [Sincronizado (length pending)] /\
  snd (CacheManager.getPendingOperations (uid u) (sys w')) = Resolved [].
Proof.
  intros Ho Hu Hc pending Hne Hty w'.
  destruct (DrainFacts.syncPendingOperations_spec snap w d u Ho Hu Hc)
    as (w1 & d' & Hrun & Ho' & Hq & Hr & Hcalls & Htoasts & _).
  fold pending in Hq, Hr, Hcalls, Htoasts, Hrun.
  assert (forall r l, (forall op, In op l -> op_type op = ADD_SPELL \/ op_type op = REMOVE_SPELL) ->
            outcomes r l = map (fun op => (op, true)) l /\
            remote_after r l = r /\ flat_map request_of l = []) as Hall.
  { intros r l. induction l as [|op l IH]; intros H; [repeat split|].
    assert (op_type op = ADD_SPELL \/ op_type op = REMOVE_SPELL) as Hop
      by (apply H; left; reflexivity).
    destruct (IH (fun o Ho0 => H o (or_intror Ho0))) as (I1 & I2 & I3).
    assert (answer_of op r = (r, true)) as Ha
      by (unfold answer_of; destruct Hop as [E|E]; rewrite E; reflexivity).
    assert (request_of op = []) as Hq0
      by (unfold request_of; destruct Hop as [E|E]; rewrite E; reflexivity).
    cbn [outcomes remote_after flat_map map].
    rewrite Ha, Hq0. cbn [fst app]. rewrite I1, I2, I3. repeat split. }
  destruct (Hall (remote w) pending Hty) as (Hout & Hrem & Hreq).
  assert (succeeded (outcomes (remote w) pending) = pending) as Hsucc.
  { rewrite Hout. unfold succeeded. clear. induction pending as [|op l IH];
      [reflexivity|]. cbn. f_equal. exact IH. }
  assert (failed (outcomes (remote w) pending) = []) as Hfail.
  { rewrite Hout. unfold failed. clear. induction pending as [|op l IH];
      [reflexivity|]. cbn. exact IH. }
  rewrite Hsucc, Hfail in *. cbn [length] in *.
  assert ((0 <? length pending)%nat = true) as Hpos.
  { destruct pending; [contradiction|reflexivity]. }
  rewrite Hpos in Htoasts. cbn [Nat.ltb Nat.leb] in Htoasts.
  rewrite app_nil_r in Htoasts.
  subst w'. rewrite Hrun. cbn [fst snd].
  split.
  { intros op w0 Hin. unfold processOperation.
    destruct (Hty op Hin) as [E|E]; rewrite E; reflexivity. }
  split; [reflexivity|].
  split; [rewrite Hcalls, Hreq; apply app_nil_r|].
  split; [rewrite Hr; exact Hrem|].
  split; [exact Htoasts|].
  rewrite (CacheFacts.getPendingOperations_opened (uid u) (sys w1) d' Ho').
  cbn [snd]. f_equal. rewrite Hq.
  destruct (ObjectStore.index_getAll op_user_id (uid u)
              (remove_all pending (pending_operations d))) as [|x l] eqn:E;
    [reflexivity|exfalso].
  assert (In x (ObjectStore.index_getAll op_user_id (uid u)
                  (remove_all pending (pending_operations d)))) as Hx
    by (rewrite E; left; reflexivity).
  unfold ObjectStore.index_getAll in Hx. apply filter_In in Hx.
  destruct Hx as [Hx Hux]. apply DrainFacts.In_remove_all in Hx.
  destruct Hx as [Hxq Hn]. apply Hn. apply in_map.
  unfold pending, ObjectStore.index_getAll. apply filter_In. split; assumption.
Qed.

Lemma drain_drops_unknown_types_witness :
  calls (fst (syncPendingOperations (Sample.network true false 1) Sample.unknown_world))
  = [] /\
  snd (CacheManager.getPendingOperations "u1"
         (sys (fst (syncPendingOperations (Sample.network true false 1)
                      Sample.unknown_world))))
  = Resolved [].
Proof.
  destruct (drain_drops_unknown_types (Sample.network true false 1) Sample.unknown_world
              Sample.unknown_db {| uid := "u1" |} eq_refl eq_refl eq_refl)
    as (_ & _ & H3 & _ & _ & H6).
  - discriminate.
  - intros op [<-|[]]. left. reflexivity.
  - split; [exact H3|exact H6].
Defined.

(* ================================================================== *)
(** * More about the favorites *)

Module HookFacts.
Section Hook.
Context {RS : RemoteStore}.

Lemma step_bind {A B : Type} (m : Async World A) (k : A -> Async World B)
  (w w1 : World) (a : A) :
  m w = (w1, Resolved a) -> bind m k w = k a w1.
Proof. intros H. unfold bind. rewrite H. reflexivity. Qed.

Lemma step_bind_rejected {A B : Type} (m : Async World A) (k : A -> Async World B)
  (w w1 : World) (e : Err) :
  m w = (w1, Rejected e) -> bind m k w = (w1, Rejected e).
Proof. intros H. unfold bind. rewrite H. reflexivity. Qed.

Lemma same_hook_refl (w : World) : same_hook w w.
Proof. unfold same_hook. auto. Qed.

Lemma same_hook_trans (w1 w2 w3 : World) :
  same_hook w1 w2 -> same_hook w2 w3 -> same_hook w1 w3.
Proof.
  unfold same_hook. intros (A1 & A2 & A3 & A4 & A5) (B1 & B2 & B3 & B4 & B5).
  repeat split; congruence.
Qed.

Lemma prefix_append (p t : string) : String.prefix p (p ++ t) = true.
Proof.
  induction p as [|c p IH]; simpl.
  - destruct t; reflexivity.
  - destruct (Ascii.ascii_dec c c) as [_|N]; [exact IH|contradiction].
Qed.

Lemma updatePendingCount_frame (w : World) :
  same_hook w (fst (updatePendingCount w)) /\
  calls (fst (updatePendingCount w)) = calls w /\
  toasts (fst (updatePendingCount w)) = toasts w /\
  remote (fst (updatePendingCount w)) = remote w.
Proof.
  unfold updatePendingCount, bind, get, try_catch, cache, setStatus, modify, ret,
    same_hook.
  destruct (user w) as [u|] eqn:Hu; [|cbn; repeat split; exact Hu].
  destruct (CacheManager.getPendingOperations (uid u) (sys w)) as [s' [l|e]];
    cbn; repeat split; exact Hu.
Qed.

(** Queueing an operation and refreshing the pending count. *)
Lemma enqueue_then_count (t : OpType) (p : Payload) (owner : string) (w : World) :
  let w' := fst ((enqueue t p owner ;;; updatePendingCount) w) in
  same_hook w w' /\ calls w' = calls w /\ toasts w' = toasts w /\
  (forall d, opened (sys w) = Some d ->
     snd ((enqueue t p owner ;;; updatePendingCount) w) = Resolved tt /\
     exists op,
       queue w' = ObjectStore.put op_id op (pending_operations d) /\
       op_type op = t /\ op_data op = p /\ op_user_id op = owner).
Proof.
  cbn zeta.
  destruct (opened (sys w)) as [d|] eqn:Ho.
  - assert (enqueue t p owner w
            = (set_sys (mk_sys (set_pending_operations
                                  (ObjectStore.put op_id
                                     (new_operation
                                        {| CacheManager.new_type := t;
                                           CacheManager.new_data := p;
                                           CacheManager.new_user_id := owner |}
                                        (browser (sys w)))) d)
                          (tick (draw (tick (browser (sys w)))))) w,
               Resolved (op_id (new_operation
                                  {| CacheManager.new_type := t;
                                     CacheManager.new_data := p;
                                     CacheManager.new_user_id := owner |}
                                  (browser (sys w)))))) as E.
    { unfold enqueue. apply DrainFacts.cache_run.
      apply CacheFacts.addPendingOperation_opened. exact Ho. }
    rewrite (step_bind _ _ _ _ _ E).
    set (w1 := set_sys _ w).
    destruct (UpdateFacts.updatePendingCount_resolves w1) as (Hr & Hq & Hp).
    destruct (updatePendingCount_frame w1) as (Hh & Hc & Ht & _).
    split; [exact Hh|]. split; [exact Hc|]. split; [exact Ht|].
    intros d0 Hd0. inversion Hd0; subst d0. split; [exact Hr|].
    eexists. split; [rewrite Hq; reflexivity|]. cbn. auto.
  - assert (fst (enqueue t p owner w) = w) as E.
    { destruct (CleanFacts.queue_after_enqueue t p owner w)
        as [(op & _ & _ & _ & _ & Hn)|[E _]]; [contradiction|exact E]. }
    unfold bind. destruct (enqueue t p owner w) as [w1 [i|e]]; cbn [fst] in *; subst w1.
    + destruct (updatePendingCount_frame w) as (Hh & Hc & Ht & _).
      repeat split; try tauto; try discriminate; apply Hh.
    + unfold same_hook. repeat split; discriminate.
Qed.

(** The write of the presets to the cache, as the hooks start it. *)
Lemma detached_cache (P : list FavoritePreset) (U : string) (w : World) :
  exists s',
    fst (cache (CacheManager.cacheFavoritePresets P U) w) = set_sys s' w /\
    pending_of s' = pending_of (sys w) /\
    (forall d, opened (sys w) = Some d ->
       exists d', opened s' = Some d' /\ pending_operations d' = pending_operations d).
Proof.
  unfold cache.
  pose proof (KeepFacts.keeps_cacheFavoritePresets P U (sys w)) as Hk.
  destruct (opened (sys w)) as [d|] eqn:Ho.
  - destruct (CacheFacts.cacheFavoritePresets_opened P U (sys w) d Ho)
      as (d' & b' & Hrun & _ & Hpend & _).
    rewrite Hrun in *. cbn [fst] in *. eexists. split; [reflexivity|].
    split; [exact Hk|]. intros d0 E. inversion E; subst d0.
    exists d'. split; [reflexivity|exact Hpend].
  - destruct (CacheManager.cacheFavoritePresets P U (sys w)) as [s' r]. cbn [fst] in *.
    eexists. split; [reflexivity|]. split; [exact Hk|]. intros d0 E. discriminate.
Qed.

Lemma detached_run {A B : Type} (m : Async World A) (rest : Async World B)
  (w w1 : World) (r : Res B) :
  rest w = (w1, r) -> detached m rest w = (fst (m w1), r).
Proof. intros H. unfold detached. rewrite H. reflexivity. Qed.

Lemma detached_cache_after {B : Type} (P : list FavoritePreset) (U : string)
  (rest : Async World B) (w w1 : World) (r : Res B) :
  rest w = (w1, r) ->
  exists s',
    detached (cache (CacheManager.cacheFavoritePresets P U)) rest w = (set_sys s' w1, r) /\
    pending_of s' = pending_of (sys w1) /\
    (forall d, opened (sys w1) = Some d ->
       exists d', opened s' = Some d' /\ pending_operations d' = pending_operations d).
Proof.
  intros H. destruct (detached_cache P U w1) as (s' & E & Hp & Ho).
  exists s'. rewrite (detached_run _ _ _ _ _ H), E. auto.
Qed.

Lemma clock_now (w : World) :
  exists w1 t,
    cache Date_now w = (w1, Resolved t) /\
    same_hook w w1 /\ status w1 = status w /\ calls w1 = calls w /\
    remote w1 = remote w /\ opened (sys w1) = opened (sys w).
Proof.
  eexists. eexists. split; [reflexivity|].
  unfold same_hook. cbn. repeat split; reflexivity.
Qed.

Lemma clock_iso (w : World) :
  exists w1 t,
    cache Date_iso w = (w1, Resolved t) /\
    same_hook w w1 /\ status w1 = status w /\ calls w1 = calls w /\
    remote w1 = remote w /\ opened (sys w1) = opened (sys w).
Proof.
  eexists. eexists. split; [reflexivity|].
  unfold same_hook. cbn. repeat split; reflexivity.
Qed.

(** The tail shared by the offline branches: start the write of the
    presets to the cache, queue one operation, refresh the count. *)
Lemma offline_tail {A : Type} (P : list FavoritePreset) (U : string)
  (t : OpType) (p : Payload) (owner : string) (r : A) (w : World) (d : DB) :
  opened (sys w) = Some d ->
  exists op w',
    detached (cache (CacheManager.cacheFavoritePresets P U))
      (enqueue t p owner ;;; updatePendingCount ;;; ret r) w = (w', Resolved r) /\
    same_hook w w' /\ calls w' = calls w /\
    queue w' = ObjectStore.put op_id op (pending_operations d) /\
    op_type op = t /\ op_data op = p /\ op_user_id op = owner.
Proof.
  intros Ho.
  pose proof (enqueue_then_count t p owner w) as Hq.
  cbn zeta in Hq. destruct Hq as (Hh & Hcalls & _ & Hq).
  destruct (Hq d Ho) as (Hres & op & Hqueue & Ht & Hd & Huo).
  assert (exists w3,
            (enqueue t p owner ;;; updatePendingCount ;;; ret r) w = (w3, Resolved r) /\
            same_hook w w3 /\ calls w3 = calls w /\
            queue w3 = ObjectStore.put op_id op (pending_operations d))
    as (w3 & E3 & Hh3 & Hc3 & Hq3).
  { unfold bind in *.
    destruct (enqueue t p owner w) as [w2 [i|e]].
    - destruct (updatePendingCount w2) as [w3 [[]|e]]; cbn [fst snd] in *;
        [|discriminate].
      exists w3. split; [reflexivity|]. auto.
    - cbn [fst snd] in *. discriminate. }
  destruct (detached_cache P U w3) as (s1 & E1 & Hp1 & _).
  exists op. eexists. split; [apply detached_run; exact E3|].
  rewrite E1. unfold same_hook in *. cbn.
  split; [exact Hh3|]. split; [exact Hc3|].
  split; [|auto]. unfold queue in *. cbn. rewrite Hp1. exact Hq3.
Qed.

End Hook.
End HookFacts.

(** X14. Creating a preset offline. For a signed-in user who is not connected,
    on an available store, [createPreset] returns a preset whose id begins
    with ["offline_"], appends it to the list, makes it the active preset,
    sends no request, and queues one [CREATE_PRESET] operation whose payload
    carries the name, the description, the user and an empty spell list,
    not the local id. *)
Theorem createPreset_offline {RS : RemoteStore}
  (w : World) (d : DB) (u : User) (n : string) (descr : option string) :
  user w = Some u ->
  isConnected (status w) = false ->
  opened (sys w) = Some d ->
  exists p op,
    snd (createPreset n descr w) = Resolved (Some p) /\
    startsWith (id p) "offline_" = true /\
    name p = n /\ description p = descr /\ spell_ids p = [] /\ user_id p = uid u /\
    presets (fst (createPreset n descr w)) = presets w ++ [p] /\
    activePresetId (fst (createPreset n descr w)) = Some (id p) /\
    calls (fst (createPreset n descr w)) = calls w /\
    queue (fst (createPreset n descr w)) = ObjectStore.put op_id op (queue w) /\
    op_type op = CREATE_PRESET /\
    op_data op = PresetFields {| n_name := n; n_description := descr;
                                 n_user_id := uid u; n_spell_ids := [] |} /\
    op_user_id op = uid u.
Proof.
  intros Hu Hc Ho.
  assert (exists p op w',
            createPreset n descr w = (w', Resolved (Some p)) /\
            startsWith (id p) "offline_" = true /\
            name p = n /\ description p = descr /\ spell_ids p = [] /\
            user_id p = uid u /\
            presets w' = presets w ++ [p] /\
            activePresetId w' = Some (id p) /\
            calls w' = calls w /\
            queue w' = ObjectStore.put op_id op (queue w) /\
            op_type op = CREATE_PRESET /\
            op_data op = PresetFields {| n_name := n; n_description := descr;
                                         n_user_id := uid u; n_spell_ids := [] |} /\
            op_user_id op = uid u) as (p & op & w' & E & H).
  { unfold createPreset. unfold bind at 1. unfold get at 1. rewrite Hu, Hc.
    destruct (HookFacts.clock_now w) as (w1 & t & E1 & _ & _ & C1 & _ & O1).
    rewrite (HookFacts.step_bind _ _ _ _ _ E1).
    destruct (HookFacts.clock_iso w1) as (w2 & c & E2 & _ & _ & C2 & _ & O2).
    rewrite (HookFacts.step_bind _ _ _ _ _ E2).
    destruct (HookFacts.clock_iso w2) as (w3 & m & E3 & _ & _ & C3 & _ & O3).
    rewrite (HookFacts.step_bind _ _ _ _ _ E3).
    cbv zeta.
    rewrite (HookFacts.step_bind (setPresets _) _ _ _ _ eq_refl).
    rewrite (HookFacts.step_bind (setActivePresetId _) _ _ _ _ eq_refl).
    match goal with
    | |- context [detached (cache (CacheManager.cacheFavoritePresets ?P ?U))
                    (bind (enqueue ?ty ?pl ?o) _) ?w0] =>
        destruct (HookFacts.offline_tail P U ty pl o
                    (Some {| id := ("offline_" ++ uid u ++ "_" ++ string_of_Z t)%string;
                             name := n; description := descr; spell_ids := [];
                             user_id := uid u; created_at := c; updated_at := m |})
                    w0 d)
          as (op & w' & E & Hh & Hcalls & Hqueue & Hop)
    end.
    { cbn. rewrite O3, O2, O1. exact Ho. }
    eexists. exists op, w'. split; [exact E|].
    unfold same_hook in Hh. destruct Hh as (_ & Hp & Ha & _).
    cbn [id name description spell_ids user_id].
    split; [apply HookFacts.prefix_append|].
    repeat (split; [reflexivity|]).
    split; [rewrite Hp; reflexivity|]. split; [rewrite Ha; reflexivity|].
    split; [rewrite Hcalls; cbn; congruence|].
    split; [|exact Hop].
    rewrite Hqueue. unfold queue, pending_of. rewrite Ho. reflexivity. }
  exists p, op. rewrite E. cbn [fst snd]. split; [reflexivity|exact H].
Qed.

(** X15. Creating a preset while connected. When the server accepts the
    insertion and answers with the row [data], [createPreset] returns that
    row, appends it to the list, makes it the active preset, sends exactly
    that one request and leaves the queue of pending operations as it was;
    this holds whatever the state of the local storage. *)
Theorem createPreset_online {RS : RemoteStore}
  (w : World) (u : User) (n : string) (descr : option string)
  (r' : Remote) (data : FavoritePreset) :
  user w = Some u ->
  isConnected (status w) = true ->
  remote_insert (PresetFields {| n_name := n; n_description := descr;
                                 n_user_id := uid u; n_spell_ids := [] |})
                (remote w) = (r', inl data) ->
  snd (createPreset n descr w) = Resolved (Some data) /\
  presets (fst (createPreset n descr w)) = presets w ++ [data] /\
  activePresetId (fst (createPreset n descr w)) = Some (id data) /\
  calls (fst (createPreset n descr w))
  = calls w ++ [Insert (PresetFields {| n_name := n; n_description := descr;
                                        n_user_id := uid u; n_spell_ids := [] |})] /\
  remote (fst (createPreset n descr w)) = r' /\
  queue (fst (createPreset n descr w)) = queue w /\
  error (fst (createPreset n descr w)) = error w.
Proof.
  intros Hu Hc Hins.
  assert (exists w',
            createPreset n descr w = (w', Resolved (Some data)) /\
            presets w' = presets w ++ [data] /\
            activePresetId w' = Some (id data) /\
            calls w'
            = calls w ++ [Insert (PresetFields {| n_name := n; n_description := descr;
                                                  n_user_id := uid u; n_spell_ids := [] |})] /\
            remote w' = r' /\ queue w' = queue w /\ error w' = error w)
    as (w' & E & H).
  { unfold createPreset. unfold bind at 1. unfold get at 1. rewrite Hu, Hc.
    unfold try_catch.
    rewrite (HookFacts.step_bind (supabase_insert _) _ w
               (set_remote r' (Insert (PresetFields {| n_name := n; n_description := descr;
                                  n_user_id := uid u; n_spell_ids := [] |})) w) data).
    2:{ unfold supabase_insert. rewrite Hins. reflexivity. }
    cbv zeta.
    rewrite (HookFacts.step_bind (setPresets _) _ _ _ _ eq_refl).
    rewrite (HookFacts.step_bind (setActivePresetId _) _ _ _ _ eq_refl).
    match goal with
    | |- context [detached (cache (CacheManager.cacheFavoritePresets ?P ?U))
                    (ret ?x) ?w0] =>
        destruct (HookFacts.detached_cache P U w0) as (s1 & E1 & Hp1 & _);
        rewrite (HookFacts.detached_run _ (ret x) w0 w0 (Resolved x) eq_refl), E1
    end.
    eexists. split; [reflexivity|].
    cbn. repeat split; try reflexivity.
    unfold queue. cbn. exact Hp1. }
  rewrite E. cbn [fst snd]. split; [reflexivity|exact H].
Qed.

Lemma createPreset_online_witness :
  exists data,
    snd (createPreset "Combat" None Sample.idle_world) = Resolved (Some data) /\
    presets (fst (createPreset "Combat" None Sample.idle_world))
    = presets Sample.idle_world ++ [data] /\
    queue (fst (createPreset "Combat" None Sample.idle_world)) = queue Sample.idle_world.
Proof.
  eexists.
  destruct (createPreset_online Sample.idle_world {| uid := "u1" |} "Combat" None
              _ _ eq_refl eq_refl eq_refl)
    as (H1 & H2 & _ & _ & _ & H6 & _).
  split; [exact H1|]. split; [exact H2|exact H6].
Defined.

Lemma createPreset_offline_witness :
  exists p,
    snd (createPreset "Combat" None Sample.offline_world) = Resolved (Some p) /\
    startsWith (id p) "offline_" = true /\
    presets (fst (createPreset "Combat" None Sample.offline_world))
    = presets Sample.offline_world ++ [p] /\
    calls (fst (createPreset "Combat" None Sample.offline_world)) = [].
Proof.
  destruct (createPreset_offline Sample.offline_world empty_DB {| uid := "u1" |}
              "Combat" None eq_refl eq_refl eq_refl)
    as (p & op & H1 & H2 & _ & _ & _ & _ & H7 & _ & H9 & _).
  exists p. split; [exact H1|]. split; [exact H2|]. split; [exact H7|exact H9].
Defined.

(** X16. Deleting a preset locally. For a signed-in user who is not connected
    (or for a preset created offline), on an available store,
    [deletePreset] returns [true] and sends no request; the list loses every
    preset with that id; if the deleted preset was the active one, the
    first remaining preset becomes active, or none when the list is empty,
    and otherwise the active preset stays; so the deleted id is never the
    active one afterwards. For an id that does not begin with ["offline_"]
    one [DELETE_PRESET] operation carrying the id is queued. *)
Theorem deletePreset_offline {RS : RemoteStore}
  (w : World) (d : DB) (u : User) (target : string) :
  user w = Some u ->
  isConnected (status w) = false \/ startsWith target "offline_" = true ->
  opened (sys w) = Some d ->
  let kept := filter (fun preset => negb (id preset =? target)) (presets w) in
  snd (deletePreset target w) = Resolved true /\
  presets (fst (deletePreset target w)) = kept /\
  activePresetId (fst (deletePreset target w))
  = (if opt_eqb (activePresetId w) target then option_map id (hd_error kept)
     else activePresetId w) /\
  activePresetId (fst (deletePreset target w)) <> Some target /\
  calls (fst (deletePreset target w)) = calls w /\
  (startsWith target "offline_" = false ->
   exists op,
     queue (fst (deletePreset target w)) = ObjectStore.put op_id op (queue w) /\
     op_type op = DELETE_PRESET /\ op_data op = DeleteTarget target /\
     op_user_id op = uid u).
Proof.
  intros Hu Hbranch Ho kept.
  assert (isConnected (status w) && negb (startsWith target "offline_") = false) as Hb.
  { destruct Hbranch as [-> | ->]; [reflexivity|apply andb_false_r]. }
  assert (Hne : (if opt_eqb (activePresetId w) target then option_map id (hd_error kept)
                 else activePresetId w) <> Some target).
  { destruct (opt_eqb (activePresetId w) target) eqn:Ha.
    - destruct kept as [|p rest] eqn:Hk; [discriminate|].
      assert (In p kept) as Hin by (rewrite Hk; left; reflexivity).
      apply filter_In in Hin. destruct Hin as [_ Hin].
      apply negb_true_iff, String.eqb_neq in Hin.
      cbn. intros E. inversion E. contradiction.
    - intros E. rewrite E in Ha. unfold opt_eqb in Ha.
      rewrite String.eqb_refl in Ha. discriminate. }
  assert (exists w',
            deletePreset target w = (w', Resolved true) /\
            presets w' = kept /\
            activePresetId w'
            = (if opt_eqb (activePresetId w) target then option_map id (hd_error kept)
               else activePresetId w) /\
            calls w' = calls w /\
            (startsWith target "offline_" = false ->
             exists op,
               queue w' = ObjectStore.put op_id op (queue w) /\
               op_type op = DELETE_PRESET /\ op_data op = DeleteTarget target /\
               op_user_id op = uid u)) as (w' & E & Hp & Ha & Hc & Hq).
  { unfold deletePreset. unfold bind at 1. unfold get at 1. rewrite Hu. cbv zeta.
    rewrite Hb. fold kept.
    rewrite (HookFacts.step_bind (setPresets _) _ _ _ _ eq_refl).
    match goal with
    | |- context [detached (cache (CacheManager.cacheFavoritePresets ?P ?U)) ?rest ?w0] =>
        set (tail := rest); set (w0' := w0)
    end.
    assert (exists w1,
              tail w0' = (w1, Resolved true) /\
              presets w1 = kept /\
              activePresetId w1
              = (if opt_eqb (activePresetId w) target
                 then option_map id (hd_error kept) else activePresetId w) /\
              calls w1 = calls w /\
              (startsWith target "offline_" = false ->
               exists op,
                 queue w1 = ObjectStore.put op_id op (queue w) /\
                 op_type op = DELETE_PRESET /\ op_data op = DeleteTarget target /\
                 op_user_id op = uid u)) as (w1 & E1 & Hp1 & Ha1 & Hc1 & Hq1).
    { subst tail w0'. unfold reselect.
      destruct (startsWith target "offline_") eqn:Hoff; cbn [negb].
      - destruct (opt_eqb (activePresetId w) target);
          (eexists; split; [reflexivity|]);
          cbn; repeat split; try reflexivity; discriminate.
      - assert (forall w0,
                  opened (sys w0) = Some d ->
                  exists op w2,
                    (enqueue DELETE_PRESET (DeleteTarget target) (uid u) ;;;
                     updatePendingCount) w0 = (w2, Resolved tt) /\
                    same_hook w0 w2 /\ calls w2 = calls w0 /\
                    queue w2 = ObjectStore.put op_id op (queue w) /\
                    op_type op = DELETE_PRESET /\ op_data op = DeleteTarget target /\
                    op_user_id op = uid u) as Hstep.
        { intros w0 Ho0.
          pose proof (HookFacts.enqueue_then_count DELETE_PRESET (DeleteTarget target)
                        (uid u) w0) as Hq.
          cbn zeta in Hq. destruct Hq as (Hh & Hcalls & _ & Hq).
          destruct (Hq d Ho0) as (Hres & op & Hqueue & Hop).
          match goal with
          | |- context [bind ?m ?k w0] => destruct (bind m k w0) as [w2 r2]
          end.
          cbn [fst snd] in *. subst r2. exists op, w2.
          split; [reflexivity|]. split; [exact Hh|]. split; [exact Hcalls|].
          split; [|exact Hop].
          rewrite Hqueue. unfold queue, pending_of. rewrite Ho. reflexivity. }
        destruct (opt_eqb (activePresetId w) target).
        + rewrite (HookFacts.step_bind (setActivePresetId _) _ _ _ _ eq_refl).
          match goal with
          | |- context [bind (bind (enqueue _ _ _) _) _ ?w0] =>
              destruct (Hstep w0 Ho) as (op & w2 & E2 & Hh & Hcalls & Hqueue & Hop)
          end.
          rewrite (HookFacts.step_bind _ _ _ _ _ E2). unfold ret.
          eexists. split; [reflexivity|].
          destruct Hh as (_ & Hp & Ha & _).
          split; [rewrite Hp; reflexivity|]. split; [rewrite Ha; reflexivity|].
          split; [rewrite Hcalls; reflexivity|].
          intros _. exists op. split; [exact Hqueue|exact Hop].
        + rewrite (HookFacts.step_bind (ret tt) _ _ _ _ eq_refl).
          match goal with
          | |- context [bind (bind (enqueue _ _ _) _) _ ?w0] =>
              destruct (Hstep w0 Ho) as (op & w2 & E2 & Hh & Hcalls & Hqueue & Hop)
          end.
          rewrite (HookFacts.step_bind _ _ _ _ _ E2). unfold ret.
          eexists. split; [reflexivity|].
          destruct Hh as (_ & Hp & Ha & _).
          split; [rewrite Hp; reflexivity|]. split; [rewrite Ha; reflexivity|].
          split; [rewrite Hcalls; reflexivity|].
          intros _. exists op. split; [exact Hqueue|exact Hop]. }
    match goal with
    | |- context [detached (cache (CacheManager.cacheFavoritePresets ?P ?U)) _ _] =>
        destruct (HookFacts.detached_cache_after P U tail w0' w1 _ E1)
          as (s1 & E2 & Hps & _)
    end.
    rewrite E2. eexists. split; [reflexivity|].
    assert (queue (set_sys s1 w1) = queue w1) as Hqs by (unfold queue; cbn; exact Hps).
    cbn [set_sys presets activePresetId calls]. rewrite Hqs.
    split; [exact Hp1|]. split; [exact Ha1|]. split; [exact Hc1|exact Hq1]. }
  rewrite E. cbn [fst snd].
  split; [reflexivity|]. split; [exact Hp|]. split; [exact Ha|].
  split; [rewrite Ha; exact Hne|]. split; [exact Hc|exact Hq].
Qed.

Lemma deletePreset_offline_witness :
  snd (deletePreset "p1" Sample.offline_world) = Resolved true /\
  presets (fst (deletePreset "p1" Sample.offline_world)) = [] /\
  activePresetId (fst (deletePreset "p1" Sample.offline_world)) = None /\
  calls (fst (deletePreset "p1" Sample.offline_world)) = [].
Proof.
  destruct (deletePreset_offline Sample.offline_world empty_DB {| uid := "u1" |} "p1"
              eq_refl (or_introl eq_refl) eq_refl)
    as (H1 & H2 & H3 & _ & H5 & _).
  split; [exact H1|]. split; [exact H2|]. split; [exact H3|exact H5].
Defined.

(** X17. Deleting a preset while connected. When the server accepts the
    deletion of a preset whose id does not begin with ["offline_"],
    [deletePreset] returns [true] after exactly that one request, the list
    loses every preset with that id, the active preset is re-chosen as in
    the local branch (the first remaining one, or none, when the deleted
    preset was active), and nothing is queued. *)
Theorem deletePreset_online {RS : RemoteStore}
  (w : World) (u : User) (target : string) (r' : Remote) :
  user w = Some u ->
  isConnected (status w) = true ->
  startsWith target "offline_" = false ->
  remote_delete (Some target) (uid u) (remote w) = (r', None) ->
  let kept := filter (fun preset => negb (id preset =? target)) (presets w) in
  snd (deletePreset target w) = Resolved true /\
  presets (fst (deletePreset target w)) = kept /\
  activePresetId (fst (deletePreset target w))
  = (if opt_eqb (activePresetId w) target then option_map id (hd_error kept)
     else activePresetId w) /\
  calls (fst (deletePreset target w)) = calls w ++ [Delete (Some target) (uid u)] /\
  remote (fst (deletePreset target w)) = r' /\
  queue (fst (deletePreset target w)) = queue w /\
  error (fst (deletePreset target w)) = error w.
Proof.
  intros Hu Hc Hoff Hdel kept.
  assert (exists w',
            deletePreset target w = (w', Resolved true) /\
            presets w' = kept /\
            activePresetId w'
            = (if opt_eqb (activePresetId w) target then option_map id (hd_error kept)
               else activePresetId w) /\
            calls w' = calls w ++ [Delete (Some target) (uid u)] /\
            remote w' = r' /\ queue w' = queue w /\ error w' = error w)
    as (w' & E & H).
  { unfold deletePreset. unfold bind at 1. unfold get at 1. rewrite Hu. cbv zeta.
    rewrite Hc, Hoff. cbn [negb andb]. fold kept.
    unfold try_catch.
    rewrite (HookFacts.step_bind (supabase_delete _ _) _ w
               (set_remote r' (Delete (Some target) (uid u)) w) tt).
    2:{ unfold supabase_delete. rewrite Hdel. reflexivity. }
    rewrite (HookFacts.step_bind (setPresets _) _ _ _ _ eq_refl).
    unfold reselect.
    destruct (opt_eqb (activePresetId w) target);
      match goal with
      | |- context [detached (cache (CacheManager.cacheFavoritePresets ?P ?U))
                      ?rest ?w0] =>
          destruct (HookFacts.detached_cache_after P U rest w0 _ _ eq_refl)
            as (s1 & E1 & Hp1 & _);
          rewrite E1
      end;
      (eexists; split; [reflexivity|]);
      cbn; repeat split; try reflexivity; unfold queue; cbn; exact Hp1. }
  rewrite E. cbn [fst snd]. split; [reflexivity|exact H].
Qed.

Lemma deletePreset_online_witness :
  snd (deletePreset "p1" Sample.idle_world) = Resolved true /\
  presets (fst (deletePreset "p1" Sample.idle_world)) = [] /\
  activePresetId (fst (deletePreset "p1" Sample.idle_world)) = None /\
  calls (fst (deletePreset "p1" Sample.idle_world)) = [Delete (Some "p1") "u1"].
Proof.
  destruct (deletePreset_online Sample.idle_world {| uid := "u1" |} "p1" _
              eq_refl eq_refl eq_refl eq_refl)
    as (H1 & H2 & H3 & H4 & _).
  split; [exact H1|]. split; [exact H2|]. split; [exact H3|exact H4].
Defined.

(* ================================================================== *)
(** * Favourites: adding and removing a spell *)

Module SpellFacts.

Lemma touched_id (target : string) (updates : Updates) (p p' : FavoritePreset) :
  touched target updates p p' -> id p' = id p.
Proof.
  unfold touched. destruct (id p =? target).
  - intros [now ->]. reflexivity.
  - intros ->. reflexivity.
Qed.

Lemma map_updates_at_spec (target : string) (updates : Updates)
  (l : list FavoritePreset) (s : Sys) :
  exists s' l',
    map_updates_at target updates l s = (s', Resolved l') /\
    this s' = this s /\ idb_open (browser s') = idb_open (browser s) /\
    Forall2 (touched target updates) l l'.
Proof.
  revert s. induction l as [|p l IH]; intros s; simpl.
  - exists s, []. repeat split. constructor.
  - destruct (id p =? target) eqn:E.
    + unfold bind at 1.
      destruct (Date_iso s) as [s1 r1] eqn:E1.
      unfold Date_iso, Date_now, bind, get, ret in E1. inversion E1; subst. clear E1.
      match goal with
      | |- context [bind (map_updates_at _ _ _) _ ?s0] =>
          destruct (IH s0) as (s' & l' & Hrun & Ht & Hb & Hf)
      end.
      unfold bind. rewrite Hrun. unfold ret.
      eexists. eexists. split; [reflexivity|].
      split; [exact Ht|]. split; [exact Hb|].
      constructor; [|exact Hf]. unfold touched. rewrite E. eexists. reflexivity.
    + destruct (IH s) as (s' & l' & Hrun & Ht & Hb & Hf).
      unfold bind. rewrite Hrun. unfold ret.
      eexists. eexists. split; [reflexivity|].
      split; [exact Ht|]. split; [exact Hb|].
      constructor; [|exact Hf]. unfold touched. rewrite E. reflexivity.
Qed.

(** [find] by a test on the id reaches the image of what it reached. *)
Lemma find_touched (target : string) (updates : Updates) (f : string -> bool)
  (l l' : list FavoritePreset) :
  Forall2 (touched target updates) l l' ->
  match find (fun p => f (id p)) l with
  | Some p => exists p', find (fun p => f (id p)) l' = Some p' /\
                         touched target updates p p'
  | None => find (fun p => f (id p)) l' = None
  end.
Proof.
  induction 1 as [|p p' l l' Hp Hl IH]; simpl; [reflexivity|].
  rewrite (touched_id _ _ _ _ Hp).
  destruct (f (id p)); [|exact IH].
  exists p'. split; [reflexivity|exact Hp].
Qed.

Section Spell.
Context {RS : RemoteStore}.

Lemma connected_after_count (t : OpType) (p : Payload) (owner : string) (w : World) :
  isConnected (status (fst ((enqueue t p owner ;;; updatePendingCount) w)))
  = isConnected (status w).
Proof.
  unfold bind, enqueue, cache.
  destruct (CacheManager.addPendingOperation _ (sys w)) as [s1 [i|e]]; [|reflexivity].
  unfold updatePendingCount, bind, get, try_catch, cache, setStatus, modify, ret.
  cbn [user set_sys sys].
  destruct (user w) as [u|]; [|reflexivity].
  destruct (CacheManager.getPendingOperations (uid u) s1) as [s2 [l|e]] eqn:E;
    cbn; rewrite E; reflexivity.
Qed.

Lemma put_not_nil (op : PendingOperation) (q : list PendingOperation) :
  ObjectStore.put op_id op q <> [].
Proof.
  destruct q as [|x q]; simpl; [discriminate|].
  destruct (String.compare (op_id op) (op_id x)); discriminate.
Qed.

(** The local branch of [updatePreset] on an available store. *)
Lemma updatePreset_local (w : World) (d : DB) (u : User) (target : string)
  (updates : Updates) :
  user w = Some u ->
  isConnected (status w) && negb (startsWith target "offline_") = false ->
  opened (sys w) = Some d ->
  exists w',
    updatePreset target updates w = (w', Resolved true) /\
    Forall2 (touched target updates) (presets w) (presets w') /\
    activePresetId w' = activePresetId w /\
    user w' = user w /\ calls w' = calls w /\
    isConnected (status w') = isConnected (status w) /\
    opened (sys w') <> None /\
    (if startsWith target "offline_" then queue w' = queue w
     else exists op,
            queue w' = ObjectStore.put op_id op (queue w) /\
            op_type op = UPDATE_PRESET /\
            op_data op = UpdateTarget target updates /\
            op_user_id op = uid u).
Proof.
  intros Hu Hb Ho.
  unfold updatePreset. unfold bind at 1. unfold get at 1. rewrite Hu, Hb.
  destruct (map_updates_at_spec target updates (presets w) (sys w))
    as (s1 & l' & Hrun & Ht & Hi & Hf).
  assert (opened s1 = Some d) as Ho1.
  { unfold opened in *. rewrite Ht, Hi. exact Ho. }
  rewrite (HookFacts.step_bind (cache _) _ w (set_sys s1 w) l').
  2:{ unfold cache. rewrite Hrun. reflexivity. }
  rewrite (HookFacts.step_bind (setPresets _) _ _ _ _ eq_refl).
  match goal with
  | |- context [detached (cache (CacheManager.cacheFavoritePresets ?P ?U)) ?rest ?w0] =>
      set (tail := rest); set (w0' := w0)
  end.
  assert (exists w1 d1,
            tail w0' = (w1, Resolved true) /\ opened (sys w1) = Some d1 /\
            presets w1 = l' /\ activePresetId w1 = activePresetId w /\
            user w1 = Some u /\ calls w1 = calls w /\
            isConnected (status w1) = isConnected (status w) /\
            (if startsWith target "offline_" then queue w1 = queue w
             else exists op,
                    queue w1 = ObjectStore.put op_id op (queue w) /\
                    op_type op = UPDATE_PRESET /\
                    op_data op = UpdateTarget target updates /\
                    op_user_id op = uid u))
    as (w1 & d1 & E1 & Hd1 & Hp1 & Ha1 & Hu1 & Hc1 & Hn1 & Hq1).
  { subst tail w0'.
    destruct (startsWith target "offline_") eqn:Hoff; cbn [negb].
    - rewrite (HookFacts.step_bind (ret tt) _ _ _ _ eq_refl). unfold ret.
      eexists. exists d. split; [reflexivity|].
      cbn. repeat split; try assumption; try reflexivity.
      unfold queue, pending_of. cbn. rewrite Ho1, Ho. reflexivity.
    - match goal with
      | |- context [bind (bind (enqueue ?ty ?pl ?o) _) _ ?w0] =>
          pose proof (HookFacts.enqueue_then_count ty pl o w0) as Hq;
          pose proof (connected_after_count ty pl o w0) as Hcn
      end.
      cbn zeta in Hq. destruct Hq as (Hh & Hcalls & _ & Hq).
      destruct (Hq d Ho1) as (Hres & op & Hqueue & Hop).
      match goal with
      | |- context [bind ?m _ ?w0] => destruct (m w0) as [w3 r3] eqn:E3
      end.
      cbn [fst snd] in *. subst r3.
      unfold bind at 1. rewrite E3. unfold ret.
      destruct (opened (sys w3)) as [d3|] eqn:Ho3.
      2:{ exfalso. unfold queue, pending_of in Hqueue. rewrite Ho3 in Hqueue.
          symmetry in Hqueue. exact (put_not_nil _ _ Hqueue). }
      exists w3, d3. split; [reflexivity|]. split; [exact Ho3|].
      destruct Hh as (Hus & Hp & Ha & _).
      cbn in Hus, Hp, Ha, Hcalls, Hcn.
      split; [exact Hp|]. split; [exact Ha|].
      split; [rewrite Hus; exact Hu|]. split; [exact Hcalls|].
      split; [exact Hcn|].
      exists op. split; [|exact Hop].
      rewrite Hqueue. unfold queue, pending_of. rewrite Ho. reflexivity. }
  match goal with
  | |- context [detached (cache (CacheManager.cacheFavoritePresets ?P ?U)) _ _] =>
      destruct (HookFacts.detached_cache_after P U tail w0' w1 _ E1)
        as (s2 & E2 & Hps & Hos)
  end.
  destruct (Hos d1 Hd1) as (d2 & Hd2 & _).
  rewrite E2. eexists. split; [reflexivity|].
  assert (queue (set_sys s2 w1) = queue w1) as Hqs by (unfold queue; cbn; exact Hps).
  cbn [set_sys presets activePresetId calls user status sys]. rewrite Hqs.
  split; [rewrite Hp1; exact Hf|]. split; [exact Ha1|]. split; [exact Hu1|].
  split; [exact Hc1|]. split; [exact Hn1|].
  split; [rewrite Hd2; discriminate|exact Hq1].
Qed.

Lemma active_find (w : World) (t : string) :
  activePresetId w = Some t ->
  activePreset w = find (fun p => id p =? t) (presets w).
Proof.
  intros Ha. unfold activePreset. rewrite Ha.
  induction (presets w) as [|p l IH]; simpl; [reflexivity|].
  rewrite (String.eqb_sym t (id p)). destruct (id p =? t); [reflexivity|exact IH].
Qed.

(** The local branch of [updatePreset] seen through [find]. *)
Lemma updatePreset_local_find (w : World) (d : DB) (u : User) (t : string)
  (updates : Updates) (preset : FavoritePreset) :
  user w = Some u ->
  isConnected (status w) && negb (startsWith t "offline_") = false ->
  opened (sys w) = Some d ->
  find (fun p => id p =? t) (presets w) = Some preset ->
  exists w' now,
    updatePreset t updates w = (w', Resolved true) /\
    find (fun p => id p =? t) (presets w') = Some (apply_updates_at preset updates now) /\
    Forall2 (fun p p' => id p <> t -> p' = p) (presets w) (presets w') /\
    activePresetId w' = activePresetId w /\
    user w' = user w /\ calls w' = calls w /\
    isConnected (status w') = isConnected (status w) /\
    opened (sys w') <> None /\
    (if startsWith t "offline_" then queue w' = queue w
     else exists op,
            queue w' = ObjectStore.put op_id op (queue w) /\
            op_type op = UPDATE_PRESET /\
            op_data op = UpdateTarget t updates /\
            op_user_id op = uid u).
Proof.
  intros Hu Hb Ho Hfind.
  destruct (updatePreset_local w d u t updates Hu Hb Ho)
    as (w' & Hrun & Hf & Ha & Hus & Hc & Hcn & Hop & Hq).
  pose proof (find_touched t updates (fun i => i =? t) _ _ Hf) as Hft.
  cbv beta in Hft. rewrite Hfind in Hft.
  destruct Hft as (p' & Hfind' & Ht).
  apply find_some in Hfind. destruct Hfind as [_ Hid].
  unfold touched in Ht. rewrite Hid in Ht. destruct Ht as [now ->].
  exists w', now. split; [exact Hrun|]. split; [exact Hfind'|].
  split.
  { clear -Hf. induction Hf as [|p p' l l' Hp Hl IH]; constructor; [|exact IH].
    intros Hne. unfold touched in Hp.
    destruct (String.eqb_spec (id p) t); [contradiction|exact Hp]. }
  repeat (split; [assumption|]). exact Hq.
Qed.

Lemma includes_false (s : string) (l : list string) :
  ~ In s l -> existsb (String.eqb s) l = false.
Proof.
  intros Hn. destruct (existsb (String.eqb s) l) eqn:E; [|reflexivity].
  apply existsb_exists in E. destruct E as (x & Hin & Hx).
  apply String.eqb_eq in Hx. subst x. contradiction.
Qed.

Lemma includes_true (s : string) (l : list string) :
  In s l -> existsb (String.eqb s) l = true.
Proof.
  intros Hin. apply existsb_exists. exists s. split; [exact Hin|apply String.eqb_refl].
Qed.

Lemma addSpellToPreset_runs (w : World) (s : string) (presetId : option string)
  (t : string) (preset : FavoritePreset) :
  or_else presetId (activePresetId w) = Some t -> t <> "" ->
  find (fun p => id p =? t) (presets w) = Some preset ->
  addSpellToPreset s presetId w
  = (if existsb (String.eqb s) (spell_ids preset) then (w, Resolved true)
     else updatePreset t (spell_ids_only (spell_ids preset ++ [s])) w).
Proof.
  intros Hor Hne Hfind.
  unfold addSpellToPreset. unfold bind at 1. unfold get at 1.
  rewrite Hor. apply String.eqb_neq in Hne. rewrite Hne, Hfind.
  destruct (existsb (String.eqb s) (spell_ids preset)); reflexivity.
Qed.

Lemma removeSpellFromPreset_runs (w : World) (s : string) (presetId : option string)
  (t : string) (preset : FavoritePreset) :
  or_else presetId (activePresetId w) = Some t -> t <> "" ->
  find (fun p => id p =? t) (presets w) = Some preset ->
  removeSpellFromPreset s presetId w
  = updatePreset t
      (spell_ids_only (filter (fun i => negb (i =? s)) (spell_ids preset))) w.
Proof.
  intros Hor Hne Hfind.
  unfold removeSpellFromPreset. unfold bind at 1. unfold get at 1.
  rewrite Hor. apply String.eqb_neq in Hne. rewrite Hne, Hfind. reflexivity.
Qed.

Lemma or_else_same (presetId a b : option string) :
  a = b -> or_else presetId a = or_else presetId b.
Proof. intros ->. reflexivity. Qed.

Lemma local_branch (connected : bool) (t : string) :
  connected = false \/ startsWith t "offline_" = true ->
  connected && negb (startsWith t "offline_") = false.
Proof. intros [-> | ->]; [reflexivity|apply andb_false_r]. Qed.

Lemma filter_out_appended (s : string) (l : list string) :
  ~ In s l -> filter (fun i => negb (i =? s)) (l ++ [s]) = l.
Proof.
  intros Hn. rewrite filter_app. simpl. rewrite String.eqb_refl. simpl.
  rewrite app_nil_r. induction l as [|x l IH]; simpl; [reflexivity|].
  destruct (String.eqb_spec x s) as [E|E].
  - exfalso. apply Hn. left. exact E.
  - simpl. rewrite IH; [reflexivity|]. intros H. apply Hn. right. exact H.
Qed.

End Spell.
End SpellFacts.

(** X18. Adding a favourite locally. For a signed-in user on the local branch
    (not connected, or a preset created offline) with an available store,
    adding a spell that the target preset does not hold returns [true],
    sends no request and appends the spell at the end of that preset's
    list, leaving its name and every preset with another id as they were;
    when the target is the active preset, [activeFavorites] grows by that
    spell at its end. Adding the same spell again returns [true] and
    changes nothing at all. *)
Theorem addSpellToPreset_local {RS : RemoteStore}
  (w : World) (d : DB) (u : User) (s : string) (presetId : option string)
  (t : string) (preset : FavoritePreset) :
  user w = Some u ->
  or_else presetId (activePresetId w) = Some t -> t <> "" ->
  isConnected (status w) = false \/ startsWith t "offline_" = true ->
  opened (sys w) = Some d ->
  find (fun p => id p =? t) (presets w) = Some preset ->
  ~ In s (spell_ids preset) ->
  let w' := fst (addSpellToPreset s presetId w) in
  snd (addSpellToPreset s presetId w) = Resolved true /\
  (exists p', find (fun p => id p =? t) (presets w') = Some p' /\
              spell_ids p' = spell_ids preset ++ [s] /\ name p' = name preset) /\
  Forall2 (fun p p' => id p <> t -> p' = p) (presets w) (presets w') /\
  (activePresetId w = Some t -> activeFavorites w' = activeFavorites w ++ [s]) /\
  calls w' = calls w /\
  addSpellToPreset s presetId w' = (w', Resolved true).
Proof.
  intros Hu Hor Hne Hbr Ho Hfind Hnin w'.
  pose proof (SpellFacts.addSpellToPreset_runs w s presetId t preset Hor Hne Hfind) as Hrun.
  rewrite (SpellFacts.includes_false _ _ Hnin) in Hrun.
  destruct (SpellFacts.updatePreset_local_find w d u t
              (spell_ids_only (spell_ids preset ++ [s])) preset Hu
              (SpellFacts.local_branch _ _ Hbr) Ho Hfind)
    as (w1 & now & E & Hfind1 & Hothers & Ha & _ & Hc & _).
  rewrite E in Hrun. subst w'. rewrite Hrun. cbn [fst snd].
  split; [reflexivity|].
  split; [eexists; split; [exact Hfind1|split; reflexivity]|].
  split; [exact Hothers|].
  split.
  { intros Hact. unfold activeFavorites.
    rewrite (SpellFacts.active_find w t Hact), Hfind.
    rewrite (SpellFacts.active_find w1 t (eq_trans Ha Hact)), Hfind1. reflexivity. }
  split; [exact Hc|].
  rewrite (SpellFacts.addSpellToPreset_runs w1 s presetId t _
             (eq_trans (SpellFacts.or_else_same presetId _ _ Ha) Hor) Hne Hfind1).
  cbn [spell_ids apply_updates_at apply_updates spell_ids_only u_spell_ids].
  rewrite SpellFacts.includes_true; [reflexivity|].
  apply in_or_app. right. left. reflexivity.
Qed.

Lemma addSpellToPreset_local_witness :
  snd (addSpellToPreset "fireball" None Sample.offline_world) = Resolved true /\
  activeFavorites (fst (addSpellToPreset "fireball" None Sample.offline_world))
  = ["fireball"] /\
  calls (fst (addSpellToPreset "fireball" None Sample.offline_world)) = [].
Proof.
  destruct (addSpellToPreset_local Sample.offline_world empty_DB {| uid := "u1" |}
              "fireball" None "p1" (Sample.preset "p1" "A" "u1")
              eq_refl eq_refl ltac:(discriminate) (or_introl eq_refl) eq_refl eq_refl
              ltac:(intros []))
    as (H1 & _ & _ & H4 & H5 & _).
  split; [exact H1|]. split; [exact (H4 eq_refl)|exact H5].
Defined.

(** X19. Removing a favourite locally. On the local branch with an available
    store, removing a spell from a preset returns [true], sends no request
    and leaves in that preset's list exactly the other spells, in their
    order; the spell is no longer a favourite afterwards. Unlike adding,
    removing does not look whether the spell is there: for a preset known
    to the server an [UPDATE_PRESET] operation carrying the filtered list
    is queued even when nothing was removed. *)
Theorem removeSpellFromPreset_local {RS : RemoteStore}
  (w : World) (d : DB) (u : User) (s : string) (presetId : option string)
  (t : string) (preset : FavoritePreset) :
  user w = Some u ->
  or_else presetId (activePresetId w) = Some t -> t <> "" ->
  isConnected (status w) = false \/ startsWith t "offline_" = true ->
  opened (sys w) = Some d ->
  find (fun p => id p =? t) (presets w) = Some preset ->
  let w' := fst (removeSpellFromPreset s presetId w) in
  let rest := filter (fun i => negb (i =? s)) (spell_ids preset) in
  snd (removeSpellFromPreset s presetId w) = Resolved true /\
  (exists p', find (fun p => id p =? t) (presets w') = Some p' /\
              spell_ids p' = rest /\ ~ In s (spell_ids p')) /\
  (activePresetId w = Some t ->
   activeFavorites w' = filter (fun i => negb (i =? s)) (activeFavorites w)) /\
  calls w' = calls w /\
  (startsWith t "offline_" = false ->
   exists op,
     queue w' = ObjectStore.put op_id op (queue w) /\
     op_type op = UPDATE_PRESET /\
     op_data op = UpdateTarget t (spell_ids_only rest)).
Proof.
  intros Hu Hor Hne Hbr Ho Hfind w' rest.
  pose proof (SpellFacts.removeSpellFromPreset_runs w s presetId t preset Hor Hne Hfind)
    as Hrun.
  destruct (SpellFacts.updatePreset_local_find w d u t (spell_ids_only rest) preset Hu
              (SpellFacts.local_branch _ _ Hbr) Ho Hfind)
    as (w1 & now & E & Hfind1 & _ & Ha & _ & Hc & _ & _ & Hq).
  fold rest in Hrun. rewrite E in Hrun. subst w'. rewrite Hrun. cbn [fst snd].
  split; [reflexivity|].
  split.
  { eexists. split; [exact Hfind1|]. split; [reflexivity|].
    cbn [spell_ids apply_updates_at apply_updates spell_ids_only u_spell_ids].
    unfold rest. intros Hin. apply filter_In in Hin. destruct Hin as [_ Hin].
    rewrite String.eqb_refl in Hin. discriminate. }
  split.
  { intros Hact. unfold activeFavorites.
    rewrite (SpellFacts.active_find w t Hact), Hfind.
    rewrite (SpellFacts.active_find w1 t (eq_trans Ha Hact)), Hfind1. reflexivity. }
  split; [exact Hc|].
  intros Hoff. rewrite Hoff in Hq. destruct Hq as (op & Hq1 & Hq2 & Hq3 & _).
  exists op. auto.
Qed.

Lemma removeSpellFromPreset_local_witness :
  snd (removeSpellFromPreset "fireball" None Sample.offline_world) = Resolved true /\
  activeFavorites (fst (removeSpellFromPreset "fireball" None Sample.offline_world)) = [] /\
  exists op,
    queue (fst (removeSpellFromPreset "fireball" None Sample.offline_world))
    = ObjectStore.put op_id op (queue Sample.offline_world) /\
    op_type op = UPDATE_PRESET.
Proof.
  destruct (removeSpellFromPreset_local Sample.offline_world empty_DB {| uid := "u1" |}
              "fireball" None "p1" (Sample.preset "p1" "A" "u1")
              eq_refl eq_refl ltac:(discriminate) (or_introl eq_refl) eq_refl eq_refl)
    as (H1 & _ & H3 & _ & H5).
  split; [exact H1|]. split; [exact (H3 eq_refl)|].
  destruct (H5 eq_refl) as (op & Hq & Ht & _). exists op. split; assumption.
Defined.

(** X20. Adding then removing. On the local branch with an available store,
    adding a spell that the target preset does not hold and then removing
    it returns [true] twice, sends no request, and leaves that preset with
    the spell list it had; for the active preset, [activeFavorites] is back
    to what it was. *)
Theorem add_then_remove_restores {RS : RemoteStore}
  (w : World) (d : DB) (u : User) (s : string) (presetId : option string)
  (t : string) (preset : FavoritePreset) :
  user w = Some u ->
  or_else presetId (activePresetId w) = Some t -> t <> "" ->
  isConnected (status w) = false \/ startsWith t "offline_" = true ->
  opened (sys w) = Some d ->
  find (fun p => id p =? t) (presets w) = Some preset ->
  ~ In s (spell_ids preset) ->
  let w1 := fst (addSpellToPreset s presetId w) in
  let w2 := fst (removeSpellFromPreset s presetId w1) in
  snd (addSpellToPreset s presetId w) = Resolved true /\
  snd (removeSpellFromPreset s presetId w1) = Resolved true /\
  (exists p2, find (fun p => id p =? t) (presets w2) = Some p2 /\
              spell_ids p2 = spell_ids preset /\ name p2 = name preset) /\
  (activePresetId w = Some t -> activeFavorites w2 = activeFavorites w) /\
  calls w2 = calls w.
Proof.
  intros Hu Hor Hne Hbr Ho Hfind Hnin w1 w2.
  pose proof (SpellFacts.addSpellToPreset_runs w s presetId t preset Hor Hne Hfind) as Hrun.
  rewrite (SpellFacts.includes_false _ _ Hnin) in Hrun.
  destruct (SpellFacts.updatePreset_local_find w d u t
              (spell_ids_only (spell_ids preset ++ [s])) preset Hu
              (SpellFacts.local_branch _ _ Hbr) Ho Hfind)
    as (wa & now & E & Hfind1 & _ & Ha & Hus & Hc & Hcn & Hop & _).
  rewrite E in Hrun.
  assert (w1 = wa) as -> by (subst w1; rewrite Hrun; reflexivity).
  rewrite Hrun. cbn [snd]. split; [reflexivity|].
  destruct (opened (sys wa)) as [d1|] eqn:Ho1; [|contradiction].
  assert (isConnected (status wa) = false \/ startsWith t "offline_" = true) as Hbr1.
  { destruct Hbr as [H|H]; [left; congruence|right; exact H]. }
  pose proof (eq_trans (SpellFacts.or_else_same presetId _ _ Ha) Hor) as Hor1.
  pose proof (SpellFacts.removeSpellFromPreset_runs wa s presetId t _ Hor1 Hne Hfind1)
    as Hrun2.
  cbn [spell_ids apply_updates_at apply_updates spell_ids_only u_spell_ids] in Hrun2.
  rewrite (SpellFacts.filter_out_appended s _ Hnin) in Hrun2.
  destruct (SpellFacts.updatePreset_local_find wa d1 u t
              (spell_ids_only (spell_ids preset)) _ (eq_trans Hus Hu)
              (SpellFacts.local_branch _ _ Hbr1) Ho1 Hfind1)
    as (wb & now2 & E2 & Hfind2 & _ & Ha2 & _ & Hc2 & _).
  rewrite E2 in Hrun2.
  assert (w2 = wb) as -> by (subst w2; rewrite Hrun2; reflexivity).
  rewrite Hrun2. cbn [snd]. split; [reflexivity|].
  split; [eexists; split; [exact Hfind2|split; reflexivity]|].
  split; [|congruence].
  intros Hact. unfold activeFavorites.
  rewrite (SpellFacts.active_find w t Hact), Hfind.
  rewrite (SpellFacts.active_find wb t (eq_trans Ha2 (eq_trans Ha Hact))), Hfind2.
  reflexivity.
Qed.

Lemma add_then_remove_restores_witness :
  activeFavorites
    (fst (removeSpellFromPreset "fireball" None
            (fst (addSpellToPreset "fireball" None Sample.offline_world))))
  = activeFavorites Sample.offline_world.
Proof.
  destruct (add_then_remove_restores Sample.offline_world empty_DB {| uid := "u1" |}
              "fireball" None "p1" (Sample.preset "p1" "A" "u1")
              eq_refl eq_refl ltac:(discriminate) (or_introl eq_refl) eq_refl eq_refl
              ltac:(intros []))
    as (_ & _ & _ & H4 & _).
  exact (H4 eq_refl).
Defined.

(** X21. Loading always settles. For a signed-in user, whatever the local
    storage holds or fails to do and whatever the server answers,
    [loadPresets] resolves (it never rejects) and ends with the loading flag
    cleared. *)
Theorem loadPresets_settles {RS : RemoteStore} (w : World) (u : User) :
  user w = Some u ->
  snd (loadPresets w) = Resolved tt /\
  loading (fst (loadPresets w)) = false.
Proof.
  intros Hu.
  assert (exists w', loadPresets w = (w', Resolved tt) /\ loading w' = false)
    as (w' & E & H).
  { unfold loadPresets. unfold bind at 1. unfold get at 1. rewrite Hu.
    rewrite (HookFacts.step_bind (setLoading true) _ _ _ _ eq_refl).
    rewrite (HookFacts.step_bind (setError None) _ _ _ _ eq_refl).
    unfold finally, try_catch.
    match goal with
    | |- context [bind ?m ?k ?w0] => destruct (bind m k w0) as [w1 [[]|e]]
    end; eexists; split; reflexivity. }
  rewrite E. split; [reflexivity|exact H].
Qed.

Lemma loadPresets_settles_witness :
  snd (loadPresets Sample.cut_off_world) = Resolved tt /\
  loading (fst (loadPresets Sample.cut_off_world)) = false.
Proof.
  exact (loadPresets_settles Sample.cut_off_world {| uid := "u1" |} eq_refl).
Defined.

(** X22. Loading without storage. For a signed-in user whose local storage
    cannot be opened, [loadPresets] resolves with the error message
    ["Failed to load favorite presets"]; the presets and the active preset
    stay as they were, and no request is sent, even when connected: the
    server is never asked. *)
Theorem loadPresets_without_storage {RS : RemoteStore}
  (w : World) (u : User) (e : Err) :
  user w = Some u ->
  initialized (this (sys w)) = false ->
  idb_open (browser (sys w)) = OpenError e ->
  snd (loadPresets w) = Resolved tt /\
  error (fst (loadPresets w)) = Some "Failed to load favorite presets" /\
  loading (fst (loadPresets w)) = false /\
  presets (fst (loadPresets w)) = presets w /\
  activePresetId (fst (loadPresets w)) = activePresetId w /\
  calls (fst (loadPresets w)) = calls w /\
  remote (fst (loadPresets w)) = remote w.
Proof.
  intros Hu Hi He.
  assert (exists w',
            loadPresets w = (w', Resolved tt) /\
            error w' = Some "Failed to load favorite presets" /\
            loading w' = false /\ presets w' = presets w /\
            activePresetId w' = activePresetId w /\
            calls w' = calls w /\ remote w' = remote w) as (w' & E & H).
  { unfold loadPresets. unfold bind at 1. unfold get at 1. rewrite Hu.
    rewrite (HookFacts.step_bind (setLoading true) _ _ _ _ eq_refl).
    rewrite (HookFacts.step_bind (setError None) _ _ _ _ eq_refl).
    unfold finally, try_catch.
    match goal with
    | |- context [bind (cache ?m) ?k ?w0] =>
        rewrite (HookFacts.step_bind_rejected (cache m) k w0 w0 e)
    end.
    - eexists. split; [reflexivity|]. cbn. repeat split; reflexivity.
    - unfold cache, CacheManager.getCachedFavoritePresets. cbn [sys].
      rewrite (CacheFacts.with_db_failed _ _ (sys w) e Hi He).
      destruct w; reflexivity. }
  rewrite E. cbn [fst snd]. split; [reflexivity|exact H].
Qed.

Lemma loadPresets_without_storage_witness :
  error (fst (loadPresets Sample.no_storage_world))
  = Some "Failed to load favorite presets" /\
  calls (fst (loadPresets Sample.no_storage_world)) = [].
Proof.
  destruct (loadPresets_without_storage Sample.no_storage_world {| uid := "u1" |}
              Sample.storage_error eq_refl eq_refl eq_refl)
    as (_ & H2 & _ & _ & _ & H6 & _).
  split; [exact H2|exact H6].
Defined.

(* ================================================================== *)
(** * Loading the presets *)

Module LoadFacts.

(** After a re-cache with the single preset [p], the user's cached presets
    are exactly [p]. *)
Lemma lookup_single (p : FavoritePreset) (U : string) (now : Z) (st : list PresetRow) :
  ObjectStore.index_getAll pr_user_id U (recached [p] U now st) = [preset_row U now p].
Proof.
  unfold recached, ObjectStore.index_getAll, ObjectStore.index_deleteAll. cbn [fold_left].
  induction st as [|x st IH]; simpl.
  - rewrite String.eqb_refl. reflexivity.
  - destruct (pr_user_id x =? U) eqn:E; simpl; [exact IH|].
    destruct (String.compare (id p) (pr_id x)); simpl;
      rewrite ?String.eqb_refl, ?E; try reflexivity.
    + f_equal. clear IH. induction st as [|y st IH]; simpl; [reflexivity|].
      destruct (pr_user_id y =? U) eqn:Ey; simpl; [exact IH|].
      rewrite Ey. exact IH.
    + f_equal. clear IH. induction st as [|y st IH]; simpl; [reflexivity|].
      destruct (pr_user_id y =? U) eqn:Ey; simpl; [exact IH|].
      rewrite Ey. exact IH.
    + exact IH.
Qed.

Section Load.
Context {RS : RemoteStore}.

Lemma awaited_cache (P : list FavoritePreset) (U : string) (w : World) (d : DB) :
  opened (sys w) = Some d ->
  exists d' b',
    cache (CacheManager.cacheFavoritePresets P U) w
    = (set_sys (mk_sys d' b') w, Resolved tt) /\
    favorite_presets d'
    = recached P U (next_now (browser (sys w))) (favorite_presets d) /\
    pending_operations d' = pending_operations d.
Proof.
  intros Ho.
  destruct (CacheFacts.cacheFavoritePresets_opened P U (sys w) d Ho)
    as (d' & b' & Hrun & Hf & Hp & _).
  exists d', b'. split; [apply DrainFacts.cache_run; exact Hrun|]. split; assumption.
Qed.

Lemma enqueue_then_count_store (t : OpType) (p : Payload) (owner : string)
  (w : World) (d : DB) :
  opened (sys w) = Some d ->
  exists d',
    opened (sys (fst ((enqueue t p owner ;;; updatePendingCount) w))) = Some d' /\
    favorite_presets d' = favorite_presets d.
Proof.
  intros Ho. unfold bind, enqueue, cache.
  rewrite (CacheFacts.addPendingOperation_opened _ (sys w) d Ho).
  unfold updatePendingCount, bind, get, try_catch, cache, setStatus, modify, ret.
  cbn [user set_sys sys].
  destruct (user w) as [u|].
  - match goal with
    | |- context [CacheManager.getPendingOperations ?U ?s] =>
        rewrite (CacheFacts.getPendingOperations_opened U s _ eq_refl)
    end.
    eexists. split; [reflexivity|]. reflexivity.
  - eexists. split; [reflexivity|]. reflexivity.
Qed.

(** [createDefaultOfflinePreset] on an available store. *)
Lemma createDefaultOfflinePreset_spec (w : World) (d : DB) (u : User) :
  user w = Some u ->
  opened (sys w) = Some d ->
  exists p op w',
    createDefaultOfflinePreset w = (w', Resolved tt) /\
    startsWith (id p) "offline_" = true /\
    name p = "MY GRIMOIRE (Offline)" /\ spell_ids p = [] /\ user_id p = uid u /\
    presets w' = [p] /\ activePresetId w' = Some (id p) /\
    calls w' = calls w /\ error w' = error w /\ loading w' = loading w /\
    queue w' = ObjectStore.put op_id op (pending_operations d) /\
    op_type op = CREATE_PRESET /\
    op_data op = PresetFields (default_data (uid u)) /\
    op_user_id op = uid u /\
    snd (CacheManager.getCachedFavoritePresets (uid u) (sys w')) = Resolved [p].
Proof.
  intros Hu Ho.
  unfold createDefaultOfflinePreset. unfold bind at 1. unfold get at 1. rewrite Hu.
  destruct (HookFacts.clock_now w) as (w1 & t & E1 & H1 & _ & C1 & _ & O1).
  rewrite (HookFacts.step_bind _ _ _ _ _ E1).
  destruct (HookFacts.clock_iso w1) as (w2 & c & E2 & H2 & _ & C2 & _ & O2).
  rewrite (HookFacts.step_bind _ _ _ _ _ E2).
  destruct (HookFacts.clock_iso w2) as (w3 & m & E3 & H3 & _ & C3 & _ & O3).
  rewrite (HookFacts.step_bind _ _ _ _ _ E3).
  cbv zeta.
  rewrite (HookFacts.step_bind (setPresets _) _ _ _ _ eq_refl).
  rewrite (HookFacts.step_bind (setActivePresetId _) _ _ _ _ eq_refl).
  match goal with
  | |- context [bind (cache (CacheManager.cacheFavoritePresets ?P ?U)) _ ?w0] =>
      destruct (awaited_cache P U w0 d) as (d1 & b1 & E4 & Hf1 & Hp1);
      [cbn; rewrite O3, O2, O1; exact Ho|];
      rewrite (HookFacts.step_bind _ _ _ _ _ E4)
  end.
  match goal with
  | |- context [bind (enqueue ?ty ?pl ?o) _ ?w0] =>
      pose proof (HookFacts.enqueue_then_count ty pl o w0) as Hq;
      destruct (enqueue_then_count_store ty pl o w0 d1 eq_refl) as (d2 & Hd2 & Hf2)
  end.
  cbn zeta in Hq. destruct Hq as (Hh & Hcalls & _ & Hq).
  destruct (Hq d1 eq_refl) as (Hres & op & Hqueue & Hop).
  match goal with
  | |- ex (fun _ => ex (fun _ => ex (fun _ => ?m ?w0 = _ /\ _))) =>
      destruct (m w0) as [w5 r5] eqn:E5
  end.
  cbn [fst snd] in *. subst r5.
  exists {| id := ("offline_" ++ uid u ++ "_" ++ string_of_Z t)%string;
            name := "MY GRIMOIRE (Offline)";
            description := Some "Your personal collection of favorite spells";
            spell_ids := []; user_id := uid u;
            created_at := c; updated_at := m |}.
  exists op, w5. split; [reflexivity|].
  destruct Hh as (_ & Hp & Ha & Hl & He).
  cbn in Hp, Ha, Hl, He, Hcalls.
  destruct H1 as (_ & _ & _ & L1 & R1). destruct H2 as (_ & _ & _ & L2 & R2).
  destruct H3 as (_ & _ & _ & L3 & R3).
  cbn [id name description spell_ids user_id].
  split; [apply HookFacts.prefix_append|].
  repeat (split; [reflexivity|]).
  split; [exact Hp|]. split; [exact Ha|].
  split; [congruence|]. split; [congruence|]. split; [congruence|].
  split; [rewrite Hqueue, Hp1; reflexivity|].
  destruct Hop as (Hop1 & Hop2 & Hop3).
  repeat (split; [assumption|]).
  rewrite (CacheFacts.getCachedFavoritePresets_opened _ _ _ Hd2). cbn [snd].
  rewrite Hf2, Hf1, lookup_single. reflexivity.
Qed.

(** The connected branch of [loadPresets] up to the call of
    [loadPresetsFromSupabase]: the cached presets are shown first. *)
Lemma loadPresets_connected_runs (w : World) (d : DB) (u : User) :
  user w = Some u ->
  isConnected (status w) = true ->
  opened (sys w) = Some d ->
  exists w2,
    loadPresets w
    = finally
        (try_catch (loadPresetsFromSupabase (activePresetId w))
                   (fun _ => setError (Some "Failed to load favorite presets")))
        (fun w' => fst (setLoading false w')) w2 /\
    user w2 = user w /\ opened (sys w2) = Some d /\
    remote w2 = remote w /\ calls w2 = calls w /\ error w2 = None /\
    presets w2
    = match map pr_data (ObjectStore.index_getAll pr_user_id (uid u)
                           (favorite_presets d)) with
      | [] => presets w
      | cached => cached
      end /\
    activePresetId w2
    = match map pr_data (ObjectStore.index_getAll pr_user_id (uid u)
                           (favorite_presets d)) with
      | [] => activePresetId w
      | first :: _ =>
          if truthy_str (activePresetId w) then activePresetId w else Some (id first)
      end.
Proof.
  intros Hu Hc Ho.
  unfold loadPresets. unfold bind at 1. unfold get at 1. rewrite Hu.
  rewrite (HookFacts.step_bind (setLoading true) _ _ _ _ eq_refl).
  rewrite (HookFacts.step_bind (setError None) _ _ _ _ eq_refl).
  unfold finally at 1, try_catch at 1.
  match goal with
  | |- context [bind (cache (CacheManager.getCachedFavoritePresets ?U)) ?k ?w0] =>
      rewrite (HookFacts.step_bind _ k w0 _ _
                 (DrainFacts.cache_run _ w0 _ _
                    (CacheFacts.getCachedFavoritePresets_opened U (sys w0) d Ho)))
  end.
  rewrite Hc.
  destruct (map pr_data _) as [|first rest].
  - rewrite (HookFacts.step_bind (ret tt) _ _ _ _ eq_refl).
    eexists. split; [reflexivity|]. cbn. repeat split; trivial.
  - unfold bind at 1. unfold bind at 1. unfold setPresets at 1, modify at 1.
    destruct (truthy_str (activePresetId w)); cbn [negb];
      try unfold ret at 1; try (unfold setActivePresetId at 1, modify at 1);
      (eexists; split; [reflexivity|]); cbn; repeat split; trivial.
Qed.

Lemma select_run (w : World) (owner : string) (r' : Remote)
  (ans : list FavoritePreset + Err) :
  remote_select owner (remote w) = (r', ans) ->
  supabase_select owner w
  = (set_remote r' (Select owner) w,
     match ans with inl data => Resolved data | inr e => Rejected e end).
Proof. intros H. unfold supabase_select. rewrite H. destruct ans; reflexivity. Qed.

Lemma insert_run (w : World) (p : Payload) (r' : Remote) (ans : FavoritePreset + Err) :
  remote_insert p (remote w) = (r', ans) ->
  supabase_insert p w
  = (set_remote r' (Insert p) w,
     match ans with inl data => Resolved data | inr e => Rejected e end).
Proof. intros H. unfold supabase_insert. rewrite H. destruct ans; reflexivity. Qed.

(** [loadPresetsFromSupabase] when the server has presets. *)
Lemma loadPresetsFromSupabase_data (a : option string) (w : World) (d : DB) (u : User)
  (r' : Remote) (first : FavoritePreset) (rest : list FavoritePreset) :
  user w = Some u ->
  opened (sys w) = Some d ->
  remote_select (uid u) (remote w) = (r', inl (first :: rest)) ->
  exists w',
    loadPresetsFromSupabase a w = (w', Resolved tt) /\
    presets w' = first :: rest /\
    activePresetId w'
    = (if negb (truthy_str a) then Some (id first)
       else if existsb (fun preset => opt_eqb a (id preset)) (first :: rest)
            then activePresetId w else Some (id first)) /\
    error w' = error w /\ loading w' = loading w /\
    calls w' = calls w ++ [Select (uid u)] /\ remote w' = r' /\
    queue w' = queue w.
Proof.
  intros Hu Ho Hsel.
  unfold loadPresetsFromSupabase. unfold bind at 1. unfold get at 1. rewrite Hu.
  rewrite (HookFacts.step_bind _ _ _ _ _ (select_run w (uid u) r' _ Hsel)).
  rewrite (HookFacts.step_bind (setPresets _) _ _ _ _ eq_refl).
  match goal with
  | |- context [bind (cache (CacheManager.cacheFavoritePresets ?P ?U)) _ ?w0] =>
      destruct (awaited_cache P U w0 d Ho) as (d1 & b1 & E4 & _ & Hp1);
      rewrite (HookFacts.step_bind _ _ _ _ _ E4)
  end.
  assert (pending_of (mk_sys d1 b1) = queue w) as Hq.
  { unfold queue, pending_of. rewrite Ho. cbn. exact Hp1. }
  destruct (negb (truthy_str a));
    [|destruct (existsb (fun preset => opt_eqb a (id preset)) (first :: rest))];
    (eexists; split; [reflexivity|]); cbn; repeat split; exact Hq.
Qed.

(** [loadPresetsFromSupabase] when the server has no preset: the default
    preset is created, and a failure to create it is swallowed. *)
Lemma loadPresetsFromSupabase_empty (a : option string) (w : World) (d : DB) (u : User)
  (r1 r2 : Remote) (ans : FavoritePreset + Err) :
  user w = Some u ->
  opened (sys w) = Some d ->
  remote_select (uid u) (remote w) = (r1, inl []) ->
  remote_insert (PresetFields (default_data (uid u))) r1 = (r2, ans) ->
  exists w',
    loadPresetsFromSupabase a w = (w', Resolved tt) /\
    presets w' = match ans with inl data => [data] | inr _ => [] end /\
    activePresetId w'
    = match ans with inl data => Some (id data) | inr _ => activePresetId w end /\
    error w' = error w /\ loading w' = loading w /\
    calls w' = calls w ++ [Select (uid u); Insert (PresetFields (default_data (uid u)))] /\
    remote w' = r2 /\ queue w' = queue w.
Proof.
  intros Hu Ho Hsel Hins.
  unfold loadPresetsFromSupabase. unfold bind at 1. unfold get at 1. rewrite Hu.
  rewrite (HookFacts.step_bind _ _ _ _ _ (select_run w (uid u) r1 _ Hsel)).
  rewrite (HookFacts.step_bind (setPresets _) _ _ _ _ eq_refl).
  unfold bind at 1. unfold createDefaultPreset. unfold bind at 1. unfold get at 1.
  cbn [user set_remote]. rewrite Hu. unfold try_catch.
  match goal with
  | |- context [bind (supabase_insert ?p) ?k ?w0] =>
      pose proof (insert_run w0 p r2 ans Hins) as Hrun
  end.
  destruct ans as [data|e].
  - rewrite (HookFacts.step_bind _ _ _ _ _ Hrun).
    rewrite (HookFacts.step_bind (setPresets _) _ _ _ _ eq_refl).
    rewrite (HookFacts.step_bind (setActivePresetId _) _ _ _ _ eq_refl).
    match goal with
    | |- context [bind (cache (CacheManager.cacheFavoritePresets ?P ?U)) _ ?w0] =>
        destruct (awaited_cache P U w0 d Ho) as (d1 & b1 & E4 & _ & Hp1);
        rewrite (HookFacts.step_bind _ _ _ _ _ E4)
    end.
    eexists. split; [reflexivity|]. cbn. rewrite <- app_assoc.
    repeat split. unfold queue, pending_of. rewrite Ho. cbn. exact Hp1.
  - rewrite (HookFacts.step_bind_rejected _ _ _ _ _ Hrun).
    eexists. split; [reflexivity|]. cbn. rewrite <- app_assoc.
    repeat split.
Qed.

End Load.
End LoadFacts.

(** X23. Loading offline from the cache. For a signed-in user who is not
    connected, on an available store that holds presets cached for that
    user, [loadPresets] shows exactly the cached presets, keeps the active
    preset when one is set and otherwise makes the first cached preset
    active, sets no error, sends no request and queues nothing. *)
Theorem loadPresets_offline_cached {RS : RemoteStore}
  (w : World) (d : DB) (u : User) (first : FavoritePreset) (rest : list FavoritePreset) :
  user w = Some u ->
  isConnected (status w) = false ->
  opened (sys w) = Some d ->
  map pr_data (ObjectStore.index_getAll pr_user_id (uid u) (favorite_presets d))
  = first :: rest ->
  snd (loadPresets w) = Resolved tt /\
  presets (fst (loadPresets w)) = first :: rest /\
  activePresetId (fst (loadPresets w))
  = (if truthy_str (activePresetId w) then activePresetId w else Some (id first)) /\
  error (fst (loadPresets w)) = None /\
  loading (fst (loadPresets w)) = false /\
  calls (fst (loadPresets w)) = calls w /\
  queue (fst (loadPresets w)) = queue w.
Proof.
  intros Hu Hc Ho Hcached.
  assert (exists w',
            loadPresets w = (w', Resolved tt) /\
            presets w' = first :: rest /\
            activePresetId w'
            = (if truthy_str (activePresetId w) then activePresetId w
               else Some (id first)) /\
            error w' = None /\ loading w' = false /\
            calls w' = calls w /\ queue w' = queue w) as (w' & E & H).
  { unfold loadPresets. unfold bind at 1. unfold get at 1. rewrite Hu.
    rewrite (HookFacts.step_bind (setLoading true) _ _ _ _ eq_refl).
    rewrite (HookFacts.step_bind (setError None) _ _ _ _ eq_refl).
    unfold finally, try_catch.
    match goal with
    | |- context [bind (cache (CacheManager.getCachedFavoritePresets ?U)) ?k ?w0] =>
        rewrite (HookFacts.step_bind _ k w0 _ _
                   (DrainFacts.cache_run _ w0 _ _
                      (CacheFacts.getCachedFavoritePresets_opened U (sys w0) d Ho)))
    end.
    rewrite Hcached, Hc.
    unfold bind, setPresets, setActivePresetId, modify, ret.
    destruct (truthy_str (activePresetId w)); cbn;
      (eexists; split; [reflexivity|]); cbn; repeat split;
      unfold queue, pending_of; cbn; rewrite Ho; reflexivity. }
  rewrite E. cbn [fst snd]. split; [reflexivity|exact H].
Qed.

Lemma loadPresets_offline_cached_witness :
  presets (fst (loadPresets
                  Sample.cached_world))
  = [Sample.preset "a" "A" "u1"; Sample.preset "b" "B" "u1"] /\
  activePresetId (fst (loadPresets
                         Sample.cached_world))
  = Some "a".
Proof.
  destruct (loadPresets_offline_cached
              Sample.cached_world
              Sample.cached_db {| uid := "u1" |}
              (Sample.preset "a" "A" "u1") [Sample.preset "b" "B" "u1"]
              eq_refl eq_refl eq_refl eq_refl)
    as (_ & H2 & H3 & _).
  split; [exact H2|exact H3].
Defined.

(** X24. Loading offline with an empty cache. For a signed-in user who is not
    connected, on an available store with no preset cached for that user,
    [loadPresets] creates one local preset named ["MY GRIMOIRE (Offline)"]
    whose id begins with ["offline_"], makes it the only and the active
    preset, sends no request, and queues one [CREATE_PRESET] operation that
    carries the default fields (the name ["MY GRIMOIRE"]). The preset is
    cached, so a later read of the cache for that user returns exactly it. *)
Theorem loadPresets_offline_empty {RS : RemoteStore}
  (w : World) (d : DB) (u : User) :
  user w = Some u ->
  isConnected (status w) = false ->
  opened (sys w) = Some d ->
  ObjectStore.index_getAll pr_user_id (uid u) (favorite_presets d) = [] ->
  exists p op,
    snd (loadPresets w) = Resolved tt /\
    startsWith (id p) "offline_" = true /\
    name p = "MY GRIMOIRE (Offline)" /\ spell_ids p = [] /\ user_id p = uid u /\
    presets (fst (loadPresets w)) = [p] /\
    activePresetId (fst (loadPresets w)) = Some (id p) /\
    error (fst (loadPresets w)) = None /\
    loading (fst (loadPresets w)) = false /\
    calls (fst (loadPresets w)) = calls w /\
    queue (fst (loadPresets w)) = ObjectStore.put op_id op (queue w) /\
    op_type op = CREATE_PRESET /\
    op_data op = PresetFields (default_data (uid u)) /\
    snd (CacheManager.getCachedFavoritePresets (uid u) (sys (fst (loadPresets w))))
    = Resolved [p].
Proof.
  intros Hu Hc Ho Hcached.
  assert (exists p op w',
            loadPresets w = (w', Resolved tt) /\
            startsWith (id p) "offline_" = true /\
            name p = "MY GRIMOIRE (Offline)" /\ spell_ids p = [] /\
            user_id p = uid u /\
            presets w' = [p] /\ activePresetId w' = Some (id p) /\
            error w' = None /\ loading w' = false /\ calls w' = calls w /\
            queue w' = ObjectStore.put op_id op (queue w) /\
            op_type op = CREATE_PRESET /\
            op_data op = PresetFields (default_data (uid u)) /\
            snd (CacheManager.getCachedFavoritePresets (uid u) (sys w')) = Resolved [p])
    as (p & op & w' & E & H).
  { unfold loadPresets. unfold bind at 1. unfold get at 1. rewrite Hu.
    rewrite (HookFacts.step_bind (setLoading true) _ _ _ _ eq_refl).
    rewrite (HookFacts.step_bind (setError None) _ _ _ _ eq_refl).
    unfold finally, try_catch.
    match goal with
    | |- context [bind (cache (CacheManager.getCachedFavoritePresets ?U)) ?k ?w0] =>
        rewrite (HookFacts.step_bind _ k w0 _ _
                   (DrainFacts.cache_run _ w0 _ _
                      (CacheFacts.getCachedFavoritePresets_opened U (sys w0) d Ho)))
    end.
    rewrite Hcached, Hc. cbn [map].
    rewrite (HookFacts.step_bind (ret tt) _ _ _ _ eq_refl).
    match goal with
    | |- context [createDefaultOfflinePreset ?w0] =>
        destruct (LoadFacts.createDefaultOfflinePreset_spec w0 d u Hu eq_refl)
          as (p & op & w1 & E1 & H1 & H2 & H3 & H4 & H5 & H6 & H7 & H8 & H9 & H10
              & H11 & H12 & _ & H14);
        rewrite E1
    end.
    exists p, op. eexists. split; [reflexivity|].
    cbn in H7, H8, H9.
    assert (queue w1 = ObjectStore.put op_id op (queue w)) as Hq.
    { rewrite H10. unfold queue, pending_of. rewrite Ho. reflexivity. }
    cbn. repeat split; try assumption; reflexivity. }
  exists p, op. rewrite E. cbn [fst snd]. split; [reflexivity|exact H].
Qed.

Lemma loadPresets_offline_empty_witness :
  exists p,
    presets (fst (loadPresets
                    (@Sample.first_visit (Sample.table true) [] false)))
    = [p] /\
    name p = "MY GRIMOIRE (Offline)".
Proof.
  destruct (loadPresets_offline_empty
              (@Sample.first_visit (Sample.table true) [] false)
              empty_DB {| uid := "u1" |} eq_refl eq_refl eq_refl eq_refl)
    as (p & op & _ & _ & H3 & _ & _ & H6 & _).
  exists p. split; [exact H6|exact H3].
Defined.

(** X25. Loading while connected. For a signed-in, connected user on an
    available store, when the server answers with a non-empty list, the
    presets shown after [loadPresets] are exactly the server's, whatever was
    cached; the active preset stays when it is set and names one of them,
    and otherwise becomes the first of them, so it always names a preset of
    the list; one request is sent, nothing is queued and no error is set. *)
Theorem loadPresets_connected {RS : RemoteStore}
  (w : World) (d : DB) (u : User) (r' : Remote)
  (first : FavoritePreset) (rest : list FavoritePreset) :
  user w = Some u ->
  isConnected (status w) = true ->
  opened (sys w) = Some d ->
  remote_select (uid u) (remote w) = (r', inl (first :: rest)) ->
  snd (loadPresets w) = Resolved tt /\
  presets (fst (loadPresets w)) = first :: rest /\
  activePresetId (fst (loadPresets w))
  = (if truthy_str (activePresetId w)
        && existsb (fun preset => opt_eqb (activePresetId w) (id preset)) (first :: rest)
     then activePresetId w else Some (id first)) /\
  (exists p, In p (first :: rest) /\
             activePresetId (fst (loadPresets w)) = Some (id p)) /\
  error (fst (loadPresets w)) = None /\
  loading (fst (loadPresets w)) = false /\
  calls (fst (loadPresets w)) = calls w ++ [Select (uid u)] /\
  queue (fst (loadPresets w)) = queue w.
Proof.
  intros Hu Hc Ho Hsel.
  destruct (LoadFacts.loadPresets_connected_runs w d u Hu Hc Ho)
    as (w2 & E & Hu2 & Ho2 & Hr2 & Hc2 & He2 & _ & Ha2).
  rewrite <- Hr2 in Hsel.
  destruct (LoadFacts.loadPresetsFromSupabase_data (activePresetId w) w2 d u r' first rest
              (eq_trans Hu2 Hu) Ho2 Hsel)
    as (w3 & E3 & Hp3 & Ha3 & He3 & _ & Hc3 & _ & Hq3).
  assert (activePresetId w3
          = (if truthy_str (activePresetId w)
                && existsb (fun preset => opt_eqb (activePresetId w) (id preset))
                     (first :: rest)
             then activePresetId w else Some (id first))) as Hact.
  { rewrite Ha3. destruct (truthy_str (activePresetId w)) eqn:Ht; cbn [negb andb];
      [|reflexivity].
    destruct (existsb _ (first :: rest)); [|reflexivity].
    rewrite Ha2. destruct (map pr_data _); reflexivity. }
  rewrite E. unfold finally, try_catch. rewrite E3. cbn [fst snd setLoading modify].
  cbn [presets activePresetId error loading calls].
  split; [reflexivity|]. split; [exact Hp3|]. split; [exact Hact|].
  split.
  { rewrite Hact.
    destruct (truthy_str (activePresetId w)
              && existsb (fun preset => opt_eqb (activePresetId w) (id preset))
                   (first :: rest)) eqn:Hb.
    - apply andb_true_iff in Hb. destruct Hb as [_ Hb].
      apply existsb_exists in Hb. destruct Hb as (p & Hin & Hp).
      exists p. split; [exact Hin|].
      unfold opt_eqb in Hp. destruct (activePresetId w) as [x|]; [|discriminate].
      apply String.eqb_eq in Hp. rewrite Hp. reflexivity.
    - exists first. split; [left; reflexivity|reflexivity]. }
  split; [congruence|]. split; [reflexivity|].
  split; [congruence|].
  unfold queue in *. cbn [sys]. rewrite Hq3. unfold pending_of. rewrite Ho2, Ho.
  reflexivity.
Qed.

Lemma loadPresets_connected_witness :
  presets (fst (loadPresets Sample.idle_world)) = [Sample.preset "p1" "A" "u1"] /\
  activePresetId (fst (loadPresets Sample.idle_world)) = Some "p1".
Proof.
  destruct (loadPresets_connected Sample.idle_world empty_DB {| uid := "u1" |}
              _ (Sample.preset "p1" "A" "u1") [] eq_refl eq_refl eq_refl eq_refl)
    as (_ & H2 & H3 & _).
  split; [exact H2|exact H3].
Defined.

(** X26. A first load. For a signed-in, connected user on an available store,
    when the server has no preset for the user and accepts the insertion of
    the default one, [loadPresets] ends with that row ["MY GRIMOIRE"] as the
    only and the active preset, after two requests (the selection and the
    insertion of the default fields) and with no error. *)
Theorem loadPresets_first_time {RS : RemoteStore}
  (w : World) (d : DB) (u : User) (r1 r2 : Remote) (data : FavoritePreset) :
  user w = Some u ->
  isConnected (status w) = true ->
  opened (sys w) = Some d ->
  remote_select (uid u) (remote w) = (r1, inl []) ->
  remote_insert (PresetFields (default_data (uid u))) r1 = (r2, inl data) ->
  snd (loadPresets w) = Resolved tt /\
  presets (fst (loadPresets w)) = [data] /\
  activePresetId (fst (loadPresets w)) = Some (id data) /\
  error (fst (loadPresets w)) = None /\
  loading (fst (loadPresets w)) = false /\
  calls (fst (loadPresets w))
  = calls w ++ [Select (uid u); Insert (PresetFields (default_data (uid u)))] /\
  queue (fst (loadPresets w)) = queue w.
Proof.
  intros Hu Hc Ho Hsel Hins.
  destruct (LoadFacts.loadPresets_connected_runs w d u Hu Hc Ho)
    as (w2 & E & Hu2 & Ho2 & Hr2 & Hc2 & He2 & _ & _).
  rewrite <- Hr2 in Hsel.
  destruct (LoadFacts.loadPresetsFromSupabase_empty (activePresetId w) w2 d u r1 r2 _
              (eq_trans Hu2 Hu) Ho2 Hsel Hins)
    as (w3 & E3 & Hp3 & Ha3 & He3 & _ & Hc3 & _ & Hq3).
  rewrite E. unfold finally, try_catch. rewrite E3. cbn [fst snd setLoading modify].
  cbn [presets activePresetId error loading calls].
  split; [reflexivity|]. split; [exact Hp3|]. split; [exact Ha3|].
  split; [congruence|]. split; [reflexivity|]. split; [congruence|].
  unfold queue in *. cbn [sys]. rewrite Hq3. unfold pending_of. rewrite Ho2, Ho.
  reflexivity.
Qed.

Lemma loadPresets_first_time_witness :
  exists data,
    presets (fst (loadPresets
                    (@Sample.first_visit (Sample.table true) [] true)))
    = [data] /\
    name data = "MY GRIMOIRE".
Proof.
  eexists.
  destruct (loadPresets_first_time
              (@Sample.first_visit (Sample.table true) [] true)
              empty_DB {| uid := "u1" |} _ _ _ eq_refl eq_refl eq_refl eq_refl eq_refl)
    as (_ & H2 & _).
  split; [exact H2|reflexivity].
Defined.

(** X27. A first load whose default preset cannot be created. When the server
    has no preset for the user and refuses the insertion of the default
    one, the failure is swallowed: [loadPresets] resolves with an empty
    preset list and with no error message set. *)
Theorem loadPresets_default_refused {RS : RemoteStore}
  (w : World) (d : DB) (u : User) (r1 r2 : Remote) (e : Err) :
  user w = Some u ->
  isConnected (status w) = true ->
  opened (sys w) = Some d ->
  remote_select (uid u) (remote w) = (r1, inl []) ->
  remote_insert (PresetFields (default_data (uid u))) r1 = (r2, inr e) ->
  snd (loadPresets w) = Resolved tt /\
  presets (fst (loadPresets w)) = [] /\
  error (fst (loadPresets w)) = None /\
  loading (fst (loadPresets w)) = false /\
  queue (fst (loadPresets w)) = queue w.
Proof.
  intros Hu Hc Ho Hsel Hins.
  destruct (LoadFacts.loadPresets_connected_runs w d u Hu Hc Ho)
    as (w2 & E & Hu2 & Ho2 & Hr2 & Hc2 & He2 & _ & _).
  rewrite <- Hr2 in Hsel.
  destruct (LoadFacts.loadPresetsFromSupabase_empty (activePresetId w) w2 d u r1 r2 _
              (eq_trans Hu2 Hu) Ho2 Hsel Hins)
    as (w3 & E3 & Hp3 & Ha3 & He3 & _ & Hc3 & _ & Hq3).
  rewrite E. unfold finally, try_catch. rewrite E3. cbn [fst snd setLoading modify].
  cbn [presets activePresetId error loading calls].
  split; [reflexivity|]. split; [exact Hp3|].
  split; [congruence|]. split; [reflexivity|].
  unfold queue in *. cbn [sys]. rewrite Hq3. unfold pending_of. rewrite Ho2, Ho.
  reflexivity.
Qed.

Lemma loadPresets_default_refused_witness :
  presets (fst (loadPresets (@Sample.first_visit Sample.read_only tt true))) = [] /\
  error (fst (loadPresets (@Sample.first_visit Sample.read_only tt true))) = None.
Proof.
  destruct (@loadPresets_default_refused Sample.read_only
              (@Sample.first_visit Sample.read_only tt true) empty_DB {| uid := "u1" |}
              tt tt (PostgrestError "permission denied")
              eq_refl eq_refl eq_refl eq_refl eq_refl)
    as (_ & H2 & H3 & _).
  split; [exact H2|exact H3].
Defined.

(** X28. A failed fetch. For a signed-in, connected user on an available
    store, when the selection is answered with an error, [loadPresets]
    resolves with the error message ["Failed to load favorite presets"];
    the presets shown are the cached ones when the cache holds some for the
    user, and the previous list otherwise; nothing is queued. *)
Theorem loadPresets_fetch_fails {RS : RemoteStore}
  (w : World) (d : DB) (u : User) (r' : Remote) (e : Err) :
  user w = Some u ->
  isConnected (status w) = true ->
  opened (sys w) = Some d ->
  remote_select (uid u) (remote w) = (r', inr e) ->
  snd (loadPresets w) = Resolved tt /\
  error (fst (loadPresets w)) = Some "Failed to load favorite presets" /\
  presets (fst (loadPresets w))
  = match map pr_data (ObjectStore.index_getAll pr_user_id (uid u)
                         (favorite_presets d)) with
    | [] => presets w
    | cached => cached
    end /\
  loading (fst (loadPresets w)) = false /\
  calls (fst (loadPresets w)) = calls w ++ [Select (uid u)] /\
  queue (fst (loadPresets w)) = queue w.
Proof.
  intros Hu Hc Ho Hsel.
  destruct (LoadFacts.loadPresets_connected_runs w d u Hu Hc Ho)
    as (w2 & E & Hu2 & Ho2 & Hr2 & Hc2 & He2 & Hp2 & _).
  rewrite <- Hr2 in Hsel.
  assert (loadPresetsFromSupabase (activePresetId w) w2
          = (set_remote r' (Select (uid u)) w2, Rejected e)) as E3.
  { unfold loadPresetsFromSupabase. unfold bind at 1. unfold get at 1.
    rewrite Hu2, Hu.
    apply (HookFacts.step_bind_rejected _ _ _ _ _
             (LoadFacts.select_run w2 (uid u) r' _ Hsel)). }
  rewrite E. unfold finally, try_catch. rewrite E3.
  cbn [fst snd setLoading setError modify set_remote
       presets activePresetId error loading calls].
  split; [reflexivity|]. split; [reflexivity|]. split; [exact Hp2|].
  split; [reflexivity|]. split; [rewrite Hc2; reflexivity|].
  unfold queue, pending_of. cbn [sys set_remote]. rewrite Ho2, Ho. reflexivity.
Qed.

Lemma loadPresets_fetch_fails_witness :
  error (fst (loadPresets Sample.cut_off_world))
  = Some "Failed to load favorite presets" /\
  presets (fst (loadPresets Sample.cut_off_world)) = presets Sample.cut_off_world.
Proof.
  destruct (loadPresets_fetch_fails Sample.cut_off_world empty_DB {| uid := "u1" |}
              _ _ eq_refl eq_refl eq_refl eq_refl)
    as (_ & H2 & H3 & _).
  split; [exact H2|exact H3].
Defined.

(* ================================================================== *)
(** * The spells hook: favourites and duplicates *)

Module SpellsHookFacts.

Lemma findIndex_range {A : Type} (f : A -> bool) (l : list A) :
  (findIndex f l = -1 \/ 0 <= findIndex f l < Z.of_nat (length l))%Z.
Proof.
  induction l as [|x l IH]; simpl; [left; reflexivity|].
  destruct (f x); [right; lia|].
  destruct (findIndex f l <? 0)%Z eqn:E; [left; reflexivity|].
  apply Z.ltb_ge in E. right. lia.
Qed.

Lemma findIndex_first {A : Type} (f : A -> bool) (p : list A) (x : A) (r : list A) :
  existsb f p = false -> f x = true ->
  findIndex f (p ++ x :: r) = Z.of_nat (length p).
Proof.
  induction p as [|y p IH]; simpl; intros Hp Hx.
  - rewrite Hx. reflexivity.
  - apply orb_false_iff in Hp. destruct Hp as [Hy Hp]. rewrite Hy.
    rewrite (IH Hp Hx).
    destruct (Z.of_nat (length p) <? 0)%Z eqn:E; [apply Z.ltb_lt in E; lia|lia].
Qed.

Lemma findIndex_earlier {A : Type} (f : A -> bool) (p r : list A) :
  existsb f p = true ->
  (0 <= findIndex f (p ++ r) < Z.of_nat (length p))%Z.
Proof.
  induction p as [|y p IH]; simpl; intros Hp; [discriminate|].
  destruct (f y); [lia|]. simpl in Hp. specialize (IH Hp).
  destruct (findIndex f (p ++ r) <? 0)%Z eqn:E; [apply Z.ltb_lt in E; lia|lia].
Qed.

Section Rows.
Variable Row : Type.
Variable row_id : Row -> string.

Lemma seen_before (p : list Row) (x : Row) :
  existsb (fun s => row_id s =? row_id x) p
  = existsb (String.eqb (row_id x)) (map row_id p).
Proof.
  induction p as [|y p IH]; simpl; [reflexivity|].
  rewrite IH, (String.eqb_sym (row_id y) (row_id x)). reflexivity.
Qed.

(** The filter keeps a row exactly when no earlier row has its id. *)
Lemma filter_from_first (self p l : list Row) :
  self = p ++ l ->
  filter_from
    (fun spell index =>
       Z.eqb (Z.of_nat index) (findIndex (fun s => row_id s =? row_id spell) self))
    (length p) l
  = first_of_each row_id (map row_id p) l.
Proof.
  revert p. induction l as [|x l IH]; intros p Hself; simpl; [reflexivity|].
  assert (self = (p ++ [x]) ++ l) as Hnext by (rewrite <- app_assoc; exact Hself).
  specialize (IH (p ++ [x]) Hnext).
  rewrite length_app, Nat.add_1_r, map_app in IH. simpl in IH.
  rewrite <- seen_before.
  destruct (existsb (fun s => row_id s =? row_id x) p) eqn:E.
  - pose proof (findIndex_earlier (fun s => row_id s =? row_id x) p (x :: l) E) as H.
    rewrite <- Hself in H.
    destruct (Z.eqb_spec (Z.of_nat (length p))
                (findIndex (fun s => row_id s =? row_id x) self)) as [Q|Q]; [lia|].
    exact IH.
  - rewrite Hself at 1.
    rewrite (findIndex_first _ p x l E (String.eqb_refl _)), Z.eqb_refl.
    rewrite IH. reflexivity.
Qed.

Lemma uniqueData_first (l : list Row) :
  uniqueData row_id l = first_of_each row_id [] l.
Proof. exact (filter_from_first l [] l eq_refl). Qed.

Lemma In_first_of_each (seen : list string) (l : list Row) (y : Row) :
  In y (first_of_each row_id seen l) -> In y l /\ ~ In (row_id y) seen.
Proof.
  revert seen. induction l as [|x l IH]; intros seen; simpl; [contradiction|].
  assert (In y (first_of_each row_id (seen ++ [row_id x]) l) ->
          In y (x :: l) /\ ~ In (row_id y) seen) as Hlater.
  { intros H. destruct (IH _ H) as [H1 H2]. split; [right; exact H1|].
    intros Hin. apply H2. apply in_or_app. left. exact Hin. }
  destruct (existsb (String.eqb (row_id x)) seen) eqn:E; [apply Hlater|].
  intros [->|H]; [|apply Hlater; exact H].
  split; [left; reflexivity|]. intros Hin.
  assert (existsb (String.eqb (row_id y)) seen = true) as T.
  { apply existsb_exists. exists (row_id y). split; [exact Hin|apply String.eqb_refl]. }
  congruence.
Qed.

Lemma NoDup_first_of_each (seen : list string) (l : list Row) :
  NoDup (map row_id (first_of_each row_id seen l)).
Proof.
  revert seen. induction l as [|x l IH]; intros seen; simpl; [constructor|].
  destruct (existsb (String.eqb (row_id x)) seen); [apply IH|].
  simpl. constructor; [|apply IH].
  intros Hin. apply in_map_iff in Hin. destruct Hin as (y & Hy & Hin).
  apply In_first_of_each in Hin. destruct Hin as [_ Hn].
  apply Hn. apply in_or_app. right. left. symmetry. exact Hy.
Qed.

Lemma find_first_of_each (seen : list string) (l : list Row) (k : string) :
  find (fun s => row_id s =? k) (first_of_each row_id seen l)
  = if existsb (String.eqb k) seen then None else find (fun s => row_id s =? k) l.
Proof.
  revert seen. induction l as [|x l IH]; intros seen; simpl.
  - destruct (existsb (String.eqb k) seen); reflexivity.
  - assert (find (fun s => row_id s =? k) (first_of_each row_id (seen ++ [row_id x]) l)
            = if existsb (String.eqb k) seen then None
              else if row_id x =? k then None else find (fun s => row_id s =? k) l)
      as Hlater.
    { rewrite IH, existsb_app. simpl. rewrite orb_false_r.
      rewrite (String.eqb_sym k (row_id x)).
      destruct (existsb (String.eqb k) seen); [reflexivity|].
      destruct (row_id x =? k); reflexivity. }
    destruct (existsb (String.eqb (row_id x)) seen) eqn:E.
    + rewrite Hlater. destruct (existsb (String.eqb k) seen) eqn:Ek; [reflexivity|].
      destruct (String.eqb_spec (row_id x) k) as [Q|Q]; [|reflexivity].
      rewrite Q in E. congruence.
    + simpl. destruct (String.eqb_spec (row_id x) k) as [Q|Q].
      * rewrite <- Q, E. reflexivity.
      * exact Hlater.
Qed.

Lemma first_of_each_fixed (seen : list string) (l : list Row) :
  NoDup (map row_id l) -> (forall x, In x l -> ~ In (row_id x) seen) ->
  first_of_each row_id seen l = l.
Proof.
  revert seen. induction l as [|x l IH]; intros seen N H; simpl; [reflexivity|].
  inversion N as [|k ks Hk N']; subst.
  destruct (existsb (String.eqb (row_id x)) seen) eqn:E.
  - exfalso. apply existsb_exists in E. destruct E as (k & Hin & Hk').
    apply String.eqb_eq in Hk'. subst k. apply (H x); [left; reflexivity|exact Hin].
  - f_equal. apply IH; [exact N'|].
    intros y Hy Hin. apply in_app_or in Hin. destruct Hin as [Hin|[Q|[]]].
    + apply (H y); [right; exact Hy|exact Hin].
    + apply Hk. rewrite Q. apply in_map. exact Hy.
Qed.

End Rows.
End SpellsHookFacts.

(** X29. Removing duplicate rows. The filter of [loadSpellsFromSupabase] keeps,
    for every id, the first row that carries it and no other: the rows kept
    have distinct ids and are rows of the input, looking up an id in the
    result finds the same row as in the input, and a list whose ids are
    already distinct is returned as it is. *)
Theorem uniqueData_keeps_first (Row : Type) (row_id : Row -> string) (l : list Row) :
  NoDup (map row_id (uniqueData row_id l)) /\
  (forall y, In y (uniqueData row_id l) -> In y l) /\
  (forall k, find (fun s => row_id s =? k) (uniqueData row_id l)
             = find (fun s => row_id s =? k) l) /\
  (NoDup (map row_id l) -> uniqueData row_id l = l) /\
  uniqueData row_id (uniqueData row_id l) = uniqueData row_id l.
Proof.
  rewrite !SpellsHookFacts.uniqueData_first.
  assert (NoDup (map row_id (first_of_each row_id [] l))) as N
    by apply SpellsHookFacts.NoDup_first_of_each.
  split; [exact N|].
  split; [intros y Hy; apply (SpellsHookFacts.In_first_of_each Row row_id [] l y Hy)|].
  split; [intros k; apply (SpellsHookFacts.find_first_of_each Row row_id [] l k)|].
  split.
  - intros N0. apply SpellsHookFacts.first_of_each_fixed; [exact N0|]. intros x _ [].
  - apply SpellsHookFacts.first_of_each_fixed; [exact N|]. intros x _ [].
Qed.

Lemma uniqueData_keeps_first_witness :
  uniqueData fst [("fireball", 3%Z); ("shield", 1%Z)]
  = [("fireball", 3%Z); ("shield", 1%Z)].
Proof.
  apply (uniqueData_keeps_first (string * Z) fst).
  repeat constructor; simpl; intuition discriminate.
Defined.

(** X30. Toggling a favourite. The updater of [toggleFavorite] flips the
    membership of the spell and of no other: afterwards the spell is a
    favourite exactly when it was not one before, every other id is a
    favourite exactly when it was; a list without repetition stays without
    repetition; and toggling twice a spell that was not a favourite gives
    back the list. *)
Theorem toggleFavorite_flips (s : string) (prev : list string) :
  (In s (toggleFavorite s prev) <-> ~ In s prev) /\
  (forall x, x <> s -> (In x (toggleFavorite s prev) <-> In x prev)) /\
  (NoDup prev -> NoDup (toggleFavorite s prev)) /\
  (~ In s prev -> toggleFavorite s (toggleFavorite s prev) = prev).
Proof.
  unfold toggleFavorite at 1 2 3.
  destruct (existsb (String.eqb s) prev) eqn:E; cbv iota.
  - assert (In s prev) as Hin.
    { apply existsb_exists in E. destruct E as (x & Hx & Q).
      apply String.eqb_eq in Q. subst x. exact Hx. }
    split; [|split; [|split]].
    + rewrite filter_In, String.eqb_refl. split; [intros [_ H]; discriminate|tauto].
    + intros x Hx. rewrite filter_In. split; [tauto|].
      intros H. split; [exact H|]. apply negb_true_iff, String.eqb_neq. exact Hx.
    + apply NoDup_filter.
    + tauto.
  - assert (~ In s prev) as Hnin.
    { intros Hin. rewrite SpellFacts.includes_true in E; [discriminate|exact Hin]. }
    split; [|split; [|split]].
    + rewrite in_app_iff. simpl. tauto.
    + intros x Hx. rewrite in_app_iff. simpl. split; [|tauto].
      intros [H|[H|[]]]; [exact H|congruence].
    + intros N. apply NoDup_app; [exact N|repeat constructor; intros []|].
      intros x Hx [<-|[]]. contradiction.
    + intros _. unfold toggleFavorite. rewrite E.
      rewrite SpellFacts.includes_true by (apply in_or_app; right; left; reflexivity).
      apply SpellFacts.filter_out_appended. exact Hnin.
Qed.

Lemma toggleFavorite_flips_witness :
  toggleFavorite "fireball" (toggleFavorite "fireball" ["shield"]) = ["shield"].
Proof.
  apply (toggleFavorite_flips "fireball" ["shield"]).
  intros [H|[]]. discriminate H.
Defined.

(* ================================================================== *)
(** * Passes that overlap *)

Module OverlapFacts.
Section Overlap.
Context {RS : RemoteStore}.

Lemma pass_run_add (n k : nat) (st : World * Pass) :
  pass_run (n + k) st = pass_run k (pass_run n st).
Proof. revert st. induction n as [|n IH]; intros st; simpl; [reflexivity|apply IH]. Qed.

Lemma pass_run_settled (n : nat) (w : World) (r : bool) :
  pass_run n (w, Settled r) = (w, Settled r).
Proof. induction n as [|n IH]; simpl; [reflexivity|exact IH]. Qed.

(** The loop of a pass that nothing interrupts is [sync_loop]. *)
Lemma loop_alone (pending : list PendingOperation) :
  forall (sc fc : nat) (w : World),
  exists n w' sc' fc',
    sync_loop pending sc fc w = (w', Resolved (sc', fc')) /\
    pass_run n (pass_next pending sc fc w) = pass_next [] sc' fc' w'.
Proof.
  induction pending as [|op rest IH]; intros sc fc w.
  - exists 0, w, sc, fc. split; reflexivity.
  - cbn [sync_loop]. unfold bind at 1. unfold try_catch at 1. unfold bind at 1.
    destruct (processOperation op w) as [w1 [[]|e]] eqn:E1.
    + unfold bind at 1.
      destruct (cache (CacheManager.removePendingOperation (op_id op)) w1)
        as [w2 [[]|e]] eqn:E2.
      * unfold ret at 1. cbv iota beta.
        destruct (IH (S sc) fc w2) as (n & w' & sc' & fc' & Hl & Hr).
        exists (S (S n)), w', sc', fc'. split; [exact Hl|].
        cbn [pass_next pass_run fst snd pass_resume]. rewrite E1.
        cbn [pass_run fst snd pass_resume]. rewrite E2. exact Hr.
      * unfold ret at 1. cbv iota beta.
        destruct (IH sc (S fc) w2) as (n & w' & sc' & fc' & Hl & Hr).
        exists (S (S n)), w', sc', fc'. split; [exact Hl|].
        cbn [pass_next pass_run fst snd pass_resume]. rewrite E1.
        cbn [pass_run fst snd pass_resume]. rewrite E2. exact Hr.
    + unfold ret at 1. cbv iota beta.
      destruct (IH sc (S fc) w1) as (n & w' & sc' & fc' & Hl & Hr).
      exists (S n), w', sc', fc'. split; [exact Hl|].
      cbn [pass_next pass_run fst snd pass_resume]. rewrite E1. exact Hr.
Qed.

(** Begun and resumed until it settles, with nothing in between, a pass
    is [syncPendingOperations]. *)
Lemma pass_alone (snap : NetworkStatus) (w : World) :
  exists n r,
    syncPendingOperations snap w = (fst (pass_run n (pass_begin snap w)), Resolved r) /\
    snd (pass_run n (pass_begin snap w)) = Settled r.
Proof.
  unfold syncPendingOperations, pass_begin. unfold bind at 1. unfold get at 1.
  destruct (user w) as [u|]; [|exists 0, false; split; reflexivity].
  destruct (isConnected snap); cbn [negb]; [|exists 0, false; split; reflexivity].
  rewrite (HookFacts.step_bind (setStatus _) _ _ _ _ eq_refl).
  unfold finally, try_catch. unfold bind at 1.
  match goal with
  | |- context [cache (CacheManager.getPendingOperations (uid u)) ?x] => set (w0 := x)
  end.
  change (fst (setStatus (set_syncing true) w)) with w0.
  destruct (cache (CacheManager.getPendingOperations (uid u)) w0)
    as [w1 [pending|e]] eqn:E1.
  2:{ exists 1, false. cbn [pass_run fst snd pass_resume]. rewrite E1.
      split; reflexivity. }
  destruct (loop_alone pending 0 0 w1) as (n & w2 & sc & fc & Hl & Hr).
  unfold bind at 1. rewrite Hl. cbv iota beta. cbn [fst snd].
  destruct (0 <? sc)%nat eqn:Hsc.
  - unfold bind at 1. unfold bind at 1.
    destruct (cache Date_now w2) as [w3 [t|e]] eqn:E3.
    2:{ unfold cache, Date_now in E3. discriminate. }
    unfold bind at 1.
    destruct (cache (CacheManager.setMetadata "last_sync_time" t) w3)
      as [w4 [[]|e]] eqn:E4.
    + exists (S n + 1), (fc =? 0)%nat.
      rewrite !pass_run_add. cbn [pass_run fst snd pass_resume]. rewrite E1.
      rewrite Hr. cbn [pass_next]. rewrite Hsc, E3.
      cbn [pass_run fst snd pass_resume]. rewrite E4.
      unfold pass_end, bind, setStatus, toast, modify, ret.
      destruct (0 <? fc)%nat; split; reflexivity.
    + exists (S n + 1), false.
      rewrite !pass_run_add. cbn [pass_run fst snd pass_resume]. rewrite E1.
      rewrite Hr. cbn [pass_next]. rewrite Hsc, E3.
      cbn [pass_run fst snd pass_resume]. rewrite E4.
      split; reflexivity.
  - exists (S n), (fc =? 0)%nat.
    change (S n) with (1 + n). rewrite pass_run_add.
    cbn [pass_run fst snd pass_resume]. rewrite E1.
    rewrite Hr. cbn [pass_next]. rewrite Hsc.
    unfold pass_end, bind, setStatus, toast, modify, ret.
    destruct (0 <? fc)%nat; split; reflexivity.
Qed.

End Overlap.
End OverlapFacts.

(** C3, on the code. Nothing keeps two passes apart (C2), and a pass is
    suspended at each [await]. When a second call of
    [syncPendingOperations] is made while the first awaits its read of the
    queue, both passes read the same operations. The first replays the
    operation [op], the server accepts it, and the first removes it from
    the queue; resumed, the second replays [op] again, although it is no
    longer queued: the request of [op] is sent twice. *)
Theorem overlapping_passes_replay_twice {RS : RemoteStore}
  (snapA snapB : NetworkStatus) (w : World) (d : DB) (u : User)
  (op : PendingOperation) (rest : list PendingOperation) :
  opened (sys w) = Some d ->
  user w = Some u ->
  isConnected snapA = true ->
  isConnected snapB = true ->
  ObjectStore.index_getAll op_user_id (uid u) (pending_operations d) = op :: rest ->
  snd (processOperation op w) = Resolved tt ->
  let read := overlap [true; false] (begin_two snapA snapB w) in
  let removed := overlap [true; true] read in
  let again := overlap [false] removed in
  snd read = (AwaitProcess op rest 0 0, AwaitProcess op rest 0 0) /\
  calls (fst removed) = calls w ++ request_of op /\
  ~ In op (queue (fst removed)) /\
  snd (snd removed) = AwaitProcess op rest 0 0 /\
  calls (fst again) = calls w ++ request_of op ++ request_of op.
Proof.
  intros Ho Hu HcA HcB Hq Hok read removed again.
  assert (snd (answer_of op (remote w)) = true) as Hans.
  { destruct (DrainFacts.processOperation_spec op w) as (_ & _ & _ & _ & _ & _ & _ & Hko).
    destruct (snd (answer_of op (remote w))); [reflexivity|].
    destruct (Hko eq_refl) as [e He]. rewrite He in Hok. discriminate. }
  (* both calls, then both reads *)
  assert (exists w2,
            read = (w2, (AwaitProcess op rest 0 0, AwaitProcess op rest 0 0)) /\
            opened (sys w2) = Some d /\ remote w2 = remote w /\ calls w2 = calls w)
    as (w2 & Eread & Ho2 & Hr2 & Hc2).
  { subst read. unfold begin_two, pass_begin. rewrite Hu, HcA. cbn [negb].
    cbn [user setStatus modify fst]. rewrite Hu, HcB. cbn [negb fst].
    cbn [overlap fold_left resume_one pass_resume].
    match goal with
    | |- context [cache (CacheManager.getPendingOperations (uid u)) ?w0] =>
        rewrite (DrainFacts.cache_run _ w0 _ _
                   (CacheFacts.getPendingOperations_opened (uid u) (sys w0) d Ho))
    end.
    rewrite Hq. cbn [pass_next resume_one pass_resume].
    match goal with
    | |- context [cache (CacheManager.getPendingOperations (uid u)) ?w0] =>
        rewrite (DrainFacts.cache_run _ w0 _ _
                   (CacheFacts.getPendingOperations_opened (uid u) (sys w0) d eq_refl))
    end.
    rewrite Hq. cbn [pass_next].
    eexists. split; [reflexivity|]. repeat split. }
  (* the first pass replays the operation and removes it *)
  assert (exists w4 pa,
            removed = (w4, (pa, AwaitProcess op rest 0 0)) /\
            calls w4 = calls w ++ request_of op /\
            ~ In op (queue w4)) as (w4 & pa & Erem & Hc4 & Hn4).
  { subst removed. rewrite Eread.
    cbn [overlap fold_left resume_one pass_resume].
    destruct (DrainFacts.processOperation_spec op w2)
      as (Hs3 & _ & Hc3 & _ & _ & _ & Hgood & _).
    rewrite Hr2 in Hgood. specialize (Hgood Hans).
    destruct (processOperation op w2) as [w3 r3]. cbn [fst snd] in *. subst r3.
    cbn [resume_one pass_resume].
    assert (opened (sys w3) = Some d) as Ho3 by (rewrite Hs3; exact Ho2).
    rewrite (DrainFacts.cache_run _ w3 _ _
               (CacheFacts.removePendingOperation_opened (op_id op) (sys w3) d Ho3)).
    match goal with
    | |- context [pass_next rest 1 0 ?w0] =>
        assert (calls (fst (pass_next rest 1 0 w0)) = calls w0 /\
                queue (fst (pass_next rest 1 0 w0)) = queue w0) as (Hcn & Hqn)
    end.
    { destruct rest; cbn; split; reflexivity. }
    match goal with
    | |- context [pass_next rest 1 0 ?w0] =>
        destruct (pass_next rest 1 0 w0) as [w4 pa]
    end.
    cbn [fst] in *. exists w4, pa. split; [reflexivity|].
    split; [rewrite Hcn; cbn; rewrite Hc3, Hc2; reflexivity|].
    rewrite Hqn. unfold queue, pending_of. cbn.
    intros Hin. apply StoreFacts.In_delete in Hin. destruct Hin as [_ Hin].
    apply Hin. reflexivity. }
  (* the second pass replays it again *)
  assert (calls (fst again) = calls w4 ++ request_of op) as Hagain.
  { subst again. rewrite Erem.
    cbn [overlap fold_left resume_one pass_resume].
    destruct (DrainFacts.processOperation_spec op w4) as (_ & _ & Hc5 & _).
    destruct (processOperation op w4) as [w5 [[]|e]]; cbn [fst] in *; [exact Hc5|].
    assert (calls (fst (pass_next rest 0 1 w5)) = calls w5) as Hcn
      by (destruct rest; reflexivity).
    destruct (pass_next rest 0 1 w5) as [w6 pb]. cbn [fst] in *.
    rewrite Hcn. exact Hc5. }
  rewrite Eread, Erem. cbn [fst snd].
  split; [reflexivity|]. split; [exact Hc4|]. split; [exact Hn4|].
  split; [reflexivity|].
  rewrite Hagain, Hc4, <- app_assoc. reflexivity.
Qed.

Lemma overlapping_passes_replay_twice_witness :
  calls (fst (overlap [true; false; true; true; false]
                (begin_two (Sample.network true false 1) (Sample.network true false 1)
                   Sample.delete_world)))
  = [Delete (Some "p1") "u1"; Delete (Some "p1") "u1"] /\
  queue (fst (overlap [true; false; true; true]
                (begin_two (Sample.network true false 1) (Sample.network true false 1)
                   Sample.delete_world)))
  = [].
Proof.
  destruct (overlapping_passes_replay_twice
              (Sample.network true false 1) (Sample.network true false 1)
              Sample.delete_world Sample.delete_db {| uid := "u1" |}
              {| op_id := "DELETE_PRESET_1000_0.1"; op_type := DELETE_PRESET;
                 op_data := DeleteTarget "p1"; op_timestamp := 1000;
                 op_user_id := "u1" |} []
              eq_refl eq_refl eq_refl eq_refl eq_refl eq_refl)
    as (_ & _ & _ & _ & H5).
  split; [exact H5|reflexivity].
Defined.
